(** * Swap-execution safety pipeline of the wallet tracker

    A shallow embedding of the [SwapExecutor] class of the automated swap
    execution module (constructor, [initializeProvider], [executeSwap],
    [validateSwapParameters], [verifyBalanceAndAllowance],
    [calculateSwapDetails], [buildSwapTransaction], [emergencyStop],
    [resumeTrading]) and the properties of its pipeline.

    Conventions of the embedding:
    - a JavaScript [Error] is its message; a function that can throw returns
      [Exc A = string + A] ([inl msg] is [throw new Error(msg)]);
    - [bigint] values are [Z];
    - JavaScript numbers that the code only moves around or feeds to
      arithmetic (slippage, limits, deadline) are values of an abstract
      type with the operators the code applies to them ([JsNumber]); the
      three statistics counters, which start at 0 and are only ever changed
      by [++], are integers with the double-precision behaviour of [++]
      written out ([js_incr]); the arithmetic of the quote is studied on
      the numbers themselves, IEEE 754 binary64 values ([Binary64]);
    - the ethers library and the RPC collaborators (wallet, provider, ERC-20
      contract, router interface) are interfaces: a class for the library,
      a record of responses for the chain; every call to a collaborator is
      appended to a log of events, whether it resolves or rejects;
    - calls of the asynchronous methods are modelled one after the other
      (each call is awaited before the next starts). *)

From Stdlib Require Import ZArith QArith Lqa List String Ascii Bool Lia DecimalString Floats.
Import ListNotations.

Local Open Scope string_scope.
Local Open Scope Z_scope.

Set Implicit Arguments.

(* ------------------------------------------------------------------ *)
(** ** JavaScript values used by the module *)
(* ------------------------------------------------------------------ *)

(** Result of code that may throw: [inl msg] is a thrown [Error] whose
    [message] is [msg]. *)
Definition Exc (A : Type) : Type := (string + A)%type.

(** [!s] for a value that is a string or [undefined]. *)
Definition falsy (s : option string) : bool :=
  match s with
  | None => true
  | Some EmptyString => true
  | Some _ => false
  end.

(** Rendering of a string-or-undefined value inside a template literal;
    also the value itself once it is known to be a string. *)
Definition the (s : option string) : string :=
  match s with
  | Some v => v
  | None => "undefined"
  end.

(** [v || d] for a string-or-undefined [v]. *)
Definition or_default (v : option string) (d : string) : string :=
  if falsy v then d else the v.

(** [a || b] for a boolean-or-undefined [a] and a boolean [b]. *)
Definition js_or (a : option bool) (b : bool) : bool :=
  match a with
  | Some true => true
  | Some false => b
  | None => b
  end.

(** [n++] on a counter holding a non-negative integer: doubles represent
    every integer up to 2^53 exactly, and 2^53 + 1 rounds back to 2^53. *)
Definition js_incr (n : Z) : Z :=
  if n <? 2 ^ 53 then n + 1 else n.

(** [b.toString()] for a bigint [b]. *)
Definition bigint_toString (b : Z) : string :=
  NilZero.string_of_int (Z.to_int b).

(** The message of the [ReferenceError] raised when an identifier does
    not resolve. *)
Definition ReferenceError (name : string) : string :=
  (name ++ " is not defined")%string.

(** JavaScript numbers (IEEE doubles) with the operations the module
    applies to them. *)
Class JsNumber : Type := {
  number : Type;
  num_of_Z : Z -> number;                   (* an integer literal *)
  num_add : number -> number -> number;     (* a + b *)
  num_sub : number -> number -> number;     (* a - b *)
  num_mul : number -> number -> number;     (* a * b *)
  num_div : number -> number -> number;     (* a / b *)
  num_floor : number -> number;             (* Math.floor(a) *)
  parseFloat : string -> number;
  parseInt : string -> number;
  num_toString : number -> string           (* a.toString() *)
}.

(* ------------------------------------------------------------------ *)
(** ** Constants of the module *)
(* ------------------------------------------------------------------ *)

Definition UNISWAP_V3_ROUTER_ADDRESS : string :=
  "0xE592427A0AEce92De3Edee1F18E0157C05861564".

Module TOKEN_ADDRESSES.
Definition WETH : string := "0xC02aaA39b223FE8D0A0e5C4F27eAD9083C756Cc2".
Definition USDC : string := "0xA0b86a33E6411C8BF1d2A2fA7C9e4aB8d8a0b8b8".
Definition USDT : string := "0xdAC17F958D2ee523a2206206994597C13D831ec7".
Definition SHIB : string := "0x95aD61b0a150d79219dCF64E1E6Cc01f0B64C4cE".
Definition UNI : string := "0x1f9840a85d5af5bf1d1762f925bdaddc4201f984".
End TOKEN_ADDRESSES.

(* ------------------------------------------------------------------ *)
(** ** Data model *)
(* ------------------------------------------------------------------ *)

Section DataModel.

Context {JN : JsNumber}.

(** [this.config] *)
Record Config : Type := {
  maxSlippagePercent : number;
  maxTransactionValueETH : number;
  maxGasPriceGwei : number;
  gasLimitMultiplier : number;
  transactionDeadlineMinutes : number;
  enableRealTrading : bool;
  cfg_emergencyStop : bool
}.

(** [this.stats] *)
Record Stats : Type := {
  totalSwapsRequested : Z;
  totalSwapsExecuted : Z;
  totalSwapsFailed : Z;
  totalVolumeETH : number;
  totalGasSpentETH : number;
  lastSwapTime : option Z;
  startTime : Z
}.

(** The fields of a [SwapExecutor] instance that the methods read or
    write. The provider, wallet and router objects are the RPC
    collaborators below. *)
Record SwapExecutor : Type := {
  privateKey : option string;
  config : Config;
  stats : Stats;
  isEnabled : bool
}.

(** The [swapParams] argument of [executeSwap]; an absent property is
    [None]. *)
Record SwapParams : Type := {
  sp_tokenIn : option string;
  sp_tokenOut : option string;
  sp_amountIn : option string;
  sp_slippagePercent : option number;
  sp_dryRun : option bool;
  sp_reason : option string
}.

(** The object returned by [calculateSwapDetails]. *)
Record SwapDetails : Type := {
  tokenInAddress : string;
  tokenOutAddress : string;
  sd_amountIn : string;
  estimatedOutput : string;
  minOutputAfterSlippage : string;
  sd_slippagePercent : number;
  fee : Z
}.

(** The [params] tuple of the router's [exactInputSingle]. *)
Record ExactInputSingleParams : Type := {
  p_tokenIn : string;
  p_tokenOut : string;
  p_fee : Z;
  p_recipient : string;
  p_deadline : number;
  p_amountIn : Z;
  p_amountOutMinimum : Z;
  p_sqrtPriceLimitX96 : Z
}.

(** The transaction object returned by [buildSwapTransaction]. *)
Record Transaction : Type := {
  tx_to : string;
  tx_data : string;
  tx_value : Z
}.

Record FeeData : Type := {
  gasPrice : option Z          (* null on networks without a legacy price *)
}.

Record TransactionResponse : Type := {
  hash : string
}.

(** The receipt as the code reads it. [effectiveGasPrice] is a property
    the executor expects on it; a receipt of the library version the
    module is written for (top-level [parseUnits], bigint amounts)
    carries [gasPrice] instead, and the property is then [undefined]. *)
Record TransactionReceipt : Type := {
  rc_blockNumber : Z;
  rc_gasUsed : Z;
  rc_effectiveGasPrice : option Z
}.

(** The object [executeSwap] resolves to. Of the three object literals
    in the source, the one of the dry-run return is never completed
    (see [executeSwap_try]); its [estimatedGas] and [estimatedCost]
    properties therefore have no field here. *)
Record ExecutionResult : Type := {
  success : bool;
  dryRun : bool;
  error : option string;
  transactionHash : option string;
  blockNumber : option Z;
  gasUsed : option string;
  swapDetails : option SwapDetails
}.

(** Calls to the collaborators, in the order they are issued. *)
Inductive Event : Type :=
| EvGetAddress                                   (* wallet.getAddress() *)
| EvGetBalance (account : string)                (* provider.getBalance(account) *)
| EvBalanceOf (token account : string)           (* token.balanceOf(account) *)
| EvDecimals (token : string)                    (* token.decimals() *)
| EvAllowance (token owner spender : string)     (* token.allowance(owner, spender) *)
| EvEstimateGas (tx : Transaction)               (* wallet.estimateGas(tx) *)
| EvGetFeeData                                   (* provider.getFeeData() *)
| EvSendTransaction (tx : Transaction)           (* wallet.sendTransaction(tx) *)
| EvWait (tx : TransactionResponse).             (* txResponse.wait() *)

(** The chain as seen through the provider and the wallet: what each
    call resolves to ([inr]) or rejects with ([inl]); [Date_now] is the
    clock in milliseconds. *)
Record Rpc : Type := {
  wallet_getAddress : Exc string;
  provider_getBalance : string -> Exc Z;
  erc20_balanceOf : string -> string -> Exc Z;
  erc20_decimals : string -> Exc Z;
  erc20_allowance : string -> string -> string -> Exc Z;
  wallet_estimateGas : Transaction -> Exc Z;
  provider_getFeeData : Exc FeeData;
  wallet_sendTransaction : Transaction -> Exc TransactionResponse;
  tx_wait : TransactionResponse -> Exc TransactionReceipt;
  Date_now : Z
}.

(** [process.env] *)
Record ProcessEnv : Type := {
  TRADING_PRIVATE_KEY : option string;
  MAX_SLIPPAGE_PERCENT : option string;
  MAX_TRANSACTION_VALUE_ETH : option string;
  MAX_GAS_PRICE_GWEI : option string;
  GAS_LIMIT_MULTIPLIER : option string;
  TRANSACTION_DEADLINE_MINUTES : option string;
  ENABLE_REAL_TRADING : option string
}.

(** The functions of the ethers library (v6 API) that the module calls. *)
Class Ethers : Type := {
  isAddress : string -> bool;
  parseUnits : string -> Z -> Exc Z;
  formatUnits : Z -> Z -> string;
  (* router.interface.encodeFunctionData('exactInputSingle', [params]) *)
  encodeFunctionData : ExactInputSingleParams -> Exc string;
  (* new ethers.Wallet(privateKey, provider) *)
  Wallet_new : option string -> Exc unit
}.

End DataModel.

Arguments Config {JN}.
Arguments Stats {JN}.
Arguments SwapExecutor {JN}.
Arguments SwapParams {JN}.
Arguments SwapDetails {JN}.
Arguments ExactInputSingleParams {JN}.
Arguments ExecutionResult {JN}.
Arguments Rpc : clear implicits.
Arguments Event : clear implicits.
Arguments Ethers {JN}.

(* ------------------------------------------------------------------ *)
(** ** Effects: executor state, call log, exceptions *)
(* ------------------------------------------------------------------ *)

Section Effects.

Context {JN : JsNumber}.

(** What a method can change: the executor object ([this]) and the log
    of calls made to the collaborators. *)
Record World : Type := {
  self : SwapExecutor;
  calls : list Event
}.

(** A method body: it ends with a value or a thrown error, and the
    changes it made before a throw stay. *)
Definition M (A : Type) : Type := World -> Exc A * World.

Definition ret {A} (a : A) : M A := fun w => (inr a, w).

Definition throw {A} (msg : string) : M A := fun w => (inl msg, w).

Definition bind {A B} (m : M A) (k : A -> M B) : M B :=
  fun w =>
    match m w with
    | (inr a, w') => k a w'
    | (inl msg, w') => (inl msg, w')
    end.

(** [try { m } catch (e) { h(e.message) }] *)
Definition try_catch {A} (m : M A) (h : string -> M A) : M A :=
  fun w =>
    match m w with
    | (inr a, w') => (inr a, w')
    | (inl msg, w') => h msg w'
    end.

(** A pure computation that may throw. *)
Definition lift {A} (e : Exc A) : M A := fun w => (e, w).

(** [await] of a call to a collaborator: the call is logged, then it
    resolves or rejects. *)
Definition call {A} (ev : Event) (response : Exc A) : M A :=
  fun w => (response, {| self := self w; calls := (calls w ++ [ev])%list |}).

Definition get_self : M SwapExecutor := fun w => (inr (self w), w).

Definition update_stats (f : Stats -> Stats) : M unit :=
  fun w =>
    (inr tt,
     {| self := {| privateKey := privateKey (self w);
                   config := config (self w);
                   stats := f (stats (self w));
                   isEnabled := isEnabled (self w) |};
        calls := calls w |}).

End Effects.

Declare Scope js_scope.
Delimit Scope js_scope with js.
Notation "x <- m ;; k" := (bind m (fun x => k))
  (at level 100, m at next level, right associativity) : js_scope.
Notation "m ;;; k" := (bind m (fun _ => k))
  (at level 100, right associativity) : js_scope.

(* ------------------------------------------------------------------ *)
(** ** The SwapExecutor class *)
(* ------------------------------------------------------------------ *)

Section SwapExecutorClass.

Context {JN : JsNumber} {ETH : Ethers}.

Local Open Scope js_scope.

(** [ethers.parseEther] and [ethers.formatEther] are the 18-decimal
    instances of [parseUnits] and [formatUnits]. *)
Definition parseEther (s : string) : Exc Z := parseUnits s 18.
Definition formatEther (v : Z) : string := formatUnits v 18.

(** [key.startsWith('0x')] *)
Definition startsWith_0x (key : string) : bool := String.prefix "0x" key.

(** [constructor()]: every path leaves [isEnabled] false; the executor is
    enabled by [initializeProvider] only. [now] is [new Date()]. *)
Definition constructor (env : ProcessEnv) (now : Z) : SwapExecutor :=
  let key : option string :=
    if falsy (TRADING_PRIVATE_KEY env) then None else TRADING_PRIVATE_KEY env in
  let cfg :=
    {| maxSlippagePercent := parseFloat (or_default (MAX_SLIPPAGE_PERCENT env) "0.5");
       maxTransactionValueETH := parseFloat (or_default (MAX_TRANSACTION_VALUE_ETH env) "0.1");
       maxGasPriceGwei := parseInt (or_default (MAX_GAS_PRICE_GWEI env) "100");
       gasLimitMultiplier := parseFloat (or_default (GAS_LIMIT_MULTIPLIER env) "1.2");
       transactionDeadlineMinutes :=
         parseInt (or_default (TRANSACTION_DEADLINE_MINUTES env) "10");
       enableRealTrading :=
         match ENABLE_REAL_TRADING env with
         | Some v => String.eqb v "true"
         | None => false
         end;
       cfg_emergencyStop := false |} in
  let sts :=
    {| totalSwapsRequested := 0;
       totalSwapsExecuted := 0;
       totalSwapsFailed := 0;
       totalVolumeETH := num_of_Z 0;
       totalGasSpentETH := num_of_Z 0;
       lastSwapTime := None;
       startTime := now |} in
  match key with
  | None =>
      {| privateKey := key; config := cfg; stats := sts; isEnabled := false |}
  | Some k =>
      if negb (startsWith_0x k) || negb (Nat.eqb (String.length k) 66)
      then {| privateKey := key; config := cfg; stats := sts; isEnabled := false |}
      else {| privateKey := key; config := cfg; stats := sts; isEnabled := false |}
  end.

Definition set_isEnabled (b : bool) : M unit :=
  fun w =>
    (inr tt,
     {| self := {| privateKey := privateKey (self w);
                   config := config (self w);
                   stats := stats (self w);
                   isEnabled := b |};
        calls := calls w |}).

(** [initializeProvider(provider)] *)
Definition initializeProvider (rpc : Rpc) : M unit :=
  try_catch
    (this <- get_self ;;
     lift (Wallet_new (privateKey this)) ;;;
     address <- call EvGetAddress (wallet_getAddress rpc) ;;
     balance <- call (EvGetBalance address) (provider_getBalance rpc address) ;;
     let balanceETH := formatEther balance in
     set_isEnabled true)
    (fun _ => set_isEnabled false).

(** [validateSwapParameters(params)] *)
Definition validateSwapParameters (params : SwapParams) : Exc unit :=
  let tokenIn := sp_tokenIn params in
  let tokenOut := sp_tokenOut params in
  let amountIn := sp_amountIn params in
  if falsy tokenIn || falsy tokenOut || falsy amountIn then
    inl "Missing required parameters: tokenIn, tokenOut, amountIn"
  else if negb (String.eqb (the tokenIn) "ETH") && negb (isAddress (the tokenIn)) then
    inl ("Invalid tokenIn address: " ++ the tokenIn)%string
  else if negb (String.eqb (the tokenOut) "ETH") && negb (isAddress (the tokenOut)) then
    inl ("Invalid tokenOut address: " ++ the tokenOut)%string
  else if String.eqb (the tokenIn) (the tokenOut) then
    inl "Cannot swap token to itself"
  else
    (* try { parseUnits; if (amount <= 0) throw ... } catch { throw Invalid amount format } *)
    match parseUnits (the amountIn) 18 with
    | inr amount =>
        if amount <=? 0
        then inl ("Invalid amount format: " ++ the amountIn)%string
        else inr tt
    | inl _ => inl ("Invalid amount format: " ++ the amountIn)%string
    end.

(** [verifyBalanceAndAllowance(tokenAddress, amount)] *)
Definition verifyBalanceAndAllowance (rpc : Rpc) (tokenAddress amount : string) : M unit :=
  walletAddress <- call EvGetAddress (wallet_getAddress rpc) ;;
  if String.eqb tokenAddress "ETH" then
    ethBalance <- call (EvGetBalance walletAddress) (provider_getBalance rpc walletAddress) ;;
    requiredAmount <- lift (parseEther amount) ;;
    if ethBalance <? requiredAmount then
      throw ("Insufficient ETH balance. Required: " ++ amount ++ ", Available: "
             ++ formatEther ethBalance)%string
    else ret tt
  else
    tokenBalance <- call (EvBalanceOf tokenAddress walletAddress)
                         (erc20_balanceOf rpc tokenAddress walletAddress) ;;
    tokenDecimals <- call (EvDecimals tokenAddress) (erc20_decimals rpc tokenAddress) ;;
    requiredAmount <- lift (parseUnits amount tokenDecimals) ;;
    if tokenBalance <? requiredAmount then
      throw ("Insufficient token balance. Required: " ++ amount ++ ", Available: "
             ++ formatUnits tokenBalance tokenDecimals)%string
    else
      currentAllowance <-
        call (EvAllowance tokenAddress walletAddress UNISWAP_V3_ROUTER_ADDRESS)
             (erc20_allowance rpc tokenAddress walletAddress UNISWAP_V3_ROUTER_ADDRESS) ;;
      if currentAllowance <? requiredAmount then
        throw ("Insufficient token allowance. Please approve " ++ amount
               ++ " tokens for the Uniswap router.")%string
      else ret tt.

(** [calculateSwapDetails(tokenIn, tokenOut, amountIn, slippagePercent)] *)
Definition calculateSwapDetails
    (tokenIn tokenOut amountIn : string) (slippagePercent : number) : SwapDetails :=
  let tokenInAddress' :=
    if String.eqb tokenIn "ETH" then TOKEN_ADDRESSES.WETH else tokenIn in
  let tokenOutAddress' :=
    if String.eqb tokenOut "ETH" then TOKEN_ADDRESSES.WETH else tokenOut in
  let estimatedOutput' := amountIn in
  let minOutputAfterSlippage' :=
    num_toString
      (num_mul (parseFloat estimatedOutput')
               (num_sub (num_of_Z 1) (num_div slippagePercent (num_of_Z 100)))) in
  {| tokenInAddress := tokenInAddress';
     tokenOutAddress := tokenOutAddress';
     sd_amountIn := amountIn;
     estimatedOutput := estimatedOutput';
     minOutputAfterSlippage := minOutputAfterSlippage';
     sd_slippagePercent := slippagePercent;
     fee := 3000 |}.

(** The [params] object assembled inside [buildSwapTransaction]. *)
Definition exactInputSingleParams
    (cfg : Config) (now : Z) (recipientAddress : string) (details : SwapDetails)
  : Exc ExactInputSingleParams :=
  let deadline :=
    num_add (num_floor (num_div (num_of_Z now) (num_of_Z 1000)))
            (num_mul (transactionDeadlineMinutes cfg) (num_of_Z 60)) in
  match parseUnits (sd_amountIn details) 18 with
  | inl e => inl e
  | inr amountIn' =>
      match parseUnits (minOutputAfterSlippage details) 18 with
      | inl e => inl e
      | inr amountOutMinimum' =>
          inr {| p_tokenIn := tokenInAddress details;
                 p_tokenOut := tokenOutAddress details;
                 p_fee := fee details;
                 p_recipient := recipientAddress;
                 p_deadline := deadline;
                 p_amountIn := amountIn';
                 p_amountOutMinimum := amountOutMinimum';
                 p_sqrtPriceLimitX96 := 0 |}
      end
  end.

(** The [value] property of the transaction object. *)
Definition transactionValue (details : SwapDetails) : Exc Z :=
  if String.eqb (tokenInAddress details) TOKEN_ADDRESSES.WETH
  then parseUnits (sd_amountIn details) 18
  else inr 0.

(** [buildSwapTransaction(swapDetails)] *)
Definition buildSwapTransaction (rpc : Rpc) (details : SwapDetails) : M Transaction :=
  this <- get_self ;;
  recipientAddress <- call EvGetAddress (wallet_getAddress rpc) ;;
  params <- lift (exactInputSingleParams (config this) (Date_now rpc)
                                         recipientAddress details) ;;
  data <- lift (encodeFunctionData params) ;;
  value <- lift (transactionValue details) ;;
  ret {| tx_to := UNISWAP_V3_ROUTER_ADDRESS; tx_data := data; tx_value := value |}.

(** Stage 6 of [executeSwap], the inner [try] block. Its [const]
    bindings ([simulationResult], [gasPrice], [estimatedCostWei],
    [estimatedCostETH]) are scoped to that block: the block hands nothing
    to the statements after it. *)
Definition simulate (rpc : Rpc) (transaction : Transaction) : M unit :=
  try_catch
    (simulationResult <-
       call (EvEstimateGas transaction) (wallet_estimateGas rpc transaction) ;;
     feeData <- call EvGetFeeData (provider_getFeeData rpc) ;;
     match gasPrice feeData with
     | Some price =>
         let estimatedCostWei := simulationResult * price in
         let estimatedCostETH := formatEther estimatedCostWei in
         ret tt
     | None =>
         (* bigint * null *)
         throw "Cannot mix BigInt and other types, use explicit conversions"
     end)
    (fun simulationError => throw ("Swap would fail: " ++ simulationError)%string).

Definition incr_requested (s : Stats) : Stats :=
  {| totalSwapsRequested := js_incr (totalSwapsRequested s);
     totalSwapsExecuted := totalSwapsExecuted s;
     totalSwapsFailed := totalSwapsFailed s;
     totalVolumeETH := totalVolumeETH s;
     totalGasSpentETH := totalGasSpentETH s;
     lastSwapTime := lastSwapTime s;
     startTime := startTime s |}.

Definition incr_failed (s : Stats) : Stats :=
  {| totalSwapsRequested := totalSwapsRequested s;
     totalSwapsExecuted := totalSwapsExecuted s;
     totalSwapsFailed := js_incr (totalSwapsFailed s);
     totalVolumeETH := totalVolumeETH s;
     totalGasSpentETH := totalGasSpentETH s;
     lastSwapTime := lastSwapTime s;
     startTime := startTime s |}.

Definition incr_executed (s : Stats) : Stats :=
  {| totalSwapsRequested := totalSwapsRequested s;
     totalSwapsExecuted := js_incr (totalSwapsExecuted s);
     totalSwapsFailed := totalSwapsFailed s;
     totalVolumeETH := totalVolumeETH s;
     totalGasSpentETH := totalGasSpentETH s;
     lastSwapTime := lastSwapTime s;
     startTime := startTime s |}.

Definition add_gasSpent (gasETH : number) (s : Stats) : Stats :=
  {| totalSwapsRequested := totalSwapsRequested s;
     totalSwapsExecuted := totalSwapsExecuted s;
     totalSwapsFailed := totalSwapsFailed s;
     totalVolumeETH := totalVolumeETH s;
     totalGasSpentETH := num_add (totalGasSpentETH s) gasETH;
     lastSwapTime := lastSwapTime s;
     startTime := startTime s |}.

Definition set_lastSwapTime (now : Z) (s : Stats) : Stats :=
  {| totalSwapsRequested := totalSwapsRequested s;
     totalSwapsExecuted := totalSwapsExecuted s;
     totalSwapsFailed := totalSwapsFailed s;
     totalVolumeETH := totalVolumeETH s;
     totalGasSpentETH := totalGasSpentETH s;
     lastSwapTime := Some now;
     startTime := startTime s |}.

(** The three statements that update the statistics after a confirmed
    transaction, in the order of the source: the executed counter is
    incremented first; then the gas cost is computed, and the product
    [receipt.gasUsed * receipt.effectiveGasPrice] of a bigint and
    [undefined] raises a [TypeError], which leaves the incremented
    counter behind; then the time of the swap is set. *)
Definition record_executed (receipt : TransactionReceipt) (now : Z) : M unit :=
  update_stats incr_executed ;;;
  match rc_effectiveGasPrice receipt with
  | Some price =>
      update_stats (add_gasSpent (parseFloat (formatEther (rc_gasUsed receipt * price))))
  | None =>
      (* bigint * undefined *)
      throw "Cannot mix BigInt and other types, use explicit conversions"
  end ;;;
  update_stats (set_lastSwapTime now).

(** The body of the outer [try] of [executeSwap].

    At the dry-run [return] the object literal reads [simulationResult]
    (and then [estimatedCostETH]), which were declared with [const]
    inside the inner [try] block and are not in scope there: evaluating
    [simulationResult?.toString()] raises a [ReferenceError] (optional
    chaining guards a null value, not an unresolved identifier), so the
    [return] is never completed and control passes to the outer
    [catch]. *)
Definition executeSwap_try (rpc : Rpc) (swapParams : SwapParams) : M ExecutionResult :=
  this <- get_self ;;
  (* Stage 1: safety and validation checks *)
  if negb (isEnabled this) then
    throw "Swap executor not enabled or configured properly"
  else if cfg_emergencyStop (config this) then
    throw "Emergency stop activated - all trading suspended"
  else
    lift (validateSwapParameters swapParams) ;;;
    update_stats incr_requested ;;;
    (* Stage 2: parameter preparation *)
    let tokenIn := the (sp_tokenIn swapParams) in
    let tokenOut := the (sp_tokenOut swapParams) in
    let amountIn := the (sp_amountIn swapParams) in
    let slippagePercent :=
      match sp_slippagePercent swapParams with
      | Some s => s
      | None => maxSlippagePercent (config this)
      end in
    let dryRun' :=
      match sp_dryRun swapParams with
      | Some d => d
      | None => true
      end in
    (* Stage 3: balance and allowance verification *)
    verifyBalanceAndAllowance rpc tokenIn amountIn ;;;
    (* Stage 4: swap route and price calculation *)
    let swapDetails' := calculateSwapDetails tokenIn tokenOut amountIn slippagePercent in
    (* Stage 5: transaction construction *)
    transaction <- buildSwapTransaction rpc swapDetails' ;;
    (* Stage 6: simulation *)
    simulate rpc transaction ;;;
    (* Stage 7: execution decision *)
    if dryRun' then
      throw (ReferenceError "simulationResult")
    else
      (* Stage 8: real execution *)
      if negb (enableRealTrading (config this)) then
        throw "Real trading is disabled. Set ENABLE_REAL_TRADING=true to execute swaps."
      else
        txResponse <-
          call (EvSendTransaction transaction) (wallet_sendTransaction rpc transaction) ;;
        receipt <- call (EvWait txResponse) (tx_wait rpc txResponse) ;;
        record_executed receipt (Date_now rpc) ;;;
        ret {| success := true;
               dryRun := false;
               error := None;
               transactionHash := Some (hash txResponse);
               blockNumber := Some (rc_blockNumber receipt);
               gasUsed := Some (bigint_toString (rc_gasUsed receipt));
               swapDetails := Some swapDetails' |}.

(** [executeSwap(swapParams)]: the outer [try] with its [catch]. The
    method always resolves to a result object. *)
Definition executeSwap (rpc : Rpc) (swapParams : SwapParams) (w : World)
  : ExecutionResult * World :=
  match executeSwap_try rpc swapParams w with
  | (inr result, w') => (result, w')
  | (inl message, w') =>
      ({| success := false;
          dryRun := js_or (sp_dryRun swapParams) true;
          error := Some message;
          transactionHash := None;
          blockNumber := None;
          gasUsed := None;
          swapDetails := None |},
       snd (update_stats incr_failed w'))
  end.

Definition set_emergencyStop (b : bool) (this : SwapExecutor) : SwapExecutor :=
  {| privateKey := privateKey this;
     config := {| maxSlippagePercent := maxSlippagePercent (config this);
                  maxTransactionValueETH := maxTransactionValueETH (config this);
                  maxGasPriceGwei := maxGasPriceGwei (config this);
                  gasLimitMultiplier := gasLimitMultiplier (config this);
                  transactionDeadlineMinutes := transactionDeadlineMinutes (config this);
                  enableRealTrading := enableRealTrading (config this);
                  cfg_emergencyStop := b |};
     stats := stats this;
     isEnabled := isEnabled this |}.

(** [emergencyStop()] *)
Definition emergencyStop (this : SwapExecutor) : SwapExecutor :=
  set_emergencyStop true this.

(** [resumeTrading()] *)
Definition resumeTrading (this : SwapExecutor) : SwapExecutor :=
  set_emergencyStop false this.

(** *** Running methods on an executor *)

(** One awaited [executeSwap] call on executor [this]: the result, the
    executor afterwards, and the calls made to the collaborators. *)
Definition runSwap (rpc : Rpc) (this : SwapExecutor) (swapParams : SwapParams)
  : ExecutionResult * SwapExecutor * list Event :=
  let '(result, w) := executeSwap rpc swapParams {| self := this; calls := [] |} in
  (result, self w, calls w).

Definition resultOf (run : ExecutionResult * SwapExecutor * list Event) : ExecutionResult :=
  fst (fst run).

Definition executorOf (run : ExecutionResult * SwapExecutor * list Event) : SwapExecutor :=
  snd (fst run).

Definition callsOf (run : ExecutionResult * SwapExecutor * list Event) : list Event :=
  snd run.

Definition runInitializeProvider (rpc : Rpc) (this : SwapExecutor) : SwapExecutor :=
  self (snd (initializeProvider rpc {| self := this; calls := [] |})).

(** The public methods a client can call on an executor. *)
Inductive MethodCall : Type :=
| InitializeProvider (rpc : Rpc)
| ExecuteSwap (rpc : Rpc) (swapParams : SwapParams)
| EmergencyStop
| ResumeTrading.

Definition invoke (this : SwapExecutor) (c : MethodCall) : SwapExecutor :=
  match c with
  | InitializeProvider rpc => runInitializeProvider rpc this
  | ExecuteSwap rpc swapParams => executorOf (runSwap rpc this swapParams)
  | EmergencyStop => emergencyStop this
  | ResumeTrading => resumeTrading this
  end.

(** The executor after a sequence of calls, each awaited. *)
Definition invokeAll (this : SwapExecutor) (cs : list MethodCall) : SwapExecutor :=
  fold_left invoke cs this.

(** A broadcast: [sendTransaction] was called. *)
Definition isBroadcast (ev : Event) : bool :=
  match ev with
  | EvSendTransaction _ => true
  | _ => false
  end.

(** The [value] of each transaction that was broadcast. *)
Fixpoint broadcastValues (evs : list Event) : list Z :=
  match evs with
  | EvSendTransaction tx :: rest => tx_value tx :: broadcastValues rest
  | _ :: rest => broadcastValues rest
  | [] => []
  end.

(** A pre-flight simulation: [estimateGas] was called. *)
Definition isSimulation (ev : Event) : bool :=
  match ev with
  | EvEstimateGas _ => true
  | _ => false
  end.

(** A balance or allowance query. *)
Definition isBalanceQuery (ev : Event) : bool :=
  match ev with
  | EvGetBalance _ | EvBalanceOf _ _ | EvDecimals _ | EvAllowance _ _ _ => true
  | _ => false
  end.

End SwapExecutorClass.

(* ------------------------------------------------------------------ *)
(** ** Vocabulary of the properties *)
(* ------------------------------------------------------------------ *)

Section Vocabulary.

Context {JN : JsNumber} {ETH : Ethers}.

Definition NOT_ENABLED : string := "Swap executor not enabled or configured properly".

Definition EMERGENCY_STOP : string := "Emergency stop activated - all trading suspended".

(** The checks of stage 1 as a function of the executor and the
    request: the error of the first check that fails. *)
Definition stage1 (this : SwapExecutor) (req : SwapParams) : Exc unit :=
  if negb (isEnabled this) then inl NOT_ENABLED
  else if cfg_emergencyStop (config this) then inl EMERGENCY_STOP
  else validateSwapParameters req.

(** The request with its [slippagePercent] property replaced. *)
Definition with_slippage (s : option number) (req : SwapParams) : SwapParams :=
  {| sp_tokenIn := sp_tokenIn req;
     sp_tokenOut := sp_tokenOut req;
     sp_amountIn := sp_amountIn req;
     sp_slippagePercent := s;
     sp_dryRun := sp_dryRun req;
     sp_reason := sp_reason req |}.

(** The executor with its [config.maxTransactionValueETH] replaced. *)
Definition with_maxTransactionValueETH (m : number) (this : SwapExecutor) : SwapExecutor :=
  {| privateKey := privateKey this;
     config := {| maxSlippagePercent := maxSlippagePercent (config this);
                  maxTransactionValueETH := m;
                  maxGasPriceGwei := maxGasPriceGwei (config this);
                  gasLimitMultiplier := gasLimitMultiplier (config this);
                  transactionDeadlineMinutes := transactionDeadlineMinutes (config this);
                  enableRealTrading := enableRealTrading (config this);
                  cfg_emergencyStop := cfg_emergencyStop (config this) |};
     stats := stats this;
     isEnabled := isEnabled this |}.

(** The executor with its statistics replaced. *)
Definition with_stats (s : Stats) (this : SwapExecutor) : SwapExecutor :=
  {| privateKey := privateKey this;
     config := config this;
     stats := s;
     isEnabled := isEnabled this |}.

(** The first balance query of [verifyBalanceAndAllowance] for input
    token [tokenIn] and wallet address [account]. *)
Definition firstBalanceQuery (tokenIn account : string) : Event :=
  if String.eqb tokenIn "ETH" then EvGetBalance account
  else EvBalanceOf tokenIn account.

(** The statistics invariant as the specification words it. *)
Definition sum_within_requested (s : Stats) : Prop :=
  totalSwapsExecuted s + totalSwapsFailed s <= totalSwapsRequested s.

(** The statistics invariant that the code keeps. *)
Definition counters_ok (s : Stats) : Prop :=
  0 <= totalSwapsExecuted s <= totalSwapsRequested s /\ 0 <= totalSwapsFailed s.

(** A method call moves each of the three counters by at most one step,
    and the executed counter only in a call that also counted the
    request. *)
Definition one_step_per_counter (before after : Stats) : Prop :=
  (totalSwapsRequested after = totalSwapsRequested before
   \/ totalSwapsRequested after = js_incr (totalSwapsRequested before))
  /\ (totalSwapsExecuted after = totalSwapsExecuted before
      \/ (totalSwapsExecuted after = js_incr (totalSwapsExecuted before)
          /\ totalSwapsRequested after = js_incr (totalSwapsRequested before)))
  /\ (totalSwapsFailed after = totalSwapsFailed before
      \/ totalSwapsFailed after = js_incr (totalSwapsFailed before)).

(** A run that was rejected without a balance or allowance query, a
    simulation or a broadcast. *)
Definition rejected_before_io (run : ExecutionResult * SwapExecutor * list Event) : Prop :=
  let '(res, _, evs) := run in
  success res = false
  /\ existsb isBalanceQuery evs = false
  /\ existsb isSimulation evs = false
  /\ existsb isBroadcast evs = false.

(** A run that failed with the emergency-stop error and called no
    collaborator. *)
Definition stopped_by_emergency (run : ExecutionResult * SwapExecutor * list Event) : Prop :=
  let '(res, _, evs) := run in
  success res = false /\ error res = Some EMERGENCY_STOP /\ evs = [].

End Vocabulary.

(* ------------------------------------------------------------------ *)
(** ** Status, sessions and callers *)
(* ------------------------------------------------------------------ *)

Section Sessions.

Context {JN : JsNumber} {ETH : Ethers}.

(** The receipt of the transaction that a run sent and saw confirmed:
    [wait()] was called on the response and resolved. *)
Fixpoint confirmedReceipt (rpc : Rpc) (evs : list Event) : option TransactionReceipt :=
  match evs with
  | EvWait response :: rest =>
      match tx_wait rpc response with
      | inr receipt => Some receipt
      | inl _ => confirmedReceipt rpc rest
      end
  | _ :: rest => confirmedReceipt rpc rest
  | [] => None
  end.

(** The [configuration] object of [getStatus()]. *)
Record StatusConfiguration : Type := {
  sc_maxSlippagePercent : number;
  sc_maxTransactionValueETH : number;
  sc_enableRealTrading : bool
}.

(** The object returned by [getStatus()]. *)
Record Status : Type := {
  st_isEnabled : bool;
  st_emergencyStop : bool;
  st_configuration : StatusConfiguration;
  st_statistics : Stats
}.

(** [getStatus()] *)
Definition getStatus (this : SwapExecutor) : Status :=
  {| st_isEnabled := isEnabled this;
     st_emergencyStop := cfg_emergencyStop (config this);
     st_configuration :=
       {| sc_maxSlippagePercent := maxSlippagePercent (config this);
          sc_maxTransactionValueETH := maxTransactionValueETH (config this);
          sc_enableRealTrading := enableRealTrading (config this) |};
     st_statistics := stats this |}.

(** One method call with the calls it makes to the collaborators. *)
Definition invokeWithCalls (this : SwapExecutor) (c : MethodCall)
  : SwapExecutor * list Event :=
  match c with
  | InitializeProvider rpc =>
      let w := snd (initializeProvider rpc {| self := this; calls := [] |}) in
      (self w, calls w)
  | ExecuteSwap rpc swapParams =>
      let run := runSwap rpc this swapParams in (executorOf run, callsOf run)
  | EmergencyStop => (emergencyStop this, [])
  | ResumeTrading => (resumeTrading this, [])
  end.

(** All calls made to the collaborators during a sequence of method
    calls, each awaited. *)
Fixpoint sessionCalls (this : SwapExecutor) (cs : list MethodCall) : list Event :=
  match cs with
  | [] => []
  | c :: rest =>
      (snd (invokeWithCalls this c) ++ sessionCalls (fst (invokeWithCalls this c)) rest)%list
  end.

(** [executeSwap] calls, each on the chain as it is at that time. *)
Definition swapCalls (reqs : list (Rpc * SwapParams)) : list MethodCall :=
  map (fun r => ExecuteSwap (fst r) (snd r)) reqs.

(** The executor with [n] more failures counted. *)
Definition with_failures (n : nat) (this : SwapExecutor) : SwapExecutor :=
  with_stats (Nat.iter n incr_failed (stats this)) this.

Definition isResumeTrading (c : MethodCall) : bool :=
  match c with
  | ResumeTrading => true
  | _ => false
  end.

Definition isInitializeProvider (c : MethodCall) : bool :=
  match c with
  | InitializeProvider _ => true
  | _ => false
  end.

(** A query to an ERC-20 contract. *)
Definition isErc20Query (ev : Event) : bool :=
  match ev with
  | EvBalanceOf _ _ | EvDecimals _ | EvAllowance _ _ _ => true
  | _ => false
  end.

(** A query of the native balance. *)
Definition isNativeBalanceQuery (ev : Event) : bool :=
  match ev with
  | EvGetBalance _ => true
  | _ => false
  end.

(** The slippage [executeSwap] works with: the request's, or the
    configured one when the request has none. *)
Definition effectiveSlippage (this : SwapExecutor) (req : SwapParams) : number :=
  match sp_slippagePercent req with
  | Some s => s
  | None => maxSlippagePercent (config this)
  end.

(** The swap details [executeSwap] computes for a request. *)
Definition detailsOf (this : SwapExecutor) (req : SwapParams) : SwapDetails :=
  calculateSwapDetails (the (sp_tokenIn req)) (the (sp_tokenOut req))
                       (the (sp_amountIn req)) (effectiveSlippage this req).

(** The chain answers every query of [verifyBalanceAndAllowance] and the
    answers cover the amount: the balance for the native asset, the
    balance and the allowance to the router for a token. *)
Definition fundsVerified (rpc : Rpc) (tokenIn amount : string) : Prop :=
  exists account,
    wallet_getAddress rpc = inr account
    /\ if String.eqb tokenIn "ETH" then
         exists balance required,
           provider_getBalance rpc account = inr balance
           /\ parseEther amount = inr required
           /\ required <= balance
       else
         exists balance decimals required allowance,
           erc20_balanceOf rpc tokenIn account = inr balance
           /\ erc20_decimals rpc tokenIn = inr decimals
           /\ parseUnits amount decimals = inr required
           /\ required <= balance
           /\ erc20_allowance rpc tokenIn account UNISWAP_V3_ROUTER_ADDRESS = inr allowance
           /\ required <= allowance.

(** The two assets of the request are present, each is the native
    sentinel or an address, and they differ as strings. *)
Definition validAssets (req : SwapParams) : Prop :=
  falsy (sp_tokenIn req) = false
  /\ falsy (sp_tokenOut req) = false
  /\ (the (sp_tokenIn req) = "ETH" \/ isAddress (the (sp_tokenIn req)) = true)
  /\ (the (sp_tokenOut req) = "ETH" \/ isAddress (the (sp_tokenOut req)) = true)
  /\ the (sp_tokenIn req) <> the (sp_tokenOut req).

(** The request with its [dryRun] property replaced. *)
Definition with_dryRun (d : option bool) (req : SwapParams) : SwapParams :=
  {| sp_tokenIn := sp_tokenIn req;
     sp_tokenOut := sp_tokenOut req;
     sp_amountIn := sp_amountIn req;
     sp_slippagePercent := sp_slippagePercent req;
     sp_dryRun := d;
     sp_reason := sp_reason req |}.

(** The request of [demonstrateSwapExecution]. *)
Definition demoSwapParams : SwapParams :=
  {| sp_tokenIn := Some "ETH";
     sp_tokenOut := Some TOKEN_ADDRESSES.SHIB;
     sp_amountIn := Some "0.01";
     sp_slippagePercent := Some (num_of_Z 1);
     sp_dryRun := Some true;
     sp_reason := Some "Manual demo execution" |}.

(** [demonstrateSwapExecution()] of the test script: the result of the
    dry run it executes, or [None] when it returns before executing;
    with it, the calls made to the collaborators. *)
Definition demonstrateSwapExecution (env : ProcessEnv) (now : Z) (rpc : Rpc)
  : option ExecutionResult * list Event :=
  let executor := constructor env now in
  if negb (isEnabled executor) then (None, [])
  else
    let run := runSwap rpc executor demoSwapParams in
    (Some (resultOf run), callsOf run).

End Sessions.

(* ------------------------------------------------------------------ *)
(** ** The meme coin filter

    The module that classifies a decoded transaction against the list of
    tracked token addresses, and maintains that list. The list
    ([MEME_COIN_ADDRESSES], a module-level array that the functions
    mutate) is passed to each function and returned by the ones that
    change it. *)
(* ------------------------------------------------------------------ *)

(** [String.prototype.toLowerCase] of the host. *)
Class JsString : Type := {
  toLowerCase : string -> string
}.

(** The values found among the arguments of a decoded transaction.
    Booleans, numbers and bigints are only ever tested for truthiness by
    the filter. The properties of an object are listed in the order of
    [Object.values]. *)
#[warnings="-register-all"]
Inductive JsValue : Type :=
| JUndefined
| JNull
| JPrim (truthy : bool)
| JStr (s : string)
| JArr (items : list JsValue)
| JObj (props : list (string * JsValue)).

(** The [decodedTx] argument, with the types of its documentation: an
    absent property is [None]. *)
Record DecodedTx : Type := {
  dt_name : option string;
  dt_args : option (list JsValue);
  dt_to : option string
}.

(** The initial contents of [MEME_COIN_ADDRESSES]. *)
Definition MEME_COIN_ADDRESSES : list string :=
  [ "0x95aD61b0a150d79219dCF64E1E6Cc01f0B64C4cE";
    "0x4d224452801ACEd8B2F0aebE155379bb5D594381";
    "0xA0b86a33E6411C8BF1d2A2fA7C9e4aB8d8a0b8b8";
    "0x88ACDd2a6425c3FaAE4Bc9650Fd7E27e0Bebb7aB";
    "0xBa2aE424d960c26247Dd6c32edC70B295c744C43";
    "0x43f11c02439e2736800433b4594994BD43Cd066D";
    "0x853d955aCEf822Db058eb8505911ED77F175b99e";
    "0x6B3595068778DD592e39A122f4f5a5cF09C90fE2";
    "0x1f9840a85d5af5bf1d1762f925bdaddc4201f984" ].

Section MemeCoinFilter.

Context {JS : JsString}.

(** Truthiness of a value. *)
Definition truthy (v : JsValue) : bool :=
  match v with
  | JUndefined | JNull => false
  | JPrim b => b
  | JStr s => negb (String.eqb s "")
  | JArr _ | JObj _ => true
  end.

(** [obj.key] on an object; arrays have no property of the names the
    filter reads. *)
Definition getProp (key : string) (v : JsValue) : JsValue :=
  match v with
  | JObj props =>
      match find (fun kv => String.eqb (fst kv) key) props with
      | Some kv => snd kv
      | None => JUndefined
      end
  | _ => JUndefined
  end.

(** [list.some(addr => addr.toLowerCase() === address.toLowerCase())] *)
Definition tracked (addresses : list string) (address : string) : bool :=
  existsb (fun addr => String.eqb (toLowerCase addr) (toLowerCase address)) addresses.

(** [isMemeAddress(address)], the closure of [isMemeTokenTransaction]:
    membership of the lowercased address in the set of the lowercased
    tracked addresses. *)
Definition isMemeAddress (addresses : list string) (address : JsValue) : bool :=
  match address with
  | JStr s =>
      if String.eqb s "" then false
      else existsb (String.eqb (toLowerCase s)) (map toLowerCase addresses)
  | _ => false
  end.

(** [value.startsWith('0x') && value.length === 42] *)
Definition looksLikeAddress (s : string) : bool :=
  String.prefix "0x" s && Nat.eqb (String.length s) 42.

(** [extractAddressesFromObject(obj)]: the inner [traverse], collecting
    in visiting order. *)
Fixpoint extractAddressesFromObject (value : JsValue) : list string :=
  match value with
  | JStr s => if looksLikeAddress s then [s] else []
  | JArr items => flat_map extractAddressesFromObject items
  | JObj props => flat_map (fun kv => extractAddressesFromObject (snd kv)) props
  | _ => []
  end.

(** [arg && typeof arg === 'object'] *)
Definition isObjectLike (v : JsValue) : bool :=
  match v with
  | JArr _ | JObj _ => true
  | _ => false
  end.

(** One iteration of the loop of [checkNestedCalls]: does it return
    true at this argument? *)
Definition nestedCallMatches (addresses : list string) (arg : JsValue) : bool :=
  if isObjectLike arg then
    (if truthy (getProp "target" arg) || truthy (getProp "to" arg) then
       let target :=
         if truthy (getProp "target" arg) then getProp "target" arg else getProp "to" arg in
       match target with
       | JStr t => tracked addresses t
       | _ => false
       end
     else false)
    || existsb (fun addr => tracked addresses addr) (extractAddressesFromObject arg)
  else false.

(** [checkNestedCalls(args)] *)
Definition checkNestedCalls (addresses : list string) (args : option (list JsValue)) : bool :=
  match args with
  | None => false
  | Some l => existsb (nestedCallMatches addresses) l
  end.

(** One iteration of the loop over [args] in [isMemeTokenTransaction]:
    does it return true at this argument? *)
Definition argumentMatches (addresses : list string) (arg : JsValue) : bool :=
  match arg with
  | JStr s =>
      if String.prefix "0x" s then isMemeAddress addresses arg else false
  | JArr items =>
      existsb (fun item =>
                 match item with
                 | JStr s => String.prefix "0x" s && isMemeAddress addresses item
                 | _ => false
                 end) items
  | JObj _ =>
      existsb (fun addr => isMemeAddress addresses (JStr addr))
              (extractAddressesFromObject arg)
  | _ => false
  end.

(** The [switch] on the lowercased function name. *)
Definition functionPattern
    (addresses : list string) (name : string)
    (args : option (list JsValue)) (to : option string) : bool :=
  let lower := toLowerCase name in
  if String.eqb lower "transfer" || String.eqb lower "transferfrom" then
    match to with
    | Some t => isMemeAddress addresses (JStr t)
    | None => false
    end
  else if String.eqb lower "swapexacttokensfortokens"
          || String.eqb lower "swaptokensforexacttokens"
          || String.eqb lower "swapexactethfortokens"
          || String.eqb lower "swaptokensforexacteth" then
    match args with
    | Some l =>
        match nth_error l 2 with
        | Some (JArr path) => existsb (isMemeAddress addresses) path
        | _ => false
        end
    | None => false
    end
  else if String.eqb lower "multicall" || String.eqb lower "batchswap" then
    checkNestedCalls addresses args
  else false.

(** [isMemeTokenTransaction(decodedTx)]; [None] is a null or undefined
    argument. With arguments of the documented types no statement of the
    body throws, so the [catch] is not entered. *)
Definition isMemeTokenTransaction (addresses : list string) (decodedTx : option DecodedTx)
  : bool :=
  match decodedTx with
  | None => false
  | Some tx =>
      (* Check 1: the target address *)
      if match dt_to tx with
         | Some t => isMemeAddress addresses (JStr t)
         | None => false
         end
      then true
      (* Check 2: the arguments *)
      else if match dt_args tx with
              | Some l => existsb (argumentMatches addresses) l
              | None => false
              end
      then true
      (* Check 3: function-specific patterns *)
      else
        match dt_name tx with
        | Some name =>
            if String.eqb name "" then false
            else functionPattern addresses name (dt_args tx) (dt_to tx)
        | None => false
        end
  end.

(** [addMemeTokenAddress(address)]: the list afterwards, or the error
    thrown. *)
Definition addMemeTokenAddress (addresses : list string) (address : JsValue)
  : Exc (list string) :=
  match address with
  | JStr s =>
      if String.eqb s "" then inl "Address must be a non-empty string"
      else if negb (String.prefix "0x" s) || negb (Nat.eqb (String.length s) 42) then
        inl "Invalid Ethereum address format"
      else
        let normalizedAddress := toLowerCase s in
        if negb (existsb (fun addr => String.eqb (toLowerCase addr) normalizedAddress) addresses)
        then inr (addresses ++ [s])%list
        else inr addresses
  | _ => inl "Address must be a non-empty string"
  end.

(** [removeMemeTokenAddress(address)]: the returned flag and the list
    afterwards. *)
Definition removeMemeTokenAddress (addresses : list string) (address : JsValue)
  : bool * list string :=
  match address with
  | JStr s =>
      if String.eqb s "" then (false, addresses)
      else
        let normalizedAddress := toLowerCase s in
        let initialLength := List.length addresses in
        let updatedAddresses :=
          filter (fun addr => negb (String.eqb (toLowerCase addr) normalizedAddress))
                 addresses in
        let wasRemoved := Nat.ltb (List.length updatedAddresses) initialLength in
        (wasRemoved, updatedAddresses)
  | _ => (false, addresses)
  end.

(** Every string inside a value, at any depth. *)
Fixpoint stringsOf (value : JsValue) : list string :=
  match value with
  | JStr s => [s]
  | JArr items => flat_map stringsOf items
  | JObj props => flat_map (fun kv => stringsOf (snd kv)) props
  | _ => []
  end.

(** Every string that a decoded transaction carries: its target and the
    strings inside its arguments. *)
Definition stringsOfTransaction (tx : DecodedTx) : list string :=
  (match dt_to tx with Some t => [t] | None => [] end
   ++ match dt_args tx with Some l => flat_map stringsOf l | None => [] end)%list.

(** The places where the filter looks for an address whatever the
    function name: the target, a string argument or a string item of an
    array argument that starts with 0x, and a string of the shape of an
    address at any depth inside an object argument. *)
Definition visibleIn (tx : DecodedTx) (s : string) : Prop :=
  (dt_to tx = Some s /\ s <> "")
  \/ exists args,
       dt_args tx = Some args
       /\ ((In (JStr s) args /\ String.prefix "0x" s = true)
           \/ (exists items,
                 In (JArr items) args /\ In (JStr s) items /\ String.prefix "0x" s = true)
           \/ (exists props,
                 In (JObj props) args
                 /\ In s (stringsOf (JObj props))
                 /\ looksLikeAddress s = true)).

End MemeCoinFilter.

(* ------------------------------------------------------------------ *)
(** ** JavaScript numbers as binary64 values

    The arithmetic of IEEE 754 double precision with rounding to nearest,
    ties to even, which is the arithmetic of JavaScript numbers, together
    with [parseFloat], [parseInt], [Math.floor] and [toString]. Strings
    are read as ASCII text, and [parseFloat] rounds the exact value of
    the literal it reads. *)
(* ------------------------------------------------------------------ *)

Module Binary64.

(** A finite double is a whole number of quanta of 2^-1074 (the
    smallest positive double) with at most 53 significant bits, below
    2^1024. [one] is the number 1 and [overflow] the number 2^1024, in
    quanta. *)
Definition one : Z := 2 ^ 1074.
Definition overflow : Z := 2 ^ 2098.

(** A JavaScript number: not-a-number, an infinity, or a sign and a
    magnitude in quanta (so that there are two zeros). *)
Inductive float64 : Type :=
| NaN
| Infinity (negative : bool)
| Finite (negative : bool) (quanta : Z).

(** [n / d] rounded to the nearest integer, ties to even. *)
Definition rne_div (n d : Z) : Z :=
  let q := n / d in
  let r := n mod d in
  if 2 * r <? d then q
  else if d <? 2 * r then q + 1
  else if Z.even q then q else q + 1.

(** The binary exponent of the last place of [n / d] quanta: 0 up to
    2^53 quanta (subnormal numbers and the first binade), and such that
    53 bits remain above. *)
Definition scale (n d : Z) : Z := Z.max 0 (Z.log2 (n / d) - 52).

(** [n / d] quanta rounded to a number of quanta with 53 significant
    bits. *)
Definition round64 (n d : Z) : Z :=
  let j := scale n d in rne_div n (d * 2 ^ j) * 2 ^ j.

Definition rounded (negative : bool) (n d : Z) : float64 :=
  let k := round64 n d in
  if overflow <=? k then Infinity negative else Finite negative k.

(** *** Arithmetic *)

Definition of_Z (z : Z) : float64 := rounded (z <? 0) (Z.abs z * one) 1.

Definition opp (a : float64) : float64 :=
  match a with
  | NaN => NaN
  | Infinity s => Infinity (negb s)
  | Finite s k => Finite (negb s) k
  end.

Definition add (a b : float64) : float64 :=
  match a, b with
  | NaN, _ | _, NaN => NaN
  | Infinity s, Infinity t => if Bool.eqb s t then Infinity s else NaN
  | Infinity s, Finite _ _ => Infinity s
  | Finite _ _, Infinity t => Infinity t
  | Finite s j, Finite t k =>
      let v := (if s then - j else j) + (if t then - k else k) in
      if v =? 0 then Finite (s && t) 0
      else rounded (v <? 0) (Z.abs v) 1
  end.

Definition sub (a b : float64) : float64 := add a (opp b).

Definition mul (a b : float64) : float64 :=
  match a, b with
  | NaN, _ | _, NaN => NaN
  | Infinity s, Infinity t => Infinity (xorb s t)
  | Infinity s, Finite t k => if k =? 0 then NaN else Infinity (xorb s t)
  | Finite s j, Infinity t => if j =? 0 then NaN else Infinity (xorb s t)
  | Finite s j, Finite t k => rounded (xorb s t) (j * k) one
  end.

Definition div (a b : float64) : float64 :=
  match a, b with
  | NaN, _ | _, NaN => NaN
  | Infinity _, Infinity _ => NaN
  | Infinity s, Finite t _ => Infinity (xorb s t)
  | Finite s _, Infinity t => Finite (xorb s t) 0
  | Finite s j, Finite t k =>
      if k =? 0 then (if j =? 0 then NaN else Infinity (xorb s t))
      else rounded (xorb s t) (j * one) k
  end.

(** [Math.floor] *)
Definition floor (a : float64) : float64 :=
  match a with
  | Finite false k => Finite false (k / one * one)
  | Finite true k => Finite true ((k + one - 1) / one * one)
  | _ => a
  end.

(** *** Reading decimal text *)

Definition isDigit (c : ascii) : bool :=
  let n := nat_of_ascii c in (Nat.leb 48 n && Nat.leb n 57)%bool.

Definition isWhiteSpace (c : ascii) : bool :=
  let n := nat_of_ascii c in ((Nat.leb 9 n && Nat.leb n 13) || Nat.eqb n 32)%bool.

Fixpoint trimStart (s : string) : string :=
  match s with
  | String c r => if isWhiteSpace c then trimStart r else s
  | EmptyString => s
  end.

Definition takeSign (s : string) : bool * string :=
  match s with
  | String "-" r => (true, r)
  | String "+" r => (false, r)
  | _ => (false, s)
  end.

Fixpoint digitsPrefix (s : string) : string * string :=
  match s with
  | String c r =>
      if isDigit c
      then let '(d, rest) := digitsPrefix r in (String c d, rest)
      else (EmptyString, s)
  | EmptyString => (EmptyString, EmptyString)
  end.

Fixpoint digitsValue (s : string) (acc : Z) : Z :=
  match s with
  | String c r => digitsValue r (10 * acc + Z.of_nat (nat_of_ascii c - 48))
  | EmptyString => acc
  end.

(** The value of an exponent part ([e] or [E], an optional sign, digits)
    at the start of [s]; 0 when there is none. *)
Definition exponentPart (s : string) : Z :=
  match s with
  | String c r =>
      if (Ascii.eqb c "e" || Ascii.eqb c "E")%bool then
        let '(negative, r') := takeSign r in
        let '(ds, _) := digitsPrefix r' in
        match ds with
        | EmptyString => 0
        | _ => if negative then - digitsValue ds 0 else digitsValue ds 0
        end
      else 0
  | EmptyString => 0
  end.

(** An unsigned decimal literal: [Infinity], or the digits [digits]
    standing for [digits * 10 ^ exponent]. *)
Inductive Literal : Type :=
| LitInfinity
| LitDecimal (digits exponent : Z).

(** The longest prefix of [s] that is an unsigned decimal literal. *)
Definition literalPrefix (s : string) : option Literal :=
  if String.prefix "Infinity" s then Some LitInfinity
  else
    let '(whole, s1) := digitsPrefix s in
    let '(fraction, s2) :=
      match s1 with
      | String "." r => digitsPrefix r
      | _ => (EmptyString, s1)
      end in
    match (whole ++ fraction)%string with
    | EmptyString => None
    | ds => Some (LitDecimal (digitsValue ds 0)
                             (exponentPart s2 - Z.of_nat (String.length fraction)))
    end.

(** [digits * 10 ^ exponent], rounded. *)
Definition ofDecimal (negative : bool) (digits exponent : Z) : float64 :=
  if 0 <=? exponent
  then rounded negative (digits * 10 ^ exponent * one) 1
  else rounded negative (digits * one) (10 ^ (- exponent)).

(** [parseFloat(s)] *)
Definition parseFloat (s : string) : float64 :=
  let '(negative, r) := takeSign (trimStart s) in
  match literalPrefix r with
  | None => NaN
  | Some LitInfinity => Infinity negative
  | Some (LitDecimal digits exponent) => ofDecimal negative digits exponent
  end.

Definition isHexDigit (c : ascii) : bool :=
  let n := nat_of_ascii c in
  ((Nat.leb 48 n && Nat.leb n 57) || (Nat.leb 65 n && Nat.leb n 70)
   || (Nat.leb 97 n && Nat.leb n 102))%bool.

Definition hexDigit (c : ascii) : Z :=
  let n := nat_of_ascii c in
  if Nat.leb n 57 then Z.of_nat (n - 48)
  else if Nat.leb n 70 then Z.of_nat (n - 55)
  else Z.of_nat (n - 87).

Fixpoint hexValue (s : string) (acc : option Z) : option Z :=
  match s with
  | String c r =>
      if isHexDigit c
      then hexValue r (Some (16 * match acc with Some a => a | None => 0 end + hexDigit c))
      else acc
  | EmptyString => acc
  end.

(** [parseInt(s)], without a radix argument. *)
Definition parseInt (s : string) : float64 :=
  let '(negative, r) := takeSign (trimStart s) in
  match r with
  | String "0" (String x h) =>
      if (Ascii.eqb x "x" || Ascii.eqb x "X")%bool then
        match hexValue h None with
        | Some v => rounded negative (v * one) 1
        | None => NaN
        end
      else
        let '(ds, _) := digitsPrefix r in rounded negative (digitsValue ds 0 * one) 1
  | _ =>
      let '(ds, _) := digitsPrefix r in
      match ds with
      | EmptyString => NaN
      | _ => rounded negative (digitsValue ds 0 * one) 1
      end
  end.

(** *** Writing decimal text *)

(** The [n] with [10 ^ (n - 1) <= k quanta < 10 ^ n], for a positive
    finite [k]: the whole part of [k quanta * 10 ^ 324] has [n + 324]
    decimal digits (the smallest positive double exceeds [10 ^ -324]). *)
Definition decimalExponent (k : Z) : Z :=
  Z.of_nat (String.length (bigint_toString (k * 10 ^ 324 / one))) - 324.

(** The integer [s] of [digits] digits for which [s * 10 ^ (n - digits)]
    reads back as [k] quanta, if there is one: the closer of the two
    neighbours of the exact value, the even one on a tie. The result
    carries its [n], which is one more when the upper neighbour is a
    power of ten. *)
Definition shortestWith (k n digits : Z) : option (Z * Z) :=
  let e := n - digits in
  let '(num, den) := if 0 <=? e then (k, one * 10 ^ e) else (k * 10 ^ (- e), one) in
  let lo := num / den in
  let hi := lo + 1 in
  let readsBack s :=
    match ofDecimal false s e with
    | Finite _ k' => k' =? k
    | _ => false
    end in
  let normal s := if s =? 10 ^ digits then (10 ^ (digits - 1), n + 1) else (s, n) in
  let lowerCloser :=
    (2 * num <? (2 * lo + 1) * den) || ((2 * num =? (2 * lo + 1) * den) && Z.even lo) in
  match readsBack lo, readsBack hi with
  | true, true => Some (normal (if lowerCloser then lo else hi))
  | true, false => Some (normal lo)
  | false, true => Some (normal hi)
  | false, false => None
  end.

Fixpoint shortest (fuel : nat) (k n digits : Z) : Z * Z :=
  match fuel with
  | O => (k, n)
  | S f =>
      match shortestWith k n digits with
      | Some r => r
      | None => shortest f k n (digits + 1)
      end
  end.

Fixpoint zeros (n : nat) : string :=
  match n with
  | O => EmptyString
  | S k => String "0" (zeros k)
  end.

Fixpoint take (n : nat) (s : string) : string :=
  match n, s with
  | S k, String c r => String c (take k r)
  | _, _ => EmptyString
  end.

Fixpoint drop (n : nat) (s : string) : string :=
  match n, s with
  | S k, String _ r => drop k r
  | _, _ => s
  end.

(** [a.toString()] *)
Definition toString (a : float64) : string :=
  match a with
  | NaN => "NaN"
  | Infinity negative => if negative then "-Infinity" else "Infinity"
  | Finite negative k =>
      if k =? 0 then "0"
      else
        let '(s, n) := shortest 17 k (decimalExponent k) 1 in
        let ds := bigint_toString s in
        let len := Z.of_nat (String.length ds) in
        let body :=
          if (len <=? n) && (n <=? 21) then
            ds ++ zeros (Z.to_nat (n - len))
          else if (0 <? n) && (n <=? 21) then
            take (Z.to_nat n) ds ++ "." ++ drop (Z.to_nat n) ds
          else if (-6 <? n) && (n <=? 0) then
            "0." ++ zeros (Z.to_nat (- n)) ++ ds
          else
            let e := n - 1 in
            let exponent :=
              "e" ++ (if e <? 0 then "-" else "+") ++ bigint_toString (Z.abs e) in
            if len =? 1 then ds ++ exponent
            else take 1 ds ++ "." ++ drop 1 ds ++ exponent in
        ((if negative then "-" else "") ++ body)%string
  end.

(** *** Correspondence with the kernel's binary64 numbers *)

Definition toSpecFloat (a : float64) : SpecFloat.spec_float :=
  match a with
  | NaN => SpecFloat.S754_nan
  | Infinity s => SpecFloat.S754_infinity s
  | Finite s k =>
      if k =? 0 then SpecFloat.S754_zero s
      else
        let j := scale k 1 in
        SpecFloat.S754_finite s (Z.to_pos (k / 2 ^ j)) (j - 1074)
  end.

(** *** The real value of a finite number *)

(** A finite number of [k] quanta is worth [k / 2^1074]. *)
Definition value (k : Z) : Q := (inject_Z k / inject_Z one)%Q.

(** The relative error of one rounding, 2^-53, and its absolute error
    where the spacing is one quantum, 2^-1075. *)
Definition unitRoundoff : Q := 1 # (2 ^ 53).
Definition halfQuantum : Q := (1 / (2 * inject_Z one))%Q.

(** A whole number of quanta that has at most 53 significant bits. *)
Definition representable (k : Z) : Prop := 0 <= k /\ (2 ^ scale k 1 | k).

(** The exact value of the decimal literal that [parseFloat] reads at
    the start of [s]. *)
Definition exactDecimal (s : string) : option Q :=
  let '(negative, r) := takeSign (trimStart s) in
  match literalPrefix r with
  | Some (LitDecimal digits exponent) =>
      let v :=
        if 0 <=? exponent then inject_Z (digits * 10 ^ exponent)
        else (inject_Z digits / inject_Z (10 ^ (- exponent)))%Q in
      Some (if negative then (- v)%Q else v)
  | _ => None
  end.

#[export] Instance numbers : JsNumber :=
  Build_JsNumber of_Z add sub mul div floor parseFloat parseInt toString.

End Binary64.

(* ------------------------------------------------------------------ *)
(** ** Test doubles

    Concrete collaborators on which the model runs: 18-decimal fixed-point
    numbers in place of doubles, the decimal-string functions of the
    library, and a chain with a funded wallet. They are used to evaluate
    the methods on concrete requests; the general theorems hold for every
    implementation of the interfaces. *)
(* ------------------------------------------------------------------ *)

Module Mock.

(** *** Decimal strings *)

Definition is_digit (c : ascii) : bool :=
  let n := Z.of_nat (nat_of_ascii c) in (48 <=? n) && (n <=? 57).

Definition is_hex_digit (c : ascii) : bool :=
  let n := Z.of_nat (nat_of_ascii c) in
  ((48 <=? n) && (n <=? 57)) || ((65 <=? n) && (n <=? 70)) || ((97 <=? n) && (n <=? 102)).

Fixpoint all_chars (p : ascii -> bool) (s : string) : bool :=
  match s with
  | EmptyString => true
  | String c r => p c && all_chars p r
  end.

(** The longest prefix of digits, and what follows it. *)
Fixpoint span_digits (s : string) : string * string :=
  match s with
  | String c r =>
      if is_digit c
      then let '(d, rest) := span_digits r in (String c d, rest)
      else (EmptyString, s)
  | EmptyString => (EmptyString, EmptyString)
  end.

Fixpoint digits_value (s : string) (acc : Z) : Z :=
  match s with
  | String c r => digits_value r (10 * acc + (Z.of_nat (nat_of_ascii c) - 48))
  | EmptyString => acc
  end.

Fixpoint zeros (n : nat) : string :=
  match n with
  | O => EmptyString
  | S k => String "0" (zeros k)
  end.

Fixpoint take (n : nat) (s : string) : string :=
  match n, s with
  | S k, String c r => String c (take k r)
  | _, _ => EmptyString
  end.

Fixpoint drop (n : nat) (s : string) : string :=
  match n, s with
  | S k, String _ r => drop k r
  | _, _ => s
  end.

(** A decimal string: an optional minus sign, digits, an optional
    point, digits, with at least one digit overall. The result is the
    sign, the whole digits and the fraction digits. *)
Definition split_decimal (s : string) : option (bool * string * string) :=
  let '(negative, s1) :=
    match s with
    | String "-" r => (true, r)
    | _ => (false, s)
    end in
  let '(whole, s2) := span_digits s1 in
  let s3 := match s2 with String "." r => r | _ => s2 end in
  let '(fraction, s4) := span_digits s3 in
  match s4 with
  | EmptyString =>
      if Nat.eqb (String.length whole + String.length fraction) 0
      then None
      else Some (negative, whole, fraction)
  | String _ _ => None
  end.

(** The library's [parseUnits(value, decimals)]: a decimal string to an
    integer number of smallest units. *)
Definition parseUnits (value : string) (decimals : Z) : Exc Z :=
  match split_decimal value with
  | None => inl "invalid FixedNumber string value"
  | Some (negative, whole, fraction) =>
      let d := Z.to_nat decimals in
      let padded := (fraction ++ zeros (d - String.length fraction))%string in
      if all_chars (Ascii.eqb "0") (drop d padded) then
        let v := digits_value (whole ++ take d padded)%string 0 in
        inr (if negative then - v else v)
      else inl "too many decimals for format"
  end.

(** Remove the zeros that end the fraction, keeping one digit after the
    point. [s] is the fraction. *)
Fixpoint strip_fraction (s : string) : string :=
  match s with
  | EmptyString => EmptyString
  | String c r =>
      let r' := strip_fraction r in
      if all_chars (Ascii.eqb "0") r then String c EmptyString else String c r'
  end.

(** The library's [formatUnits(value, decimals)]. *)
Definition formatUnits (value : Z) (decimals : Z) : string :=
  let negative := if value <? 0 then "-" else "" in
  let str := bigint_toString (Z.abs value) in
  let d := Z.to_nat decimals in
  if Nat.eqb d 0 then (negative ++ str)%string
  else
    let str := (zeros (S d - String.length str) ++ str)%string in
    let index := (String.length str - d)%nat in
    (negative ++ take index str ++ "." ++ strip_fraction (drop index str))%string.

(** *** Numbers: 18-decimal fixed point *)

Definition unit18 : Z := 10 ^ 18.

Definition fixed_of_string (s : string) : Z :=
  match split_decimal s with
  | None => 0
  | Some (negative, whole, fraction) =>
      let v := digits_value (whole ++ take 18 (fraction ++ zeros 18))%string 0 in
      if negative then - v else v
  end.

Definition fixed_toString (v : Z) : string :=
  let s := formatUnits v 18 in
  let n := String.length s in
  if String.eqb (drop (n - 2) s) ".0" then take (n - 2) s else s.

#[export] Instance numbers : JsNumber := {|
  number := Z;
  num_of_Z := fun z => z * unit18;
  num_add := Z.add;
  num_sub := Z.sub;
  num_mul := fun a b => a * b / unit18;
  num_div := fun a b => a * unit18 / b;
  num_floor := fun a => a / unit18 * unit18;
  parseFloat := fixed_of_string;
  parseInt := fun s => digits_value (fst (span_digits s)) 0 * unit18;
  num_toString := fixed_toString
|}.

(** *** The library *)

(** The shape of an address: 0x and forty hexadecimal digits (the
    checksum of mixed-case addresses is not examined). *)
Definition isAddress (s : string) : bool :=
  String.prefix "0x" s && Nat.eqb (String.length s) 42 && all_chars is_hex_digit (drop 2 s).

(** The two amounts of the call are [uint256]: a negative one does not
    encode. The encoding keeps the selector and the token pair. *)
Definition encodeFunctionData (params : ExactInputSingleParams) : Exc string :=
  if (p_amountIn params <? 0) || (p_amountOutMinimum params <? 0)
  then inl "value out-of-bounds"
  else inr ("0x414bf389" ++ drop 2 (p_tokenIn params) ++ drop 2 (p_tokenOut params))%string.

Definition Wallet_new (key : option string) : Exc unit :=
  match key with
  | Some k =>
      if String.prefix "0x" k && Nat.eqb (String.length k) 66 && all_chars is_hex_digit (drop 2 k)
      then inr tt
      else inl "invalid private key"
  | None => inl "invalid private key"
  end.

#[export] Instance ethers : Ethers :=
  Build_Ethers isAddress parseUnits formatUnits encodeFunctionData Wallet_new.

(** *** The chain *)

Definition walletAddress : string := "0x742d35Cc6634C0532925a3b844Bc454e4438f44e".

(** A wallet holding 10 ETH and, of every token, 2,000,000 units
    (18 decimals) with the same allowance to the router; gas estimation
    and broadcast succeed. *)
Definition rpc : Rpc := {|
  wallet_getAddress := inr walletAddress;
  provider_getBalance := fun _ => inr (10 * unit18);
  erc20_balanceOf := fun _ _ => inr (2000000 * unit18);
  erc20_decimals := fun _ => inr 18;
  erc20_allowance := fun _ _ _ => inr (2000000 * unit18);
  wallet_estimateGas := fun _ => inr 150000;
  provider_getFeeData := inr {| gasPrice := Some 20000000000 |};
  wallet_sendTransaction :=
    fun _ => inr {| hash := "0x5c504ed432cb51138bcf09aa5e8a410dd4a1e204ef84bfed1be16dfba1b22060" |};
  tx_wait :=
    fun _ => inr {| rc_blockNumber := 19000000;
                    rc_gasUsed := 120000;
                    rc_effectiveGasPrice := Some 20000000000 |};
  Date_now := 1700000000000
|}.

(** The same chain, on which the simulated transaction reverts. *)
Definition rpc_reverting : Rpc := {|
  wallet_getAddress := wallet_getAddress rpc;
  provider_getBalance := provider_getBalance rpc;
  erc20_balanceOf := erc20_balanceOf rpc;
  erc20_decimals := erc20_decimals rpc;
  erc20_allowance := erc20_allowance rpc;
  wallet_estimateGas := fun _ => inl "execution reverted";
  provider_getFeeData := provider_getFeeData rpc;
  wallet_sendTransaction := wallet_sendTransaction rpc;
  tx_wait := tx_wait rpc;
  Date_now := Date_now rpc
|}.

(** The same chain, with receipts as version 6 of the library returns
    them: they carry [gasPrice], and no [effectiveGasPrice]. *)
Definition rpc_v6 : Rpc := {|
  wallet_getAddress := wallet_getAddress rpc;
  provider_getBalance := provider_getBalance rpc;
  erc20_balanceOf := erc20_balanceOf rpc;
  erc20_decimals := erc20_decimals rpc;
  erc20_allowance := erc20_allowance rpc;
  wallet_estimateGas := wallet_estimateGas rpc;
  provider_getFeeData := provider_getFeeData rpc;
  wallet_sendTransaction := wallet_sendTransaction rpc;
  tx_wait :=
    fun _ => inr {| rc_blockNumber := 19000000;
                    rc_gasUsed := 120000;
                    rc_effectiveGasPrice := None |};
  Date_now := Date_now rpc
|}.

(** *** Executors *)

(** An environment with a well-formed key and the defaults; real trading
    is as given. *)
Definition env (realTrading : bool) : ProcessEnv := {|
  TRADING_PRIVATE_KEY :=
    Some "0x0123456789abcdef0123456789abcdef0123456789abcdef0123456789abcdef";
  MAX_SLIPPAGE_PERCENT := None;
  MAX_TRANSACTION_VALUE_ETH := None;
  MAX_GAS_PRICE_GWEI := None;
  GAS_LIMIT_MULTIPLIER := None;
  TRANSACTION_DEADLINE_MINUTES := None;
  ENABLE_REAL_TRADING := if realTrading then Some "true" else None
|}.

(** [new SwapExecutor()] *)
Definition fresh : SwapExecutor := constructor (env false) 1700000000000.

(** [new SwapExecutor()] followed by [initializeProvider(provider)]. *)
Definition connected : SwapExecutor := runInitializeProvider rpc fresh.

(** The same with [ENABLE_REAL_TRADING=true]. *)
Definition live : SwapExecutor :=
  runInitializeProvider rpc (constructor (env true) 1700000000000).

(** *** Requests *)

Definition request (tokenIn tokenOut amountIn : string)
    (slippage : option Z) (dry : option bool) : SwapParams := {|
  sp_tokenIn := Some tokenIn;
  sp_tokenOut := Some tokenOut;
  sp_amountIn := Some amountIn;
  sp_slippagePercent := option_map (fun z => num_of_Z z) slippage;
  sp_dryRun := dry;
  sp_reason := None
|}.

(** Scenario A of the specification: a dry run of 0.01 ETH for a token
    at 1% slippage. *)
Definition dryRunRequest : SwapParams :=
  request "ETH" TOKEN_ADDRESSES.SHIB "0.01" (Some 1) (Some true).


(** The same swap for real. *)
Definition realRequest : SwapParams :=
  request "ETH" TOKEN_ADDRESSES.SHIB "0.01" (Some 1) (Some false).

(** A dry run with a slippage of 150%. *)
Definition outOfRangeSlippage : SwapParams :=
  request "ETH" TOKEN_ADDRESSES.SHIB "0.01" (Some 150) (Some true).

(** A real swap of 5 ETH, fifty times the default limit of 0.1 ETH. *)
Definition overLimit : SwapParams :=
  request "ETH" TOKEN_ADDRESSES.SHIB "5" None (Some false).

(** A real swap whose input is the WETH token. *)
Definition wethInput : SwapParams :=
  request TOKEN_ADDRESSES.WETH TOKEN_ADDRESSES.SHIB "1" (Some 1) (Some false).

(** A real swap of ETH for the WETH token. *)
Definition ethToWeth : SwapParams :=
  request "ETH" TOKEN_ADDRESSES.WETH "1" (Some 1) (Some false).

(** The same chain with a wallet holding 0.001 ETH and, of every token,
    2,000,000 units of which only 1 is approved for the router. *)
Definition rpc_poor : Rpc := {|
  wallet_getAddress := wallet_getAddress rpc;
  provider_getBalance := fun _ => inr (10 ^ 15);
  erc20_balanceOf := erc20_balanceOf rpc;
  erc20_decimals := erc20_decimals rpc;
  erc20_allowance := fun _ _ _ => inr unit18;
  wallet_estimateGas := wallet_estimateGas rpc;
  provider_getFeeData := provider_getFeeData rpc;
  wallet_sendTransaction := wallet_sendTransaction rpc;
  tx_wait := tx_wait rpc;
  Date_now := Date_now rpc
|}.

(** A dry run that sells 1000 SHIB for ETH. *)
Definition tokenRequest : SwapParams :=
  request TOKEN_ADDRESSES.SHIB "ETH" "1000" (Some 1) (Some true).

(** A swap of a token for itself. *)
Definition sameTokenRequest : SwapParams :=
  request TOKEN_ADDRESSES.SHIB TOKEN_ADDRESSES.SHIB "1000" (Some 1) (Some true).

(** A swap of nothing. *)
Definition zeroAmountRequest : SwapParams :=
  request "ETH" TOKEN_ADDRESSES.SHIB "0" (Some 1) (Some true).

(** Scenario A without a [dryRun] property. *)
Definition requestWithoutDryRun : SwapParams :=
  request "ETH" TOKEN_ADDRESSES.SHIB "0.01" (Some 1) None.

(** The transaction built for [realRequest]. *)
Definition realTransaction : Transaction := {|
  tx_to := UNISWAP_V3_ROUTER_ADDRESS;
  tx_data :=
    "0x414bf389C02aaA39b223FE8D0A0e5C4F27eAD9083C756Cc295aD61b0a150d79219dCF64E1E6Cc01f0B64C4cE";
  tx_value := 10 ^ 16
|}.

(** *** Strings *)

Definition lower_char (c : ascii) : ascii :=
  let n := nat_of_ascii c in
  if (Nat.leb 65 n && Nat.leb n 90)%bool then ascii_of_nat (n + 32) else c.

(** Lowercasing of the letters A to Z. *)
Fixpoint asciiLower (s : string) : string :=
  match s with
  | EmptyString => EmptyString
  | String c r => String (lower_char c) (asciiLower r)
  end.

#[export] Instance strings : JsString := {| toLowerCase := asciiLower |}.

(** *** Decoded transactions *)

Definition shibLowercase : string := "0x95ad61b0a150d79219dcf64e1e6cc01f0b64c4ce".

Definition pepe : string := "0x6982508145454Ce325dDbE47a25d4ec3d2311933".

(** A transfer of the SHIB token, its address written in lowercase. *)
Definition shibTransfer : DecodedTx := {|
  dt_name := Some "transfer";
  dt_args := Some [JStr walletAddress; JStr "1000000000000000000"];
  dt_to := Some shibLowercase
|}.

(** A transfer of a token that is not in the initial list. *)
Definition pepeTransfer : DecodedTx := {|
  dt_name := Some "transfer";
  dt_args := Some [JStr walletAddress; JStr "1000000000000000000"];
  dt_to := Some pepe
|}.

(** A router call whose parameter object names SHIB as output token. *)
Definition routerCall : DecodedTx := {|
  dt_name := Some "exactInputSingle";
  dt_args :=
    Some [JObj [("tokenIn", JStr TOKEN_ADDRESSES.WETH);
                ("tokenOut", JStr TOKEN_ADDRESSES.SHIB);
                ("fee", JPrim true)]];
  dt_to := Some UNISWAP_V3_ROUTER_ADDRESS
|}.

End Mock.

(* ------------------------------------------------------------------ *)
(** ** Properties of the pipeline *)
(* ------------------------------------------------------------------ *)

(** Unfolds the effect combinators. *)
Ltac unfold_effects :=
  cbv beta iota zeta delta
    [bind ret throw lift call try_catch get_self update_stats set_isEnabled] in *.

(** Case analysis on the innermost test the goal is stuck on. *)
Ltac next_case :=
  match goal with
  | |- context [match ?x with _ => _ end] =>
      lazymatch x with
      | context [match _ with _ => _ end] => fail
      | _ => destruct x eqn:?
      end
  end.

(** Runs a method body symbolically, one branch per outcome. *)
Ltac run_pipeline :=
  unfold_effects; cbn [self calls fst snd];
  repeat (next_case; cbn [self calls fst snd] in * ).

Ltac unfold_executeSwap :=
  unfold runSwap, executeSwap, executeSwap_try, record_executed, simulate,
    buildSwapTransaction, verifyBalanceAndAllowance.

Section PipelineProperties.

Context {JN : JsNumber} {ETH : Ethers}.

(** *** Elementary facts *)

Lemma js_or_true (d : option bool) : js_or d true = true.
Proof. destruct d as [[|]|]; reflexivity. Qed.

Lemma js_incr_bounds (n : Z) : n <= js_incr n <= n + 1.
Proof. unfold js_incr. destruct (n <? 2 ^ 53); lia. Qed.

Lemma js_incr_mono (a b : Z) : a <= b -> js_incr a <= js_incr b.
Proof.
  intros Hab. unfold js_incr.
  destruct (Z.ltb_spec a (2 ^ 53)), (Z.ltb_spec b (2 ^ 53)); lia.
Qed.

Lemma with_slippage_validate (s : option number) (req : SwapParams) :
  validateSwapParameters (with_slippage s req) = validateSwapParameters req.
Proof. reflexivity. Qed.

Lemma stage1_with_slippage (this : SwapExecutor) (s : option number) (req : SwapParams) :
  stage1 this (with_slippage s req) = stage1 this req.
Proof. reflexivity. Qed.

(** *** What a successful result tells *)

(** [executeSwap] resolves to [success: true] only on the real-execution
    path: the request said [dryRun: false], real trading is enabled,
    stage 1 passed, and the transaction was simulated and broadcast. *)
Lemma executeSwap_success_inv (rpc : Rpc) (this : SwapExecutor) (req : SwapParams) :
  let '(res, _, evs) := runSwap rpc this req in
  success res = true ->
  sp_dryRun req = Some false
  /\ enableRealTrading (config this) = true
  /\ stage1 this req = inr tt
  /\ dryRun res = false
  /\ existsb isSimulation evs = true
  /\ existsb isBroadcast evs = true.
Proof.
  unfold stage1, NOT_ENABLED, EMERGENCY_STOP.
  unfold_executeSwap. run_pipeline.
  all: cbn; try discriminate.
  all: intros _; repeat split; try reflexivity.
  all: try (destruct (enableRealTrading (config this)); [reflexivity | discriminate]).
  all: match goal with u : unit |- _ => destruct u; reflexivity end.
Qed.

(** A broadcast happens only for a request that said [dryRun: false],
    with real trading enabled, after a simulation. *)
Lemma broadcast_inv (rpc : Rpc) (this : SwapExecutor) (req : SwapParams) :
  let '(_, _, evs) := runSwap rpc this req in
  existsb isBroadcast evs = true ->
  sp_dryRun req = Some false
  /\ enableRealTrading (config this) = true
  /\ existsb isSimulation evs = true.
Proof.
  unfold_executeSwap. run_pipeline.
  all: cbn; try discriminate.
  all: intros _; repeat split; try reflexivity.
  all: destruct (enableRealTrading (config this)); [reflexivity | discriminate].
Qed.

(** Every request that does not say [dryRun: false] fails: the dry-run
    return is never completed. *)
Lemma dry_run_never_succeeds (rpc : Rpc) (this : SwapExecutor) (req : SwapParams) :
  sp_dryRun req <> Some false ->
  success (resultOf (runSwap rpc this req)) = false.
Proof.
  intros Hdry.
  pose proof (executeSwap_success_inv rpc this req) as Hinv.
  destruct (runSwap rpc this req) as [[res this'] evs]. cbn.
  destruct (success res); [ | reflexivity].
  destruct (Hinv eq_refl) as [Hfalse _]. contradiction.
Qed.

(** *** Stage 1 decides what happens before any call *)

(** When a check of stage 1 fails, the call ends there: the failure is
    counted, the error is reported, and no collaborator was called. *)
Lemma stage1_rejects (rpc : Rpc) (this : SwapExecutor) (req : SwapParams) (msg : string) :
  stage1 this req = inl msg ->
  let '(res, this', evs) := runSwap rpc this req in
  success res = false
  /\ error res = Some msg
  /\ this' = with_stats (incr_failed (stats this)) this
  /\ evs = [].
Proof.
  unfold stage1, NOT_ENABLED, EMERGENCY_STOP, with_stats.
  unfold runSwap, executeSwap, executeSwap_try. unfold_effects.
  cbn [self calls fst snd].
  destruct (negb (isEnabled this)).
  - intros [= <-]. cbn. auto.
  - destruct (cfg_emergencyStop (config this)).
    + intros [= <-]. cbn. auto.
    + intros ->. cbn. auto.
Qed.

(** When stage 1 passes, the balance verification starts: the wallet
    address is asked for and, once it is known, the balance of the input
    asset is queried. *)
Lemma stage1_passes (rpc : Rpc) (this : SwapExecutor) (req : SwapParams) :
  stage1 this req = inr tt ->
  let '(_, _, evs) := runSwap rpc this req in
  exists rest,
    evs = EvGetAddress :: rest
    /\ match wallet_getAddress rpc with
       | inr account =>
           exists rest', rest = firstBalanceQuery (the (sp_tokenIn req)) account :: rest'
       | inl _ => rest = []
       end.
Proof.
  unfold stage1, firstBalanceQuery.
  destruct (negb (isEnabled this)) eqn:Hen; [discriminate | ].
  destruct (cfg_emergencyStop (config this)) eqn:Hstop; [discriminate | ].
  intros Hvalid.
  unfold_executeSwap. unfold_effects. cbn [self calls fst snd].
  rewrite Hen, Hstop, Hvalid. cbn [self calls fst snd app].
  destruct (wallet_getAddress rpc) as [e | account].
  - cbn. eexists; split; reflexivity.
  - destruct (String.eqb (the (sp_tokenIn req)) "ETH");
      run_pipeline; cbn; eexists; (split; [reflexivity | eexists; reflexivity]).
Qed.

(** When stage 1 passes, the request is counted. *)
Lemma stage1_passes_counts_request (rpc : Rpc) (this : SwapExecutor) (req : SwapParams) :
  stage1 this req = inr tt ->
  let '(_, this', _) := runSwap rpc this req in
  totalSwapsRequested (stats this') = js_incr (totalSwapsRequested (stats this)).
Proof.
  unfold stage1.
  destruct (negb (isEnabled this)) eqn:Hen; [discriminate | ].
  destruct (cfg_emergencyStop (config this)) eqn:Hstop; [discriminate | ].
  intros Hvalid.
  unfold_executeSwap. unfold_effects. cbn [self calls fst snd].
  rewrite Hen, Hstop, Hvalid. cbn [self calls fst snd app].
  run_pipeline; reflexivity.
Qed.

(** A result that [executeSwap_try] returns is a success of the real
    execution path. *)
Lemma executeSwap_try_returns_success
    (rpc : Rpc) (req : SwapParams) (w w' : World) (res : ExecutionResult) :
  executeSwap_try rpc req w = (inr res, w') ->
  success res = true /\ dryRun res = false.
Proof.
  unfold executeSwap_try, record_executed, simulate, buildSwapTransaction,
    verifyBalanceAndAllowance.
  run_pipeline; intros [= <- _]; split; reflexivity.
Qed.

(** An executor whose stop is set is unchanged by [emergencyStop()]: the
    executors between a stop and the next resume are the ones of the form
    [emergencyStop this]. *)
Lemma emergencyStop_when_stopped (this : SwapExecutor) :
  cfg_emergencyStop (config this) = true -> emergencyStop this = this.
Proof.
  destruct this as [key [a b c d e f stop] sts en]. cbn. intros ->. reflexivity.
Qed.

(** *** Statistics *)

Lemma one_step_per_counter_refl (s : Stats) : one_step_per_counter s s.
Proof. unfold one_step_per_counter. auto. Qed.

Lemma one_step_per_counter_preserves (before after : Stats) :
  counters_ok before -> one_step_per_counter before after -> counters_ok after.
Proof.
  unfold counters_ok, one_step_per_counter.
  intros [[He Her] Hf] (Hr & Hx & Hfl).
  pose proof (js_incr_bounds (totalSwapsRequested before)) as Br.
  pose proof (js_incr_bounds (totalSwapsExecuted before)) as Be.
  pose proof (js_incr_bounds (totalSwapsFailed before)) as Bf.
  pose proof (js_incr_mono Her) as Hm.
  destruct Hx as [E1 | [E1 E2]]; destruct Hr as [E4 | E4]; destruct Hfl as [E5 | E5]; lia.
Qed.

(** One [executeSwap] call moves each counter by at most one step and
    touches nothing but the statistics. *)
Lemma runSwap_counters (rpc : Rpc) (this : SwapExecutor) (req : SwapParams) :
  let '(_, this', _) := runSwap rpc this req in
  one_step_per_counter (stats this) (stats this')
  /\ config this' = config this
  /\ isEnabled this' = isEnabled this
  /\ privateKey this' = privateKey this.
Proof.
  unfold one_step_per_counter.
  unfold_executeSwap. run_pipeline.
  all: cbn; auto 10.
Qed.

Lemma runInitializeProvider_stats (rpc : Rpc) (this : SwapExecutor) :
  stats (runInitializeProvider rpc this) = stats this.
Proof.
  unfold runInitializeProvider, initializeProvider. run_pipeline.
  all: reflexivity.
Qed.

Lemma invoke_counters (this : SwapExecutor) (c : MethodCall) :
  one_step_per_counter (stats this) (stats (invoke this c)).
Proof.
  destruct c as [rpc | rpc req | | ]; cbn [invoke].
  - rewrite runInitializeProvider_stats. apply one_step_per_counter_refl.
  - pose proof (runSwap_counters rpc this req) as H.
    destruct (runSwap rpc this req) as [[res this'] evs]. apply H.
  - apply one_step_per_counter_refl.
  - apply one_step_per_counter_refl.
Qed.

Lemma constructor_counters (env : ProcessEnv) (now : Z) :
  counters_ok (stats (constructor env now)).
Proof.
  unfold constructor, counters_ok.
  destruct (falsy (TRADING_PRIVATE_KEY env)); [cbn; lia | ].
  destruct (TRADING_PRIVATE_KEY env) as [k | ]; [ | cbn; lia].
  destruct (negb (startsWith_0x k) || negb (Nat.eqb (String.length k) 66)); cbn; lia.
Qed.

Lemma constructor_disabled (env : ProcessEnv) (now : Z) :
  isEnabled (constructor env now) = false.
Proof.
  unfold constructor.
  destruct (falsy (TRADING_PRIVATE_KEY env)); [reflexivity | ].
  destruct (TRADING_PRIVATE_KEY env) as [k | ]; [ | reflexivity].
  destruct (negb (startsWith_0x k) || negb (Nat.eqb (String.length k) 66)); reflexivity.
Qed.

Lemma invokeAll_snoc (this : SwapExecutor) (cs : list MethodCall) (c : MethodCall) :
  invokeAll this (cs ++ [c]) = invoke (invokeAll this cs) c.
Proof. unfold invokeAll. rewrite fold_left_app. reflexivity. Qed.

Lemma invokeAll_counters (cs : list MethodCall) :
  forall this : SwapExecutor,
    counters_ok (stats this) -> counters_ok (stats (invokeAll this cs)).
Proof.
  induction cs as [ | c cs IH]; intros this Hok; cbn.
  - exact Hok.
  - apply IH. eapply one_step_per_counter_preserves; [exact Hok | apply invoke_counters].
Qed.

(** *** The value limit is never consulted *)

(** Replacing [config.maxTransactionValueETH] changes neither the result
    nor the calls of [executeSwap]: the method does not read the limit. *)
Lemma executeSwap_ignores_value_limit
    (rpc : Rpc) (this : SwapExecutor) (req : SwapParams) (m : number) :
  runSwap rpc (with_maxTransactionValueETH m this) req =
  let '(res, this', evs) := runSwap rpc this req in
  (res, with_maxTransactionValueETH m this', evs).
Proof.
  unfold with_maxTransactionValueETH.
  unfold_executeSwap. unfold exactInputSingleParams. unfold_effects.
  cbn [self calls fst snd config stats isEnabled privateKey maxSlippagePercent
       transactionDeadlineMinutes enableRealTrading cfg_emergencyStop].
  repeat (next_case;
          cbn [self calls fst snd config stats isEnabled privateKey maxSlippagePercent
               transactionDeadlineMinutes enableRealTrading cfg_emergencyStop] in * ).
  all: try reflexivity; try congruence.
Qed.

(** *** The token pair and the value of the built transaction *)

Lemma native_input_carries_value (tokenOut amountIn : string) (s : number) :
  transactionValue (calculateSwapDetails "ETH" tokenOut amountIn s) = parseUnits amountIn 18.
Proof. reflexivity. Qed.

Lemma weth_input_carries_value (tokenOut amountIn : string) (s : number) :
  transactionValue (calculateSwapDetails TOKEN_ADDRESSES.WETH tokenOut amountIn s)
  = parseUnits amountIn 18.
Proof. reflexivity. Qed.

Lemma other_token_input_carries_no_value (tokenIn tokenOut amountIn : string) (s : number) :
  tokenIn <> "ETH" -> tokenIn <> TOKEN_ADDRESSES.WETH ->
  transactionValue (calculateSwapDetails tokenIn tokenOut amountIn s) = inr 0.
Proof.
  intros Heth Hweth. unfold transactionValue, calculateSwapDetails. cbn [tokenInAddress].
  destruct (String.eqb_spec tokenIn "ETH") as [E | _]; [contradiction | ].
  destruct (String.eqb_spec tokenIn TOKEN_ADDRESSES.WETH) as [E | _]; [contradiction | ].
  reflexivity.
Qed.

(** Validation compares the two assets as given; the pair of the built
    call is the pair after ETH has become the WETH address. *)
Lemma eth_weth_pair_is_normalised_to_one_token (amountIn : string) (s : number) :
  let details := calculateSwapDetails "ETH" TOKEN_ADDRESSES.WETH amountIn s in
  tokenInAddress details = tokenOutAddress details.
Proof. reflexivity. Qed.

(** *** The claims *)

(** C1 (amended). After every sequence of calls to [initializeProvider],
    [executeSwap], [emergencyStop] and [resumeTrading] on a fresh
    executor the counters are non-negative and
    [totalSwapsExecuted <= totalSwapsRequested]; each further call moves
    each of the three counters by at most one step, and
    [totalSwapsExecuted] only together with [totalSwapsRequested]. The
    sum [totalSwapsExecuted + totalSwapsFailed] is not bounded by
    [totalSwapsRequested]: a rejection in stage 1 counts a failure for a
    request that was not counted. *)
Theorem counters_invariant_over_call_sequences
    (env : ProcessEnv) (now : Z) (cs : list MethodCall) (c : MethodCall) :
  let before := invokeAll (constructor env now) cs in
  let after := invoke before c in
  counters_ok (stats before)
  /\ counters_ok (stats after)
  /\ one_step_per_counter (stats before) (stats after).
Proof.
  intros before after.
  assert (Hbefore : counters_ok (stats before))
    by (apply invokeAll_counters, constructor_counters).
  assert (Hstep : one_step_per_counter (stats before) (stats after))
    by apply invoke_counters.
  split; [exact Hbefore | split; [ | exact Hstep]].
  eapply one_step_per_counter_preserves; eassumption.
Qed.

(** C3 (amended). [slippagePercent] is not examined before the
    collaborators are called: whatever its value, inside or outside
    [0,100] or absent, the request is rejected without any call exactly
    when a check of stage 1 fails (executor not enabled, emergency stop,
    invalid tokens or amount), with the error of that check; when stage 1
    passes, the balance verification starts, asking for the wallet address
    and then querying the balance of the input asset. *)
Theorem slippage_is_not_checked_before_io
    (rpc : Rpc) (this : SwapExecutor) (req : SwapParams) (s : option number) :
  let run := runSwap rpc this (with_slippage s req) in
  match stage1 this req with
  | inl msg =>
      success (resultOf run) = false
      /\ error (resultOf run) = Some msg
      /\ callsOf run = []
  | inr _ =>
      exists rest,
        callsOf run = EvGetAddress :: rest
        /\ match wallet_getAddress rpc with
           | inr account =>
               exists rest',
                 rest = firstBalanceQuery (the (sp_tokenIn req)) account :: rest'
           | inl _ => rest = []
           end
  end.
Proof.
  intros run. subst run.
  destruct (stage1 this req) as [msg | []] eqn:Hstage.
  - pose proof (@stage1_rejects rpc this (with_slippage s req) msg Hstage) as H.
    destruct (runSwap rpc this (with_slippage s req)) as [[res this'] evs].
    cbn. tauto.
  - pose proof (@stage1_passes rpc this (with_slippage s req) Hstage) as H.
    destruct (runSwap rpc this (with_slippage s req)) as [[res this'] evs].
    exact H.
Qed.

(** C5. A request with [dryRun: true] never leads to a call of
    [sendTransaction], whatever the executor, the chain and the other
    fields of the request are, and wherever the pipeline stops. *)
Theorem dry_run_never_broadcasts (rpc : Rpc) (this : SwapExecutor) (req : SwapParams) :
  sp_dryRun req = Some true ->
  existsb isBroadcast (callsOf (runSwap rpc this req)) = false.
Proof.
  intros Hdry.
  pose proof (broadcast_inv rpc this req) as Hinv.
  destruct (runSwap rpc this req) as [[res this'] evs]. cbn.
  destruct (existsb isBroadcast evs); [ | reflexivity].
  destruct (Hinv eq_refl) as [Hfalse _]. congruence.
Qed.

(** C10. Every failure result of [executeSwap] has [dryRun: true],
    whatever the request said: the error path computes
    [swapParams.dryRun || true]. *)
Theorem failure_result_reports_dry_run (rpc : Rpc) (this : SwapExecutor) (req : SwapParams) :
  success (resultOf (runSwap rpc this req)) = false ->
  dryRun (resultOf (runSwap rpc this req)) = true.
Proof.
  unfold runSwap, executeSwap.
  destruct (executeSwap_try rpc req {| self := this; calls := [] |})
    as [[msg | res] w] eqn:Htry; cbn.
  - intros _. apply js_or_true.
  - destruct (executeSwap_try_returns_success _ _ _ Htry) as [Hsucc _].
    rewrite Hsucc. discriminate.
Qed.

End PipelineProperties.

(* ------------------------------------------------------------------ *)
(** ** The pipeline on concrete requests *)
(* ------------------------------------------------------------------ *)

Section Scenarios.

#[local] Existing Instance Mock.numbers.
#[local] Existing Instance Mock.ethers.

(** The real-execution path on the funded wallet: the swap is simulated,
    broadcast with its native value, confirmed and counted. *)
Example real_swap_is_broadcast_and_counted :
  let run := runSwap Mock.rpc Mock.live Mock.realRequest in
  success (resultOf run) = true
  /\ dryRun (resultOf run) = false
  /\ broadcastValues (callsOf run) = [10 ^ 16]
  /\ totalSwapsRequested (stats (executorOf run)) = 1
  /\ totalSwapsExecuted (stats (executorOf run)) = 1
  /\ totalSwapsFailed (stats (executorOf run)) = 0.
Proof. vm_compute. repeat split; reflexivity. Qed.

(** A simulation that reverts ends the run before any broadcast, also
    for a real request. *)
Example reverting_simulation_is_not_broadcast :
  let run := runSwap Mock.rpc_reverting Mock.live Mock.realRequest in
  success (resultOf run) = false
  /\ error (resultOf run) = Some "Swap would fail: execution reverted"
  /\ existsb isSimulation (callsOf run) = true
  /\ existsb isBroadcast (callsOf run) = false.
Proof. vm_compute. repeat split; reflexivity. Qed.

(** C1, as stated, fails on the very first call: a fresh executor is not
    enabled, the request is rejected before it is counted, and the
    rejection is counted as a failure. *)
Lemma rejection_breaks_sum_invariant :
  let this := invokeAll Mock.fresh [ExecuteSwap Mock.rpc Mock.dryRunRequest] in
  totalSwapsRequested (stats this) = 0
  /\ totalSwapsFailed (stats this) = 1
  /\ ~ sum_within_requested (stats this).
Proof.
  cbv zeta. split; [reflexivity | split; [reflexivity | ]].
  unfold sum_within_requested. vm_compute. intros H. apply H. reflexivity.
Qed.

(** C2. On scenario A (enabled executor, funded wallet, simulation
    succeeds) the dry run is simulated and not broadcast, but the result
    is a failure: building the success object raises
    [ReferenceError: simulationResult is not defined], which the outer
    [catch] reports and counts. *)
Theorem dry_run_scenario_reports_failure :
  let run := runSwap Mock.rpc Mock.connected Mock.dryRunRequest in
  success (resultOf run) = false
  /\ dryRun (resultOf run) = true
  /\ error (resultOf run) = Some "simulationResult is not defined"
  /\ existsb isSimulation (callsOf run) = true
  /\ existsb isBroadcast (callsOf run) = false
  /\ totalSwapsFailed (stats (executorOf run)) = 1.
Proof. vm_compute. repeat split; reflexivity. Qed.

(** C3, as stated, fails for a slippage of 150: the request passes
    stage 1 and the ETH balance of the wallet is queried. *)
Lemma out_of_range_slippage_reaches_balance_query :
  let run := runSwap Mock.rpc Mock.connected Mock.outOfRangeSlippage in
  sp_slippagePercent Mock.outOfRangeSlippage = Some (num_of_Z 150)
  /\ nth_error (callsOf run) 1 = Some (EvGetBalance Mock.walletAddress)
  /\ existsb isBalanceQuery (callsOf run) = true
  /\ ~ rejected_before_io run.
Proof.
  cbv zeta. split; [reflexivity | ]. split; [vm_compute; reflexivity | ].
  split; [vm_compute; reflexivity | ].
  unfold rejected_before_io. vm_compute. intros (_ & H & _). discriminate H.
Qed.

(** C4. With the default limit of 0.1 ETH and real trading enabled, a
    swap of 5 ETH is simulated, broadcast with a value of 5 ETH and
    confirmed. *)
Theorem value_limit_is_not_enforced :
  let run := runSwap Mock.rpc Mock.live Mock.overLimit in
  maxTransactionValueETH (config Mock.live) = parseFloat "0.1"
  /\ sp_tokenIn Mock.overLimit = Some "ETH"
  /\ sp_amountIn Mock.overLimit = Some "5"
  /\ success (resultOf run) = true
  /\ broadcastValues (callsOf run) = [5 * 10 ^ 18]
  /\ totalSwapsExecuted (stats (executorOf run)) = 1.
Proof. vm_compute. repeat split; reflexivity. Qed.

Lemma dry_run_never_broadcasts_witness :
  sp_dryRun Mock.dryRunRequest = Some true
  /\ existsb isBroadcast (callsOf (runSwap Mock.rpc Mock.connected Mock.dryRunRequest)) = false.
Proof.
  split; [reflexivity | ].
  apply (@dry_run_never_broadcasts Mock.numbers Mock.ethers
           Mock.rpc Mock.connected Mock.dryRunRequest).
  reflexivity.
Defined.


(** A confirmed swap whose receipt has no [effectiveGasPrice]: the
    transaction was sent and mined, the swap is counted as executed, the
    gas computation then raises, and the same call is reported and
    counted as a failure. *)
Example confirmed_swap_is_also_counted_as_failed :
  let run := runSwap Mock.rpc_v6 Mock.live Mock.realRequest in
  success (resultOf run) = false
  /\ error (resultOf run)
     = Some "Cannot mix BigInt and other types, use explicit conversions"
  /\ broadcastValues (callsOf run) = [10 ^ 16]
  /\ totalSwapsRequested (stats (executorOf run)) = 1
  /\ totalSwapsExecuted (stats (executorOf run)) = 1
  /\ totalSwapsFailed (stats (executorOf run)) = 1.
Proof. vm_compute. repeat split; reflexivity. Qed.

(** C8. A swap whose input is the WETH token is verified as a token (its
    ERC-20 balance and allowance are queried) and then broadcast with
    the input amount as native value: [value] is tested against the
    normalised address, which is the WETH address for ETH and for WETH
    alike. *)
Theorem weth_token_input_is_sent_with_value :
  let run := runSwap Mock.rpc Mock.live Mock.wethInput in
  sp_tokenIn Mock.wethInput = Some TOKEN_ADDRESSES.WETH
  /\ transactionValue
       (calculateSwapDetails TOKEN_ADDRESSES.WETH TOKEN_ADDRESSES.SHIB "1" (num_of_Z 1))
     = inr (10 ^ 18)
  /\ nth_error (callsOf run) 1
     = Some (EvBalanceOf TOKEN_ADDRESSES.WETH Mock.walletAddress)
  /\ success (resultOf run) = true
  /\ broadcastValues (callsOf run) = [10 ^ 18].
Proof. vm_compute. repeat split; reflexivity. Qed.

(** C9. The pair ETH / WETH address passes validation, the two assets
    of the call that is built are both the WETH address, and the call is
    simulated and broadcast. *)
Theorem eth_to_weth_builds_same_token_call :
  let details := calculateSwapDetails "ETH" TOKEN_ADDRESSES.WETH "1" (num_of_Z 1) in
  let run := runSwap Mock.rpc Mock.live Mock.ethToWeth in
  validateSwapParameters Mock.ethToWeth = inr tt
  /\ tokenInAddress details = TOKEN_ADDRESSES.WETH
  /\ tokenOutAddress details = TOKEN_ADDRESSES.WETH
  /\ match exactInputSingleParams (config Mock.live) (Date_now Mock.rpc)
                                  Mock.walletAddress details with
     | inr params => p_tokenIn params = p_tokenOut params
     | inl _ => False
     end
  /\ success (resultOf run) = true
  /\ existsb isBroadcast (callsOf run) = true.
Proof. vm_compute. repeat split; reflexivity. Qed.

Lemma failure_result_reports_dry_run_witness :
  sp_dryRun Mock.overLimit = Some false
  /\ success (resultOf (runSwap Mock.rpc Mock.connected Mock.overLimit)) = false
  /\ dryRun (resultOf (runSwap Mock.rpc Mock.connected Mock.overLimit)) = true.
Proof.
  split; [reflexivity | ]. split; [vm_compute; reflexivity | ].
  apply (@failure_result_reports_dry_run Mock.numbers Mock.ethers
           Mock.rpc Mock.connected Mock.overLimit).
  vm_compute; reflexivity.
Defined.

End Scenarios.

(* ------------------------------------------------------------------ *)
(** ** Further properties of the executor *)
(* ------------------------------------------------------------------ *)

(** Splits a membership in a concrete list of events into its cases. *)
Ltac in_cases H :=
  cbn [In] in H;
  repeat (destruct H as [H | H]; [try discriminate H | ]);
  try contradiction.

Section ExecutorProperties.

Context {JN : JsNumber} {ETH : Ethers}.

(** *** Helper facts *)

Lemma constructor_stats (env : ProcessEnv) (now : Z) :
  totalSwapsRequested (stats (constructor env now)) = 0
  /\ totalSwapsExecuted (stats (constructor env now)) = 0
  /\ totalSwapsFailed (stats (constructor env now)) = 0
  /\ totalVolumeETH (stats (constructor env now)) = num_of_Z 0
  /\ lastSwapTime (stats (constructor env now)) = None.
Proof.
  unfold constructor.
  destruct (falsy (TRADING_PRIVATE_KEY env)); [cbn; auto | ].
  destruct (TRADING_PRIVATE_KEY env) as [k | ]; [ | cbn; auto].
  destruct (negb (startsWith_0x k) || negb (Nat.eqb (String.length k) 66)); cbn; auto.
Qed.

Lemma constructor_enableRealTrading (env : ProcessEnv) (now : Z) :
  enableRealTrading (config (constructor env now))
  = match ENABLE_REAL_TRADING env with
    | Some v => String.eqb v "true"
    | None => false
    end.
Proof.
  unfold constructor.
  destruct (falsy (TRADING_PRIVATE_KEY env)); [reflexivity | ].
  destruct (TRADING_PRIVATE_KEY env) as [k | ]; [ | reflexivity].
  destruct (negb (startsWith_0x k) || negb (Nat.eqb (String.length k) 66)); reflexivity.
Qed.

(** A request whose two assets are the same value never passes
    validation. *)
Lemma validate_same_token (req : SwapParams) :
  sp_tokenIn req = sp_tokenOut req ->
  exists msg, validateSwapParameters req = inl msg.
Proof.
  intros Hsame. unfold validateSwapParameters. rewrite <- Hsame.
  destruct (falsy (sp_tokenIn req) || falsy (sp_tokenIn req) || falsy (sp_amountIn req));
    [eexists; reflexivity | ].
  destruct (negb (String.eqb (the (sp_tokenIn req)) "ETH")
            && negb (isAddress (the (sp_tokenIn req)))); [eexists; reflexivity | ].
  rewrite String.eqb_refl. eexists; reflexivity.
Qed.

(** An amount that does not parse, or parses to zero or less, never
    passes validation. *)
Lemma validate_bad_amount (req : SwapParams) :
  match parseUnits (the (sp_amountIn req)) 18 with
  | inr amount => amount <= 0
  | inl _ => True
  end ->
  exists msg, validateSwapParameters req = inl msg.
Proof.
  intros Hbad. unfold validateSwapParameters.
  repeat match goal with
         | |- context [if ?b then _ else _] =>
             lazymatch b with
             | (_ <=? _)%Z => fail
             | _ => destruct b; [eexists; reflexivity | ]
             end
         end.
  destruct (parseUnits (the (sp_amountIn req)) 18) as [e | amount];
    [eexists; reflexivity | ].
  destruct (Z.leb_spec amount 0); [eexists; reflexivity | lia].
Qed.

(** A failed validation ends the call without any collaborator call,
    whatever the executor. *)
Lemma invalid_request_is_rejected
    (rpc : Rpc) (this : SwapExecutor) (req : SwapParams) (msg : string) :
  validateSwapParameters req = inl msg ->
  let run := runSwap rpc this req in
  success (resultOf run) = false
  /\ callsOf run = []
  /\ executorOf run = with_stats (incr_failed (stats this)) this
  /\ (isEnabled this = true -> cfg_emergencyStop (config this) = false ->
      error (resultOf run) = Some msg).
Proof.
  intros Hval run.
  assert (Hstage : exists m, stage1 this req = inl m
                             /\ (isEnabled this = true ->
                                 cfg_emergencyStop (config this) = false -> m = msg)).
  { unfold stage1. destruct (isEnabled this); cbn.
    - destruct (cfg_emergencyStop (config this)).
      + eexists; split; [reflexivity | discriminate].
      + exists msg; split; [exact Hval | reflexivity].
    - eexists; split; [reflexivity | discriminate]. }
  destruct Hstage as (m & Hstage & Hm).
  pose proof (@stage1_rejects _ _ rpc this req m Hstage) as Hrej.
  subst run. destruct (runSwap rpc this req) as [[res this'] evs].
  destruct Hrej as (Hs & He & Hst & Hev). cbn.
  repeat split; try assumption.
  intros Hen Hstop. rewrite He, (Hm Hen Hstop). reflexivity.
Qed.

(** What it takes for [estimateGas] to be called on a transaction: stage 1
    passed, the funds were verified, and the transaction is the one built
    for the request. *)
Lemma simulation_inv (rpc : Rpc) (this : SwapExecutor) (req : SwapParams) (tx : Transaction) :
  In (EvEstimateGas tx) (callsOf (runSwap rpc this req)) ->
  stage1 this req = inr tt
  /\ fundsVerified rpc (the (sp_tokenIn req)) (the (sp_amountIn req))
  /\ tx_to tx = UNISWAP_V3_ROUTER_ADDRESS
  /\ transactionValue (detailsOf this req) = inr (tx_value tx).
Proof.
  unfold stage1, fundsVerified, detailsOf, effectiveSlippage, NOT_ENABLED, EMERGENCY_STOP, callsOf.
  unfold_executeSwap. run_pipeline.
  all: cbn [snd app]; intros Hin; in_cases Hin.
  all: injection Hin as <-; cbn [tx_to tx_value].
  all: repeat match goal with
              | H : (_ <? _) = false |- _ => apply Z.ltb_ge in H
              | u : unit |- _ => destruct u
              end.
  all: split; [reflexivity | ].
  all: split; [ | split; reflexivity].
  all: eexists; split; [reflexivity | ].
  all: repeat eexists; try eassumption; reflexivity.
Qed.

(** What it takes for a transaction to be broadcast. *)
Lemma broadcast_trace_inv
    (rpc : Rpc) (this : SwapExecutor) (req : SwapParams) (tx : Transaction) :
  In (EvSendTransaction tx) (callsOf (runSwap rpc this req)) ->
  In (EvEstimateGas tx) (callsOf (runSwap rpc this req))
  /\ (exists gas, wallet_estimateGas rpc tx = inr gas)
  /\ (exists feeData price,
        provider_getFeeData rpc = inr feeData /\ gasPrice feeData = Some price).
Proof.
  unfold callsOf. unfold_executeSwap. run_pipeline.
  all: cbn [snd app]; intros Hin; in_cases Hin.
  all: injection Hin as <-.
  all: split; [cbn; tauto | ].
  all: split; [eexists; first [eassumption | reflexivity] | ].
  all: eexists; eexists; split; first [eassumption | reflexivity].
Qed.

Lemma existsb_isBroadcast_In (evs : list Event) :
  existsb isBroadcast evs = true -> exists tx, In (EvSendTransaction tx) evs.
Proof.
  induction evs as [ | ev evs IH]; cbn; [discriminate | ].
  destruct ev; cbn;
    first [ intros _; eexists; left; reflexivity
          | intros H; destruct (IH H) as [t Ht]; exists t; right; exact Ht ].
Qed.

Lemma existsb_isSimulation_In (evs : list Event) :
  existsb isSimulation evs = true -> exists tx, In (EvEstimateGas tx) evs.
Proof.
  induction evs as [ | ev evs IH]; cbn; [discriminate | ].
  destruct ev; cbn;
    first [ intros _; eexists; left; reflexivity
          | intros H; destruct (IH H) as [t Ht]; exists t; right; exact Ht ].
Qed.

(** A request that passes validation has an amount that parses to a
    positive integer. *)
Lemma validate_accepts_amount (req : SwapParams) :
  validateSwapParameters req = inr tt ->
  exists amount, parseUnits (the (sp_amountIn req)) 18 = inr amount /\ 0 < amount.
Proof.
  unfold validateSwapParameters.
  repeat match goal with
         | |- context [if ?b then _ else _] =>
             lazymatch b with
             | (_ <=? _)%Z => fail
             | _ => destruct b; [discriminate | ]
             end
         end.
  destruct (parseUnits (the (sp_amountIn req)) 18) as [e | amount]; [discriminate | ].
  destruct (Z.leb_spec amount 0); [discriminate | ].
  intros _. exists amount. split; [reflexivity | assumption].
Qed.

(** Method calls other than [initializeProvider] leave [isEnabled] alone;
    no method call changes the risk limits, the real-trading switch, the
    key, the volume or the start time; only [emergencyStop] and
    [resumeTrading] change the stop flag. *)
Lemma invoke_frame (this : SwapExecutor) (c : MethodCall) :
  let this' := invoke this c in
  maxSlippagePercent (config this') = maxSlippagePercent (config this)
  /\ maxTransactionValueETH (config this') = maxTransactionValueETH (config this)
  /\ enableRealTrading (config this') = enableRealTrading (config this)
  /\ privateKey this' = privateKey this
  /\ totalVolumeETH (stats this') = totalVolumeETH (stats this)
  /\ startTime (stats this') = startTime (stats this)
  /\ (isInitializeProvider c = false -> isEnabled this' = isEnabled this)
  /\ (isResumeTrading c = false ->
      cfg_emergencyStop (config this) = true -> cfg_emergencyStop (config this') = true).
Proof.
  destruct c as [rpc | rpc req | | ]; cbn [invoke isInitializeProvider isResumeTrading].
  - unfold runInitializeProvider, initializeProvider. run_pipeline.
    all: cbn; repeat split; intros; auto; discriminate.
  - unfold executorOf. unfold_executeSwap. run_pipeline.
    all: cbn; repeat split; intros; auto; discriminate.
  - cbn. repeat split; intros; auto.
  - cbn. repeat split; intros; auto; discriminate.
Qed.

Lemma invokeWithCalls_fst (this : SwapExecutor) (c : MethodCall) :
  fst (invokeWithCalls this c) = invoke this c.
Proof. destruct c; reflexivity. Qed.

(** The calls of one method call contain a simulation or a broadcast
    only for an [executeSwap] that passed stage 1, and a broadcast only
    with real trading enabled. *)
Lemma invokeWithCalls_quiet (this : SwapExecutor) (c : MethodCall) :
  (cfg_emergencyStop (config this) = true ->
   existsb isSimulation (snd (invokeWithCalls this c)) = false
   /\ existsb isBroadcast (snd (invokeWithCalls this c)) = false)
  /\ (enableRealTrading (config this) = false ->
      existsb isBroadcast (snd (invokeWithCalls this c)) = false).
Proof.
  destruct c as [rpc | rpc req | | ]; cbn [invokeWithCalls snd existsb]; auto.
  - unfold initializeProvider. split; intros _; run_pipeline; cbn; auto.
  - split.
    + intros Hstop.
      assert (Hstage : exists m, stage1 this req = inl m).
      { unfold stage1. rewrite Hstop. destruct (negb (isEnabled this)); eexists; reflexivity. }
      destruct Hstage as [m Hstage].
      pose proof (@stage1_rejects _ _ rpc this req m Hstage) as Hrej.
      destruct (runSwap rpc this req) as [[res this'] evs].
      destruct Hrej as (_ & _ & _ & ->). cbn. auto.
    + intros Hreal.
      pose proof (broadcast_inv rpc this req) as Hinv.
      destruct (runSwap rpc this req) as [[res this'] evs]. cbn.
      destruct (existsb isBroadcast evs); [ | reflexivity].
      destruct (Hinv eq_refl) as (_ & Htrue & _). congruence.
Qed.

(** *** Further properties *)

(** X1. A freshly constructed executor rejects every swap: whatever the
    environment (also with a well-formed private key), [executeSwap]
    before [initializeProvider] fails with the not-enabled error, calls
    no collaborator, and counts one failure and no request. *)
Theorem fresh_executor_rejects_every_swap
    (env : ProcessEnv) (now : Z) (rpc : Rpc) (req : SwapParams) :
  let run := runSwap rpc (constructor env now) req in
  success (resultOf run) = false
  /\ error (resultOf run) = Some NOT_ENABLED
  /\ callsOf run = []
  /\ totalSwapsRequested (stats (executorOf run)) = 0
  /\ totalSwapsFailed (stats (executorOf run)) = 1.
Proof.
  intros run.
  assert (Hstage : stage1 (constructor env now) req = inl NOT_ENABLED).
  { unfold stage1. rewrite constructor_disabled. reflexivity. }
  pose proof (@stage1_rejects _ _ rpc _ req _ Hstage) as Hrej.
  destruct (constructor_stats env now) as (Hr & _ & Hf & _).
  subst run. destruct (runSwap rpc (constructor env now) req) as [[res this'] evs].
  destruct Hrej as (Hs & He & -> & Hev). cbn.
  repeat split; try assumption.
  rewrite Hf. reflexivity.
Qed.

(** X2. [initializeProvider] enables the executor exactly when the wallet
    can be constructed from the key, the wallet address resolves and the
    balance of that address resolves; in every other case it leaves the
    executor disabled, also one that was enabled before. It changes
    nothing else. *)
Theorem initializeProvider_enables_exactly_when_connected
    (rpc : Rpc) (this : SwapExecutor) :
  let this' := runInitializeProvider rpc this in
  (isEnabled this' = true <->
   exists account balance,
     Wallet_new (privateKey this) = inr tt
     /\ wallet_getAddress rpc = inr account
     /\ provider_getBalance rpc account = inr balance)
  /\ config this' = config this
  /\ stats this' = stats this
  /\ privateKey this' = privateKey this.
Proof.
  unfold runInitializeProvider, initializeProvider. run_pipeline.
  all: cbn; repeat split; try reflexivity; try discriminate.
  all: try (intros (account & balance & H1 & H2 & H3); congruence).
  all: intros _;
       repeat match goal with u : unit |- _ => destruct u end;
       eexists; eexists; repeat split; first [eassumption | reflexivity].
Qed.

(** X3. A request whose [tokenIn] and [tokenOut] are the same value is
    rejected before any collaborator is called, on every executor, and is
    not counted as requested. *)
Theorem same_token_swap_is_rejected_before_io
    (rpc : Rpc) (this : SwapExecutor) (req : SwapParams) :
  sp_tokenIn req = sp_tokenOut req ->
  let run := runSwap rpc this req in
  success (resultOf run) = false
  /\ callsOf run = []
  /\ totalSwapsRequested (stats (executorOf run)) = totalSwapsRequested (stats this).
Proof.
  intros Hsame run.
  destruct (@validate_same_token req Hsame) as [msg Hmsg].
  destruct (@invalid_request_is_rejected rpc this req msg Hmsg) as (Hs & Hc & He & _).
  fold run in Hs, Hc, He.
  repeat split; try assumption. rewrite He. reflexivity.
Qed.

(** The assets of a request decide the first four checks of
    [validateSwapParameters]. *)
Lemma validate_with_valid_assets (req : SwapParams) :
  validAssets req ->
  falsy (sp_amountIn req) = false ->
  validateSwapParameters req
  = match parseUnits (the (sp_amountIn req)) 18 with
    | inr amount =>
        if amount <=? 0
        then inl ("Invalid amount format: " ++ the (sp_amountIn req))%string
        else inr tt
    | inl _ => inl ("Invalid amount format: " ++ the (sp_amountIn req))%string
    end.
Proof.
  intros (Hin & Hout & Hinok & Houtok & Hdiff) Hamt.
  unfold validateSwapParameters. rewrite Hin, Hout, Hamt. cbn [orb].
  replace (negb (String.eqb (the (sp_tokenIn req)) "ETH")
           && negb (isAddress (the (sp_tokenIn req)))) with false.
  2:{ destruct Hinok as [-> | ->]; [reflexivity | apply eq_sym, andb_false_r]. }
  replace (negb (String.eqb (the (sp_tokenOut req)) "ETH")
           && negb (isAddress (the (sp_tokenOut req)))) with false.
  2:{ destruct Houtok as [-> | ->]; [reflexivity | apply eq_sym, andb_false_r]. }
  destruct (String.eqb_spec (the (sp_tokenIn req)) (the (sp_tokenOut req))) as [E | _];
    [contradiction | reflexivity].
Qed.

(** X4. A request whose amount does not parse as a decimal with at most
    18 decimals, or parses to zero or less, is rejected before any
    collaborator is called and is not counted as requested; on an enabled
    executor that is not stopped, with two valid and different assets and
    a non-empty amount, the error is [Invalid amount format:] followed by
    the amount (the message [Amount must be greater than 0] thrown inside
    the inner [try] is replaced by it). *)
Theorem bad_amount_is_rejected_before_io
    (rpc : Rpc) (this : SwapExecutor) (req : SwapParams) :
  match parseUnits (the (sp_amountIn req)) 18 with
  | inr amount => amount <= 0
  | inl _ => True
  end ->
  let run := runSwap rpc this req in
  success (resultOf run) = false
  /\ callsOf run = []
  /\ totalSwapsRequested (stats (executorOf run)) = totalSwapsRequested (stats this)
  /\ (isEnabled this = true ->
      cfg_emergencyStop (config this) = false ->
      validAssets req ->
      falsy (sp_amountIn req) = false ->
      error (resultOf run)
      = Some ("Invalid amount format: " ++ the (sp_amountIn req))%string).
Proof.
  intros Hbad run.
  destruct (@validate_bad_amount req Hbad) as [msg Hmsg].
  destruct (@invalid_request_is_rejected rpc this req msg Hmsg) as (Hs & Hc & He & Herr).
  fold run in Hs, Hc, He, Herr.
  split; [exact Hs | ]. split; [exact Hc | ].
  split; [rewrite He; reflexivity | ].
  intros Hen Hstop Hassets Hamt. rewrite (Herr Hen Hstop). f_equal.
  rewrite (@validate_with_valid_assets req Hassets Hamt) in Hmsg.
  destruct (parseUnits (the (sp_amountIn req)) 18) as [e | amount].
  - congruence.
  - destruct (Z.leb_spec amount 0); [congruence | lia].
Qed.

(** X5. [validateSwapParameters] accepts exactly the requests with both
    assets and the amount present (not undefined, not empty), each asset
    the string ETH or an address for the library, the two assets
    different as strings, and an amount that parses with 18 decimals to a
    positive integer. *)
Theorem validation_accepts_exactly (req : SwapParams) :
  validateSwapParameters req = inr tt
  <-> (validAssets req
       /\ falsy (sp_amountIn req) = false
       /\ exists amount, parseUnits (the (sp_amountIn req)) 18 = inr amount /\ 0 < amount).
Proof.
  split.
  - intros Hval.
    destruct (@validate_accepts_amount req Hval) as (amount & Hparse & Hpos).
    revert Hval. unfold validateSwapParameters, validAssets.
    destruct (falsy (sp_tokenIn req)); [discriminate | ].
    destruct (falsy (sp_tokenOut req)); [discriminate | ].
    destruct (falsy (sp_amountIn req)); [discriminate | ]. cbn [orb].
    destruct (String.eqb_spec (the (sp_tokenIn req)) "ETH") as [Ein | Ein];
      destruct (isAddress (the (sp_tokenIn req))) eqn:Ain; cbn [negb andb];
      try discriminate.
    all: destruct (String.eqb_spec (the (sp_tokenOut req)) "ETH") as [Eout | Eout];
      destruct (isAddress (the (sp_tokenOut req))) eqn:Aout; cbn [negb andb];
      try discriminate.
    all: destruct (String.eqb_spec (the (sp_tokenIn req)) (the (sp_tokenOut req)))
      as [Esame | Ediff]; [discriminate | ].
    all: intros _; repeat split; auto; exists amount; auto.
  - intros (Hassets & Hamt & amount & Hparse & Hpos).
    rewrite (@validate_with_valid_assets req Hassets Hamt), Hparse.
    destruct (Z.leb_spec amount 0); [lia | reflexivity].
Qed.

(** X6. A transaction is broadcast only after [estimateGas] was called
    on that same transaction and resolved, the fee data resolved with a
    gas price, the request said [dryRun: false] and real trading is
    enabled; it is addressed to the router. *)
Theorem broadcast_only_after_successful_simulation
    (rpc : Rpc) (this : SwapExecutor) (req : SwapParams) (tx : Transaction) :
  In (EvSendTransaction tx) (callsOf (runSwap rpc this req)) ->
  In (EvEstimateGas tx) (callsOf (runSwap rpc this req))
  /\ (exists gas, wallet_estimateGas rpc tx = inr gas)
  /\ (exists feeData price,
        provider_getFeeData rpc = inr feeData /\ gasPrice feeData = Some price)
  /\ tx_to tx = UNISWAP_V3_ROUTER_ADDRESS
  /\ sp_dryRun req = Some false
  /\ enableRealTrading (config this) = true.
Proof.
  intros Hin.
  destruct (@broadcast_trace_inv _ _ _ _ Hin) as (Hsim & Hgas & Hfee).
  destruct (@simulation_inv _ _ _ _ Hsim) as (_ & _ & Hto & _).
  pose proof (broadcast_inv rpc this req) as Hinv.
  unfold callsOf in Hin.
  destruct (runSwap rpc this req) as [[res this'] evs]. cbn [snd] in Hin.
  assert (Hb : existsb isBroadcast evs = true).
  { apply existsb_exists. exists (EvSendTransaction tx). split; [exact Hin | reflexivity]. }
  destruct (Hinv Hb) as (Hdry & Hreal & _).
  repeat split; assumption.
Qed.

(** X7. When gas estimation rejects, nothing is broadcast and the call
    fails, also for a real request with real trading enabled. *)
Theorem failed_simulation_prevents_broadcast
    (rpc : Rpc) (this : SwapExecutor) (req : SwapParams) :
  (forall tx, exists reason, wallet_estimateGas rpc tx = inl reason) ->
  existsb isBroadcast (callsOf (runSwap rpc this req)) = false
  /\ success (resultOf (runSwap rpc this req)) = false.
Proof.
  intros Hrevert.
  assert (Hnone : existsb isBroadcast (callsOf (runSwap rpc this req)) = false).
  { destruct (existsb isBroadcast (callsOf (runSwap rpc this req))) eqn:Hb; [ | reflexivity].
    destruct (@existsb_isBroadcast_In _ Hb) as [tx Hin].
    destruct (@broadcast_trace_inv _ _ _ _ Hin) as (_ & (gas & Hgas) & _).
    destruct (Hrevert tx) as [reason Hreason]. congruence. }
  split; [exact Hnone | ].
  pose proof (executeSwap_success_inv rpc this req) as Hinv.
  unfold callsOf, resultOf in *.
  destruct (runSwap rpc this req) as [[res this'] evs]. cbn [fst snd] in *.
  destruct (success res); [ | reflexivity].
  destruct (Hinv eq_refl) as (_ & _ & _ & _ & _ & Hb). congruence.
Qed.

(** X8. With real trading disabled, no request leads to a broadcast and
    no call succeeds. *)
Theorem disabled_real_trading_never_broadcasts
    (rpc : Rpc) (this : SwapExecutor) (req : SwapParams) :
  enableRealTrading (config this) = false ->
  existsb isBroadcast (callsOf (runSwap rpc this req)) = false
  /\ success (resultOf (runSwap rpc this req)) = false.
Proof.
  intros Hreal.
  pose proof (executeSwap_success_inv rpc this req) as Hsucc.
  pose proof (broadcast_inv rpc this req) as Hinv.
  unfold callsOf, resultOf.
  destruct (runSwap rpc this req) as [[res this'] evs]. cbn [fst snd].
  split.
  - destruct (existsb isBroadcast evs); [ | reflexivity].
    destruct (Hinv eq_refl) as (_ & Htrue & _). congruence.
  - destruct (success res); [ | reflexivity].
    destruct (Hsucc eq_refl) as (_ & Htrue & _). congruence.
Qed.

(** X9. Unless [ENABLE_REAL_TRADING] is exactly the string [true] when
    the executor is constructed, no sequence of method calls on it ever
    leads to a broadcast: no method turns real trading on. *)
Theorem real_trading_stays_disabled
    (env : ProcessEnv) (now : Z) (cs : list MethodCall) :
  ENABLE_REAL_TRADING env <> Some "true" ->
  existsb isBroadcast (sessionCalls (constructor env now) cs) = false.
Proof.
  intros Henv.
  assert (Hoff : enableRealTrading (config (constructor env now)) = false).
  { rewrite constructor_enableRealTrading.
    destruct (ENABLE_REAL_TRADING env) as [v | ]; [ | reflexivity].
    destruct (String.eqb_spec v "true") as [-> | _]; [contradiction | reflexivity]. }
  revert Hoff. generalize (constructor env now) as this.
  induction cs as [ | c cs IH]; intros this Hoff; cbn [sessionCalls]; [reflexivity | ].
  rewrite existsb_app.
  destruct (invokeWithCalls_quiet this c) as [_ Hquiet].
  rewrite (Hquiet Hoff). cbn [orb].
  apply IH. rewrite invokeWithCalls_fst.
  destruct (invoke_frame this c) as (_ & _ & Hreal & _). cbv zeta in Hreal.
  rewrite Hreal. exact Hoff.
Qed.

(** X10. Once the emergency stop is set it holds until [resumeTrading]:
    through any sequence of [initializeProvider], [executeSwap] and
    [emergencyStop] calls no transaction is simulated or broadcast, and
    the stop is still set afterwards. *)
Theorem emergency_stop_holds_until_resume
    (this : SwapExecutor) (cs : list MethodCall) :
  cfg_emergencyStop (config this) = true ->
  forallb (fun c => negb (isResumeTrading c)) cs = true ->
  existsb isSimulation (sessionCalls this cs) = false
  /\ existsb isBroadcast (sessionCalls this cs) = false
  /\ cfg_emergencyStop (config (invokeAll this cs)) = true.
Proof.
  revert this.
  induction cs as [ | c cs IH]; intros this Hstop Hcs; cbn [sessionCalls invokeAll fold_left].
  - repeat split; try reflexivity. exact Hstop.
  - cbn [forallb] in Hcs. apply andb_prop in Hcs. destruct Hcs as [Hc Hcs].
    apply negb_true_iff in Hc.
    destruct (invokeWithCalls_quiet this c) as [Hquiet _].
    destruct (Hquiet Hstop) as [Hsim Hbro].
    destruct (invoke_frame this c) as (_ & _ & _ & _ & _ & _ & _ & Hkeep).
    cbv zeta in Hkeep. specialize (Hkeep Hc Hstop).
    rewrite invokeWithCalls_fst.
    destruct (IH (invoke this c) Hkeep Hcs) as (IHsim & IHbro & IHstop).
    rewrite !existsb_app, Hsim, Hbro, IHsim, IHbro.
    repeat split; try reflexivity. exact IHstop.
Qed.

(** X11. A successful call made its calls in this order: first the
    balance verification and the address for the recipient, without any
    simulation or broadcast, then [estimateGas], [getFeeData],
    [sendTransaction] on the simulated transaction and the wait for its
    receipt; the result reports the hash of that broadcast. *)
Theorem successful_call_order
    (rpc : Rpc) (this : SwapExecutor) (req : SwapParams) :
  success (resultOf (runSwap rpc this req)) = true ->
  exists before tx response,
    callsOf (runSwap rpc this req)
    = (before ++ [EvEstimateGas tx; EvGetFeeData; EvSendTransaction tx; EvWait response])%list
    /\ existsb isSimulation before = false
    /\ existsb isBroadcast before = false
    /\ wallet_sendTransaction rpc tx = inr response
    /\ transactionHash (resultOf (runSwap rpc this req)) = Some (hash response).
Proof.
  unfold resultOf, callsOf. unfold_executeSwap. run_pipeline.
  all: cbn [fst snd success app]; try discriminate.
  all: intros _.
  all: match goal with
       | |- exists before tx response, ?l = _ /\ _ =>
           exists (List.firstn (List.length l - 4)%nat l)
       end.
  all: cbn; eexists; eexists; repeat split; first [eassumption | reflexivity].
Qed.

(** X12. [estimateGas] is called only after the funds were verified:
    the wallet address and the balance queries resolved, and the balance
    (and, for a token, the allowance to the router) covers the amount. *)
Theorem simulation_requires_verified_funds
    (rpc : Rpc) (this : SwapExecutor) (req : SwapParams) :
  existsb isSimulation (callsOf (runSwap rpc this req)) = true ->
  validateSwapParameters req = inr tt
  /\ fundsVerified rpc (the (sp_tokenIn req)) (the (sp_amountIn req)).
Proof.
  intros Hsim.
  destruct (existsb_isSimulation_In _ Hsim) as [tx Hin].
  destruct (@simulation_inv _ _ _ _ Hin) as (Hstage & Hfunds & _).
  split; [ | exact Hfunds].
  revert Hstage. unfold stage1.
  destruct (negb (isEnabled this)); [discriminate | ].
  destruct (cfg_emergencyStop (config this)); [discriminate | ]. auto.
Qed.

(** X13. A swap of the native asset never queries an ERC-20 contract,
    and a swap of a token never queries the native balance. *)
Theorem native_and_token_verification_are_separate
    (rpc : Rpc) (this : SwapExecutor) (req : SwapParams) :
  if String.eqb (the (sp_tokenIn req)) "ETH"
  then existsb isErc20Query (callsOf (runSwap rpc this req)) = false
  else existsb isNativeBalanceQuery (callsOf (runSwap rpc this req)) = false.
Proof.
  unfold callsOf. unfold_executeSwap. run_pipeline.
  all: reflexivity.
Qed.

(** X14. Every transaction submitted for simulation is addressed to the
    router; for the native asset its value is the amount of the request
    in wei, which is positive, and for a token other than WETH its value
    is zero. *)
Theorem simulated_transaction_target_and_value
    (rpc : Rpc) (this : SwapExecutor) (req : SwapParams) (tx : Transaction) :
  In (EvEstimateGas tx) (callsOf (runSwap rpc this req)) ->
  tx_to tx = UNISWAP_V3_ROUTER_ADDRESS
  /\ (the (sp_tokenIn req) = "ETH" ->
      parseUnits (the (sp_amountIn req)) 18 = inr (tx_value tx) /\ 0 < tx_value tx)
  /\ (the (sp_tokenIn req) <> "ETH" ->
      the (sp_tokenIn req) <> TOKEN_ADDRESSES.WETH ->
      tx_value tx = 0).
Proof.
  intros Hin.
  destruct (@simulation_inv _ _ _ _ Hin) as (Hstage & _ & Hto & Hvalue).
  split; [exact Hto | ].
  assert (Hvalid : validateSwapParameters req = inr tt).
  { revert Hstage. unfold stage1.
    destruct (negb (isEnabled this)); [discriminate | ].
    destruct (cfg_emergencyStop (config this)); [discriminate | ]. auto. }
  destruct (@validate_accepts_amount req Hvalid) as (amount & Hparse & Hpos).
  unfold detailsOf in Hvalue. split.
  - intros Heth. rewrite Heth in Hvalue. rewrite native_input_carries_value in Hvalue.
    split; [exact Hvalue | ]. congruence.
  - intros Hne Hnw.
    rewrite (@other_token_input_carries_no_value _ _ _ _ _ _ Hne Hnw) in Hvalue.
    congruence.
Qed.

(** X15. The result and the statistics of one call agree.
    [totalSwapsFailed] moves exactly when the result is a failure, and a
    success counted the request. [totalSwapsExecuted] moves exactly when
    the transaction was sent and [wait()] resolved with a receipt. With a
    receipt that carries [effectiveGasPrice] the result is a success, the
    gas cost is added and the time of the swap is set; with a receipt
    that lacks it the result is a failure with the [TypeError] message,
    although the swap was counted as executed, and gas total and swap time
    are as before; without a receipt they are as before too. *)
Theorem result_and_statistics_agree
    (rpc : Rpc) (this : SwapExecutor) (req : SwapParams) :
  let run := runSwap rpc this req in
  let before := stats this in
  let after := stats (executorOf run) in
  (if success (resultOf run)
   then totalSwapsFailed after = totalSwapsFailed before
        /\ totalSwapsRequested after = js_incr (totalSwapsRequested before)
   else totalSwapsFailed after = js_incr (totalSwapsFailed before))
  /\ match confirmedReceipt rpc (callsOf run) with
     | Some receipt =>
         totalSwapsExecuted after = js_incr (totalSwapsExecuted before)
         /\ match rc_effectiveGasPrice receipt with
            | Some price =>
                success (resultOf run) = true
                /\ totalGasSpentETH after
                   = num_add (totalGasSpentETH before)
                             (parseFloat (formatEther (rc_gasUsed receipt * price)))
                /\ lastSwapTime after = Some (Date_now rpc)
            | None =>
                success (resultOf run) = false
                /\ error (resultOf run)
                   = Some "Cannot mix BigInt and other types, use explicit conversions"
                /\ totalGasSpentETH after = totalGasSpentETH before
                /\ lastSwapTime after = lastSwapTime before
            end
     | None =>
         totalSwapsExecuted after = totalSwapsExecuted before
         /\ totalGasSpentETH after = totalGasSpentETH before
         /\ lastSwapTime after = lastSwapTime before
     end.
Proof.
  unfold resultOf, executorOf, callsOf. unfold_executeSwap. unfold_effects.
  cbn [self calls fst snd success app confirmedReceipt].
  repeat (next_case; cbn [self calls fst snd success app confirmedReceipt] in * ).
  all: cbn; repeat split; try reflexivity; try discriminate.
  all: congruence.
Qed.

(** X16. [totalVolumeETH] is never updated: after any sequence of method
    calls on a fresh executor it is still the initial 0, also after
    confirmed swaps. *)
Theorem total_volume_is_never_updated
    (env : ProcessEnv) (now : Z) (cs : list MethodCall) :
  totalVolumeETH (stats (invokeAll (constructor env now) cs)) = num_of_Z 0.
Proof.
  destruct (constructor_stats env now) as (_ & _ & _ & Hvol & _).
  revert Hvol. generalize (constructor env now) as this.
  induction cs as [ | c cs IH]; intros this Hvol; cbn [invokeAll fold_left]; [exact Hvol | ].
  apply IH.
  destruct (invoke_frame this c) as (_ & _ & _ & _ & Hkeep & _). cbv zeta in Hkeep.
  rewrite Hkeep. exact Hvol.
Qed.

(** X17. The configuration that [getStatus] reports never changes: no
    sequence of method calls alters the slippage and value limits or the
    real-trading switch; and [isEnabled] is only ever changed by
    [initializeProvider]. *)
Theorem status_configuration_is_fixed (this : SwapExecutor) (cs : list MethodCall) :
  st_configuration (getStatus (invokeAll this cs)) = st_configuration (getStatus this)
  /\ (forallb (fun c => negb (isInitializeProvider c)) cs = true ->
      st_isEnabled (getStatus (invokeAll this cs)) = st_isEnabled (getStatus this)).
Proof.
  revert this.
  induction cs as [ | c cs IH]; intros this; cbn [invokeAll fold_left forallb].
  - split; reflexivity.
  - destruct (IH (invoke this c)) as [IHcfg IHen].
    destruct (invoke_frame this c) as (Hs & Hv & Hr & _ & _ & _ & Hen & _).
    cbv zeta in Hs, Hv, Hr, Hen.
    unfold invokeAll in IHcfg, IHen. split.
    + rewrite IHcfg. unfold getStatus. cbn [st_configuration].
      rewrite Hs, Hv, Hr. reflexivity.
    + intros Hcs. apply andb_prop in Hcs. destruct Hcs as [Hc Hcs].
      apply negb_true_iff in Hc.
      rewrite (IHen Hcs). unfold getStatus. cbn [st_isEnabled]. apply Hen. exact Hc.
Qed.

(** X18. A request without a [dryRun] property is a dry run: it behaves
    exactly as the same request with [dryRun: true] and never leads to a
    broadcast. *)
Theorem omitted_dryRun_is_a_dry_run
    (rpc : Rpc) (this : SwapExecutor) (req : SwapParams) :
  sp_dryRun req = None ->
  runSwap rpc this req = runSwap rpc this (with_dryRun (Some true) req)
  /\ existsb isBroadcast (callsOf (runSwap rpc this req)) = false.
Proof.
  intros Hnone. split.
  - destruct req as [tin tout amt slip dry reason]. cbn in Hnone. subst dry. reflexivity.
  - pose proof (broadcast_inv rpc this req) as Hinv.
    unfold callsOf. destruct (runSwap rpc this req) as [[res this'] evs]. cbn [snd].
    destruct (existsb isBroadcast evs); [ | reflexivity].
    destruct (Hinv eq_refl) as (Hfalse & _). congruence.
Qed.

(** X19. [demonstrateSwapExecution] never executes its dry run: the
    executor it constructs is not enabled, so it returns before calling
    [executeSwap], whatever the environment and the chain. *)
Theorem demonstration_never_executes (env : ProcessEnv) (now : Z) (rpc : Rpc) :
  demonstrateSwapExecution env now rpc = (None, []).
Proof.
  unfold demonstrateSwapExecution. rewrite constructor_disabled. reflexivity.
Qed.

(** X20. A native swap whose amount exceeds the wallet balance stops
    after the balance query: the error names the required amount and the
    available balance, the only calls are the address and balance queries,
    and the request is counted as requested and as failed. *)
Theorem insufficient_native_balance_stops_the_pipeline
    (rpc : Rpc) (this : SwapExecutor) (req : SwapParams)
    (account : string) (balance required : Z) :
  stage1 this req = inr tt ->
  the (sp_tokenIn req) = "ETH" ->
  wallet_getAddress rpc = inr account ->
  provider_getBalance rpc account = inr balance ->
  parseEther (the (sp_amountIn req)) = inr required ->
  balance < required ->
  let run := runSwap rpc this req in
  success (resultOf run) = false
  /\ error (resultOf run)
     = Some ("Insufficient ETH balance. Required: " ++ the (sp_amountIn req)
             ++ ", Available: " ++ formatEther balance)%string
  /\ callsOf run = [EvGetAddress; EvGetBalance account]
  /\ totalSwapsRequested (stats (executorOf run)) = js_incr (totalSwapsRequested (stats this))
  /\ totalSwapsFailed (stats (executorOf run)) = js_incr (totalSwapsFailed (stats this)).
Proof.
  unfold stage1.
  destruct (negb (isEnabled this)) eqn:Hen; [discriminate | ].
  destruct (cfg_emergencyStop (config this)) eqn:Hstop; [discriminate | ].
  intros Hvalid Heth Haddr Hbal Hreq Hlt.
  apply Z.ltb_lt in Hlt.
  unfold resultOf, executorOf, callsOf. unfold_executeSwap. unfold_effects.
  cbn [self calls fst snd].
  rewrite Hen, Hstop, Hvalid. cbn [self calls fst snd].
  rewrite Haddr, Heth. cbn [String.eqb Ascii.eqb Bool.eqb self calls fst snd app].
  rewrite Hbal. cbn [self calls fst snd]. rewrite Hreq, Hlt. cbn.
  repeat split; reflexivity.
Qed.

(** X21. A token swap stops at the first shortfall: with a balance below
    the amount the allowance is not even queried, and with a sufficient
    balance but an allowance below the amount the call fails asking for an
    approval; in both cases nothing is simulated, approved or sent. *)
Theorem token_shortfall_stops_the_pipeline
    (rpc : Rpc) (this : SwapExecutor) (req : SwapParams)
    (account : string) (balance decimals required : Z) :
  stage1 this req = inr tt ->
  the (sp_tokenIn req) <> "ETH" ->
  wallet_getAddress rpc = inr account ->
  erc20_balanceOf rpc (the (sp_tokenIn req)) account = inr balance ->
  erc20_decimals rpc (the (sp_tokenIn req)) = inr decimals ->
  parseUnits (the (sp_amountIn req)) decimals = inr required ->
  let run := runSwap rpc this req in
  let token := the (sp_tokenIn req) in
  (balance < required ->
   success (resultOf run) = false
   /\ error (resultOf run)
      = Some ("Insufficient token balance. Required: " ++ the (sp_amountIn req)
              ++ ", Available: " ++ formatUnits balance decimals)%string
   /\ callsOf run = [EvGetAddress; EvBalanceOf token account; EvDecimals token])
  /\ (required <= balance ->
      forall allowance,
        erc20_allowance rpc token account UNISWAP_V3_ROUTER_ADDRESS = inr allowance ->
        allowance < required ->
        success (resultOf run) = false
        /\ error (resultOf run)
           = Some ("Insufficient token allowance. Please approve "
                   ++ the (sp_amountIn req) ++ " tokens for the Uniswap router.")%string
        /\ callsOf run
           = [EvGetAddress; EvBalanceOf token account; EvDecimals token;
              EvAllowance token account UNISWAP_V3_ROUTER_ADDRESS]).
Proof.
  unfold stage1.
  destruct (negb (isEnabled this)) eqn:Hen; [discriminate | ].
  destruct (cfg_emergencyStop (config this)) eqn:Hstop; [discriminate | ].
  intros Hvalid Htok Haddr Hbal Hdec Hreq. cbv zeta.
  apply String.eqb_neq in Htok.
  unfold resultOf, executorOf, callsOf. unfold_executeSwap. unfold_effects.
  cbn [self calls fst snd].
  rewrite Hen, Hstop, Hvalid. cbn [self calls fst snd].
  rewrite Haddr, Htok. cbn [self calls fst snd app].
  rewrite Hbal. cbn [self calls fst snd app]. rewrite Hdec. cbn [self calls fst snd app].
  rewrite Hreq. split.
  - intros Hlt. apply Z.ltb_lt in Hlt. rewrite Hlt. cbn. repeat split; reflexivity.
  - intros Hge allowance Hall Hlt. apply Z.ltb_ge in Hge. apply Z.ltb_lt in Hlt.
    rewrite Hge. cbn [self calls fst snd app]. rewrite Hall, Hlt. cbn.
    repeat split; reflexivity.
Qed.

(** The statistics of an executor with a stop set, after a sequence of
    swaps: every swap counted one failure and changed nothing else. *)
Lemma stopped_swaps_count_failures (reqs : list (Rpc * SwapParams)) :
  forall this : SwapExecutor,
    cfg_emergencyStop (config this) = true ->
    invokeAll this (swapCalls reqs) = with_failures (List.length reqs) this.
Proof.
  induction reqs as [ | [rpc0 r] reqs IH]; intros this Hstop.
  - destruct this as [key cfg sts en]. reflexivity.
  - cbn [swapCalls map invokeAll fold_left invoke fst snd List.length].
    assert (Hstage : exists m, stage1 this r = inl m).
    { unfold stage1. rewrite Hstop. destruct (negb (isEnabled this)); eexists; reflexivity. }
    destruct Hstage as [m Hstage].
    pose proof (@stage1_rejects _ _ rpc0 this r m Hstage) as Hrej.
    destruct (runSwap rpc0 this r) as [[res this'] evs].
    destruct Hrej as (_ & _ & -> & _). cbn [executorOf fst snd].
    fold (swapCalls reqs). fold (invokeAll (with_stats (incr_failed (stats this)) this)
                                           (swapCalls reqs)).
    rewrite IH by exact Hstop.
    unfold with_failures, with_stats. cbn [stats privateKey config isEnabled].
    rewrite Nat.iter_succ_r. reflexivity.
Qed.

(** X29. Stop and resume on an enabled executor. After [emergencyStop()]
    every [executeSwap] fails with the emergency-stop error and without
    any call to a collaborator, however many are issued; the executor is
    then the one before the stop with the stop set and that many failures
    counted, and [resumeTrading()] gives back the executor before the
    stop but for those failures. A valid request issued after the resume
    passes stage 1 again: it is counted as requested and its balance
    verification starts. *)
Theorem stop_and_resume_round_trip
    (this : SwapExecutor) (reqs : list (Rpc * SwapParams)) (rpc : Rpc) (req : SwapParams) :
  isEnabled this = true ->
  cfg_emergencyStop (config this) = false ->
  validateSwapParameters req = inr tt ->
  let stopped := invokeAll (emergencyStop this) (swapCalls reqs) in
  let resumed := runSwap rpc (resumeTrading stopped) req in
  (forall done rest rpc0 r,
     reqs = (done ++ (rpc0, r) :: rest)%list ->
     stopped_by_emergency (runSwap rpc0 (invokeAll (emergencyStop this) (swapCalls done)) r))
  /\ stopped = emergencyStop (with_failures (List.length reqs) this)
  /\ resumeTrading stopped = with_failures (List.length reqs) this
  /\ totalSwapsRequested (stats (executorOf resumed))
     = js_incr (totalSwapsRequested (stats this))
  /\ exists rest, callsOf resumed = EvGetAddress :: rest.
Proof.
  intros Hen Hrun Hvalid stopped resumed.
  assert (Hstop : cfg_emergencyStop (config (emergencyStop this)) = true) by reflexivity.
  assert (Hstopped : stopped = emergencyStop (with_failures (List.length reqs) this)).
  { subst stopped. rewrite (stopped_swaps_count_failures reqs _ Hstop). reflexivity. }
  assert (Hresumed : resumeTrading stopped = with_failures (List.length reqs) this).
  { rewrite Hstopped. destruct this as [key [a b c d e f stop] sts en].
    cbn in Hrun. subst stop. reflexivity. }
  split; [ | split; [exact Hstopped | split; [exact Hresumed | ]]].
  - intros done rest rpc0 r _.
    rewrite (stopped_swaps_count_failures done _ Hstop).
    assert (Hstage : stage1 (with_failures (List.length done) (emergencyStop this)) r
                     = inl EMERGENCY_STOP).
    { unfold stage1. cbn. rewrite Hen. reflexivity. }
    pose proof (@stage1_rejects _ _ rpc0 _ r _ Hstage) as Hrej.
    unfold stopped_by_emergency.
    destruct (runSwap rpc0 _ r) as [[res this'] evs].
    destruct Hrej as (Hs & He & _ & Hev). auto.
  - subst resumed. rewrite Hresumed.
    assert (Hpass : stage1 (with_failures (List.length reqs) this) req = inr tt).
    { unfold stage1. cbn. rewrite Hen, Hrun. cbn. exact Hvalid. }
    pose proof (@stage1_passes _ _ rpc _ req Hpass) as Hcalls.
    pose proof (@stage1_passes_counts_request _ _ rpc _ req Hpass) as Hcount.
    destruct (runSwap rpc _ req) as [[res' this''] evs'].
    cbn [resultOf executorOf callsOf fst snd].
    destruct Hcalls as (rest & Hevs & _).
    split; [ | exists rest; exact Hevs].
    rewrite Hcount. unfold with_failures, with_stats. cbn [stats].
    clear. induction (List.length reqs) as [ | n IH]; [reflexivity | ].
    cbn [Nat.iter nat_rect]. exact IH.
Qed.

End ExecutorProperties.

(* ------------------------------------------------------------------ *)
(** ** The further properties on concrete requests *)
(* ------------------------------------------------------------------ *)

Section ExecutorScenarios.

#[local] Existing Instance Mock.numbers.
#[local] Existing Instance Mock.ethers.

Lemma same_token_swap_is_rejected_before_io_witness :
  sp_tokenIn Mock.sameTokenRequest = sp_tokenOut Mock.sameTokenRequest
  /\ success (resultOf (runSwap Mock.rpc Mock.connected Mock.sameTokenRequest)) = false
  /\ callsOf (runSwap Mock.rpc Mock.connected Mock.sameTokenRequest) = [].
Proof.
  split; [reflexivity | ].
  destruct (@same_token_swap_is_rejected_before_io Mock.numbers Mock.ethers
              Mock.rpc Mock.connected Mock.sameTokenRequest eq_refl) as (Hs & Hc & _).
  split; [exact Hs | exact Hc].
Defined.

Lemma bad_amount_is_rejected_before_io_witness :
  parseUnits "0" 18 = inr 0
  /\ callsOf (runSwap Mock.rpc Mock.connected Mock.zeroAmountRequest) = []
  /\ error (resultOf (runSwap Mock.rpc Mock.connected Mock.zeroAmountRequest))
     = Some "Invalid amount format: 0".
Proof.
  split; [reflexivity | ].
  assert (Hbad : match parseUnits (the (sp_amountIn Mock.zeroAmountRequest)) 18 with
                 | inr amount => amount <= 0
                 | inl _ => True
                 end) by (vm_compute; discriminate).
  destruct (@bad_amount_is_rejected_before_io Mock.numbers Mock.ethers
              Mock.rpc Mock.connected Mock.zeroAmountRequest Hbad) as (_ & Hc & _ & Herr).
  split; [exact Hc | ].
  apply Herr; try reflexivity.
  unfold validAssets. repeat split; try reflexivity.
  - left. reflexivity.
  - right. vm_compute. reflexivity.
  - vm_compute. discriminate.
Defined.

Lemma broadcast_only_after_successful_simulation_witness :
  In (EvSendTransaction Mock.realTransaction)
     (callsOf (runSwap Mock.rpc Mock.live Mock.realRequest))
  /\ In (EvEstimateGas Mock.realTransaction)
        (callsOf (runSwap Mock.rpc Mock.live Mock.realRequest)).
Proof.
  assert (Hin : In (EvSendTransaction Mock.realTransaction)
                   (callsOf (runSwap Mock.rpc Mock.live Mock.realRequest)))
    by (vm_compute; do 5 right; left; reflexivity).
  split; [exact Hin | ].
  destruct (@broadcast_only_after_successful_simulation Mock.numbers Mock.ethers
              Mock.rpc Mock.live Mock.realRequest Mock.realTransaction Hin) as (H & _).
  exact H.
Defined.

Lemma failed_simulation_prevents_broadcast_witness :
  (forall tx, exists reason, wallet_estimateGas Mock.rpc_reverting tx = inl reason)
  /\ existsb isBroadcast (callsOf (runSwap Mock.rpc_reverting Mock.live Mock.realRequest)) = false.
Proof.
  assert (Hrevert : forall tx, exists reason,
                      wallet_estimateGas Mock.rpc_reverting tx = inl reason)
    by (intros tx; eexists; reflexivity).
  split; [exact Hrevert | ].
  destruct (@failed_simulation_prevents_broadcast Mock.numbers Mock.ethers
              Mock.rpc_reverting Mock.live Mock.realRequest Hrevert) as [H _].
  exact H.
Defined.

Lemma disabled_real_trading_never_broadcasts_witness :
  enableRealTrading (config Mock.connected) = false
  /\ sp_dryRun Mock.realRequest = Some false
  /\ existsb isBroadcast (callsOf (runSwap Mock.rpc Mock.connected Mock.realRequest)) = false.
Proof.
  split; [reflexivity | ]. split; [reflexivity | ].
  destruct (@disabled_real_trading_never_broadcasts Mock.numbers Mock.ethers
              Mock.rpc Mock.connected Mock.realRequest eq_refl) as [H _].
  exact H.
Defined.

Lemma real_trading_stays_disabled_witness :
  ENABLE_REAL_TRADING (Mock.env false) <> Some "true"
  /\ existsb isBroadcast
       (sessionCalls (constructor (Mock.env false) 1700000000000)
          [InitializeProvider Mock.rpc; ExecuteSwap Mock.rpc Mock.realRequest]) = false.
Proof.
  assert (Henv : ENABLE_REAL_TRADING (Mock.env false) <> Some "true") by discriminate.
  split; [exact Henv | ].
  exact (@real_trading_stays_disabled Mock.numbers Mock.ethers (Mock.env false) 1700000000000
           [InitializeProvider Mock.rpc; ExecuteSwap Mock.rpc Mock.realRequest] Henv).
Defined.

Lemma emergency_stop_holds_until_resume_witness :
  cfg_emergencyStop (config (emergencyStop Mock.live)) = true
  /\ existsb isSimulation
       (sessionCalls (emergencyStop Mock.live)
          [ExecuteSwap Mock.rpc Mock.realRequest; InitializeProvider Mock.rpc;
           ExecuteSwap Mock.rpc Mock.realRequest]) = false.
Proof.
  split; [reflexivity | ].
  destruct (@emergency_stop_holds_until_resume Mock.numbers Mock.ethers
              (emergencyStop Mock.live)
              [ExecuteSwap Mock.rpc Mock.realRequest; InitializeProvider Mock.rpc;
               ExecuteSwap Mock.rpc Mock.realRequest] eq_refl eq_refl) as [H _].
  exact H.
Defined.

Lemma successful_call_order_witness :
  success (resultOf (runSwap Mock.rpc Mock.live Mock.realRequest)) = true
  /\ exists before tx response,
       callsOf (runSwap Mock.rpc Mock.live Mock.realRequest)
       = (before ++ [EvEstimateGas tx; EvGetFeeData; EvSendTransaction tx; EvWait response])%list.
Proof.
  assert (Hsucc : success (resultOf (runSwap Mock.rpc Mock.live Mock.realRequest)) = true)
    by (vm_compute; reflexivity).
  split; [exact Hsucc | ].
  destruct (@successful_call_order Mock.numbers Mock.ethers
              Mock.rpc Mock.live Mock.realRequest Hsucc)
    as (before & tx & response & Hcalls & _).
  exists before, tx, response. exact Hcalls.
Defined.

Lemma simulation_requires_verified_funds_witness :
  existsb isSimulation (callsOf (runSwap Mock.rpc Mock.connected Mock.dryRunRequest)) = true
  /\ fundsVerified Mock.rpc "ETH" "0.01".
Proof.
  assert (Hsim : existsb isSimulation
                   (callsOf (runSwap Mock.rpc Mock.connected Mock.dryRunRequest)) = true)
    by (vm_compute; reflexivity).
  split; [exact Hsim | ].
  destruct (@simulation_requires_verified_funds Mock.numbers Mock.ethers
              Mock.rpc Mock.connected Mock.dryRunRequest Hsim) as [_ H].
  exact H.
Defined.

Lemma simulated_transaction_target_and_value_witness :
  In (EvEstimateGas Mock.realTransaction)
     (callsOf (runSwap Mock.rpc Mock.live Mock.realRequest))
  /\ the (sp_tokenIn Mock.realRequest) = "ETH"
  /\ parseUnits "0.01" 18 = inr (tx_value Mock.realTransaction).
Proof.
  assert (Hin : In (EvEstimateGas Mock.realTransaction)
                   (callsOf (runSwap Mock.rpc Mock.live Mock.realRequest)))
    by (vm_compute; do 3 right; left; reflexivity).
  split; [exact Hin | ]. split; [reflexivity | ].
  destruct (@simulated_transaction_target_and_value Mock.numbers Mock.ethers
              Mock.rpc Mock.live Mock.realRequest Mock.realTransaction Hin) as (_ & H & _).
  destruct (H eq_refl) as [Hvalue _]. exact Hvalue.
Defined.

Lemma status_configuration_is_fixed_witness :
  st_isEnabled
    (getStatus (invokeAll Mock.live
                  [ExecuteSwap Mock.rpc Mock.realRequest; EmergencyStop; ResumeTrading]))
  = st_isEnabled (getStatus Mock.live).
Proof.
  destruct (@status_configuration_is_fixed Mock.numbers Mock.ethers Mock.live
              [ExecuteSwap Mock.rpc Mock.realRequest; EmergencyStop; ResumeTrading])
    as [_ H].
  apply H. reflexivity.
Defined.

Lemma omitted_dryRun_is_a_dry_run_witness :
  sp_dryRun Mock.requestWithoutDryRun = None
  /\ existsb isBroadcast (callsOf (runSwap Mock.rpc Mock.live Mock.requestWithoutDryRun)) = false.
Proof.
  split; [reflexivity | ].
  destruct (@omitted_dryRun_is_a_dry_run Mock.numbers Mock.ethers
              Mock.rpc Mock.live Mock.requestWithoutDryRun eq_refl) as [_ H].
  exact H.
Defined.

Lemma insufficient_native_balance_stops_the_pipeline_witness :
  stage1 Mock.connected Mock.dryRunRequest = inr tt
  /\ provider_getBalance Mock.rpc_poor Mock.walletAddress = inr (10 ^ 15)
  /\ parseEther "0.01" = inr (10 ^ 16)
  /\ callsOf (runSwap Mock.rpc_poor Mock.connected Mock.dryRunRequest)
     = [EvGetAddress; EvGetBalance Mock.walletAddress].
Proof.
  assert (Hstage : stage1 Mock.connected Mock.dryRunRequest = inr tt)
    by (vm_compute; reflexivity).
  assert (Hparse : parseEther (the (sp_amountIn Mock.dryRunRequest)) = inr (10 ^ 16))
    by (vm_compute; reflexivity).
  assert (Hlt : 10 ^ 15 < 10 ^ 16) by (vm_compute; reflexivity).
  split; [exact Hstage | ]. split; [reflexivity | ]. split; [exact Hparse | ].
  destruct (@insufficient_native_balance_stops_the_pipeline Mock.numbers Mock.ethers
              Mock.rpc_poor Mock.connected Mock.dryRunRequest
              Mock.walletAddress (10 ^ 15) (10 ^ 16)
              Hstage eq_refl eq_refl eq_refl Hparse Hlt) as (_ & _ & H & _).
  exact H.
Defined.

Lemma token_shortfall_stops_the_pipeline_witness :
  stage1 Mock.connected Mock.tokenRequest = inr tt
  /\ the (sp_tokenIn Mock.tokenRequest) <> "ETH"
  /\ callsOf (runSwap Mock.rpc_poor Mock.connected Mock.tokenRequest)
     = [EvGetAddress;
        EvBalanceOf TOKEN_ADDRESSES.SHIB Mock.walletAddress;
        EvDecimals TOKEN_ADDRESSES.SHIB;
        EvAllowance TOKEN_ADDRESSES.SHIB Mock.walletAddress UNISWAP_V3_ROUTER_ADDRESS].
Proof.
  assert (Hstage : stage1 Mock.connected Mock.tokenRequest = inr tt)
    by (vm_compute; reflexivity).
  assert (Htok : the (sp_tokenIn Mock.tokenRequest) <> "ETH") by (vm_compute; discriminate).
  assert (Hparse : parseUnits (the (sp_amountIn Mock.tokenRequest)) 18 = inr (1000 * 10 ^ 18))
    by (vm_compute; reflexivity).
  split; [exact Hstage | ]. split; [exact Htok | ].
  destruct (@token_shortfall_stops_the_pipeline Mock.numbers Mock.ethers
              Mock.rpc_poor Mock.connected Mock.tokenRequest
              Mock.walletAddress (2000000 * 10 ^ 18) 18 (1000 * 10 ^ 18)
              Hstage Htok eq_refl eq_refl eq_refl Hparse) as [_ H].
  assert (Hge : 1000 * 10 ^ 18 <= 2000000 * 10 ^ 18) by (vm_compute; discriminate).
  assert (Hlt : 10 ^ 18 < 1000 * 10 ^ 18) by (vm_compute; reflexivity).
  destruct (H Hge (10 ^ 18) eq_refl Hlt) as (_ & _ & Hcalls).
  exact Hcalls.
Defined.

Lemma stop_and_resume_round_trip_witness :
  isEnabled Mock.connected = true
  /\ cfg_emergencyStop (config Mock.connected) = false
  /\ validateSwapParameters Mock.dryRunRequest = inr tt
  /\ (let stopped :=
        invokeAll (emergencyStop Mock.connected)
                  (swapCalls [(Mock.rpc, Mock.dryRunRequest); (Mock.rpc, Mock.realRequest)]) in
      totalSwapsFailed (stats (resumeTrading stopped)) = 2
      /\ resumeTrading stopped = with_failures 2 Mock.connected
      /\ exists rest,
           callsOf (runSwap Mock.rpc (resumeTrading stopped) Mock.dryRunRequest)
           = EvGetAddress :: rest).
Proof.
  assert (Hen : isEnabled Mock.connected = true) by reflexivity.
  assert (Hrun : cfg_emergencyStop (config Mock.connected) = false) by reflexivity.
  assert (Hvalid : validateSwapParameters Mock.dryRunRequest = inr tt)
    by (vm_compute; reflexivity).
  split; [exact Hen | ]. split; [exact Hrun | ]. split; [exact Hvalid | ].
  destruct (@stop_and_resume_round_trip Mock.numbers Mock.ethers Mock.connected
              [(Mock.rpc, Mock.dryRunRequest); (Mock.rpc, Mock.realRequest)]
              Mock.rpc Mock.dryRunRequest Hen Hrun Hvalid)
    as (_ & _ & Hresumed & _ & Hrest).
  split; [vm_compute; reflexivity | ]. split; [exact Hresumed | exact Hrest].
Defined.

End ExecutorScenarios.

(* ------------------------------------------------------------------ *)
(** ** Properties of the meme coin filter *)
(* ------------------------------------------------------------------ *)

Section MemeCoinFilterProperties.

Context {JS : JsString}.

(** Induction on values, with the hypothesis for every item of an array
    and every property value of an object. *)
Lemma JsValue_nested_ind (P : JsValue -> Prop) :
  P JUndefined ->
  P JNull ->
  (forall b, P (JPrim b)) ->
  (forall s, P (JStr s)) ->
  (forall items, Forall P items -> P (JArr items)) ->
  (forall props, Forall (fun kv => P (snd kv)) props -> P (JObj props)) ->
  forall v, P v.
Proof.
  intros Hu Hn Hp Hs Ha Ho.
  fix IH 1. intros [ | | b | s | items | props].
  - exact Hu.
  - exact Hn.
  - apply Hp.
  - apply Hs.
  - apply Ha. induction items as [ | v items IHitems]; constructor; [apply IH | exact IHitems].
  - apply Ho. induction props as [ | kv props IHprops]; constructor;
      [apply IH | exact IHprops].
Qed.

Lemma existsb_mono {A} (f g : A -> bool) (l : list A) :
  (forall x, In x l -> f x = true -> g x = true) ->
  existsb f l = true -> existsb g l = true.
Proof.
  intros Hfg H. apply existsb_exists in H. destruct H as (x & Hin & Hfx).
  apply existsb_exists. exists x. split; [exact Hin | apply Hfg; assumption].
Qed.

(** Membership in the set of lowercased addresses is [tracked]. *)
Lemma isMemeAddress_tracked (addresses : list string) (s : string) :
  isMemeAddress addresses (JStr s) = negb (String.eqb s "") && tracked addresses s.
Proof.
  unfold isMemeAddress, tracked. destruct (String.eqb s ""); [reflexivity | ].
  cbn [negb andb].
  induction addresses as [ | a l IH]; [reflexivity | ].
  cbn [map existsb]. rewrite IH, (String.eqb_sym (toLowerCase s)). reflexivity.
Qed.

Lemma isMemeAddress_inv (addresses : list string) (v : JsValue) :
  isMemeAddress addresses v = true ->
  exists s, v = JStr s /\ s <> "" /\ tracked addresses s = true.
Proof.
  destruct v as [ | | b | s | items | props]; try discriminate.
  rewrite isMemeAddress_tracked. intros H. apply andb_prop in H. destruct H as [Hne Ht].
  exists s. repeat split; [ | exact Ht].
  intros ->. discriminate.
Qed.

Lemma prefix_0x_nonempty (s : string) : String.prefix "0x" s = true -> s <> "".
Proof. intros H ->. discriminate. Qed.

Lemma tracked_same_lowercase (addresses : list string) (s s' : string) :
  toLowerCase s = toLowerCase s' -> tracked addresses s = tracked addresses s'.
Proof. intros H. unfold tracked. rewrite H. reflexivity. Qed.

(** [extractAddressesFromObject] returns exactly the strings inside the
    value that have the shape of an address. *)
Lemma extract_spec (v : JsValue) (s : string) :
  In s (extractAddressesFromObject v)
  <-> In s (stringsOf v) /\ looksLikeAddress s = true.
Proof.
  induction v as [ | | b | s0 | items IH | props IH] using JsValue_nested_ind;
    cbn [extractAddressesFromObject stringsOf]; try (cbn; tauto).
  - destruct (looksLikeAddress s0) eqn:Hshape; cbn [In].
    + split.
      * intros [<- | []]. split; [left; reflexivity | exact Hshape].
      * intros [[<- | []] _]. left; reflexivity.
    + split; [intros [] | ]. intros [[<- | []] Hs]. congruence.
  - rewrite !in_flat_map. split.
    + intros (x & Hx & Hin). rewrite Forall_forall in IH.
      apply (IH x Hx) in Hin. destruct Hin as [Hin Hs].
      split; [exists x; split; assumption | exact Hs].
    + intros [(x & Hx & Hin) Hs]. exists x. split; [exact Hx | ].
      rewrite Forall_forall in IH. apply (IH x Hx). split; assumption.
  - rewrite !in_flat_map. split.
    + intros (x & Hx & Hin). rewrite Forall_forall in IH.
      apply (IH x Hx) in Hin. destruct Hin as [Hin Hs].
      split; [exists x; split; assumption | exact Hs].
    + intros [(x & Hx & Hin) Hs]. exists x. split; [exact Hx | ].
      rewrite Forall_forall in IH. apply (IH x Hx). split; assumption.
Qed.

(** A string property of an object is one of the strings inside it. *)
Lemma getProp_string (key : string) (v : JsValue) (t : string) :
  getProp key v = JStr t -> In t (stringsOf v).
Proof.
  destruct v as [ | | b | s | items | props]; cbn [getProp]; try discriminate.
  destruct (find (fun kv => String.eqb (fst kv) key) props) as [kv | ] eqn:Hfind;
    [ | discriminate].
  intros Hkv. apply find_some in Hfind. destruct Hfind as [Hin _].
  cbn [stringsOf]. apply in_flat_map. exists kv. split; [exact Hin | ].
  rewrite Hkv. left. reflexivity.
Qed.

Lemma argumentMatches_sound (addresses : list string) (arg : JsValue) :
  argumentMatches addresses arg = true ->
  exists s, In s (stringsOf arg) /\ tracked addresses s = true.
Proof.
  destruct arg as [ | | b | s | items | props]; cbn [argumentMatches]; try discriminate.
  - destruct (String.prefix "0x" s); [ | discriminate].
    intros H. apply isMemeAddress_inv in H. destruct H as (s' & [= <-] & _ & Ht).
    exists s. split; [left; reflexivity | exact Ht].
  - intros H. apply existsb_exists in H. destruct H as (item & Hin & Hitem).
    destruct item as [ | | b | s | items' | props']; try discriminate.
    apply andb_prop in Hitem. destruct Hitem as [_ Hm].
    apply isMemeAddress_inv in Hm. destruct Hm as (s' & [= <-] & _ & Ht).
    exists s. split; [ | exact Ht].
    cbn [stringsOf]. apply in_flat_map. exists (JStr s). split; [exact Hin | left; reflexivity].
  - intros H. apply existsb_exists in H. destruct H as (addr & Hin & Hm).
    apply isMemeAddress_inv in Hm. destruct Hm as (s' & [= <-] & _ & Ht).
    exists addr. split; [ | exact Ht]. apply extract_spec in Hin. apply Hin.
Qed.

Lemma nestedCallMatches_sound (addresses : list string) (arg : JsValue) :
  nestedCallMatches addresses arg = true ->
  exists s, In s (stringsOf arg) /\ tracked addresses s = true.
Proof.
  unfold nestedCallMatches. destruct (isObjectLike arg); [ | discriminate].
  intros H. apply orb_prop in H. destruct H as [H | H].
  - destruct (truthy (getProp "target" arg) || truthy (getProp "to" arg)); [ | discriminate].
    destruct (truthy (getProp "target" arg)).
    + destruct (getProp "target" arg) as [ | | b | t | items | props] eqn:Hp; try discriminate.
      exists t. split; [exact (getProp_string _ _ Hp) | exact H].
    + destruct (getProp "to" arg) as [ | | b | t | items | props] eqn:Hp; try discriminate.
      exists t. split; [exact (getProp_string _ _ Hp) | exact H].
  - apply existsb_exists in H. destruct H as (addr & Hin & Ht).
    exists addr. split; [ | exact Ht]. apply extract_spec in Hin. apply Hin.
Qed.

Lemma functionPattern_sound
    (addresses : list string) (name : string) (args : option (list JsValue))
    (to : option string) :
  functionPattern addresses name args to = true ->
  exists s,
    In s (match to with Some t => [t] | None => [] end
          ++ match args with Some l => flat_map stringsOf l | None => [] end)%list
    /\ tracked addresses s = true.
Proof.
  unfold functionPattern.
  destruct (String.eqb (toLowerCase name) "transfer"
            || String.eqb (toLowerCase name) "transferfrom").
  { destruct to as [t | ]; [ | discriminate].
    intros H. apply isMemeAddress_inv in H. destruct H as (s' & [= <-] & _ & Ht).
    exists t. split; [left; reflexivity | exact Ht]. }
  destruct (String.eqb (toLowerCase name) "swapexacttokensfortokens"
            || String.eqb (toLowerCase name) "swaptokensforexacttokens"
            || String.eqb (toLowerCase name) "swapexactethfortokens"
            || String.eqb (toLowerCase name) "swaptokensforexacteth").
  { destruct args as [l | ]; [ | discriminate].
    destruct (nth_error l 2) as [[ | | b | s | path | props] | ] eqn:Hnth; try discriminate.
    intros H. apply existsb_exists in H. destruct H as (v & Hin & Hm).
    apply isMemeAddress_inv in Hm. destruct Hm as (s & -> & _ & Ht).
    exists s. split; [ | exact Ht].
    apply in_or_app. right. apply in_flat_map. exists (JArr path).
    split; [exact (nth_error_In _ _ Hnth) | ].
    cbn [stringsOf]. apply in_flat_map. exists (JStr s). split; [exact Hin | left; reflexivity]. }
  destruct (String.eqb (toLowerCase name) "multicall"
            || String.eqb (toLowerCase name) "batchswap"); [ | discriminate].
  destruct args as [l | ]; cbn [checkNestedCalls]; [ | discriminate].
  intros H. apply existsb_exists in H. destruct H as (arg & Hin & Hm).
  apply nestedCallMatches_sound in Hm. destruct Hm as (s & Hs & Ht).
  exists s. split; [ | exact Ht].
  apply in_or_app. right. apply in_flat_map. exists arg. split; assumption.
Qed.

(** X22. No false positive: when [isMemeTokenTransaction] answers true,
    the transaction carries (as its target or inside its arguments, at
    any depth) a string that equals a tracked address up to letter case.
    In particular the answer is false for a null transaction and with an
    empty list. *)
Theorem classification_is_sound (addresses : list string) (decodedTx : option DecodedTx) :
  isMemeTokenTransaction addresses decodedTx = true ->
  exists tx s,
    decodedTx = Some tx
    /\ In s (stringsOfTransaction tx)
    /\ tracked addresses s = true.
Proof.
  destruct decodedTx as [tx | ]; cbn [isMemeTokenTransaction]; [ | discriminate].
  intros H. exists tx. unfold stringsOfTransaction.
  destruct (match dt_to tx with
            | Some t => isMemeAddress addresses (JStr t)
            | None => false
            end) eqn:Hto.
  { destruct (dt_to tx) as [t | ]; [ | discriminate].
    apply isMemeAddress_inv in Hto. destruct Hto as (s' & [= <-] & _ & Ht).
    exists t. repeat split; [left; reflexivity | exact Ht]. }
  destruct (match dt_args tx with
            | Some l => existsb (argumentMatches addresses) l
            | None => false
            end) eqn:Hargs.
  { destruct (dt_args tx) as [l | ]; [ | discriminate].
    apply existsb_exists in Hargs. destruct Hargs as (arg & Hin & Hm).
    apply argumentMatches_sound in Hm. destruct Hm as (s & Hs & Ht).
    exists s. repeat split; [ | exact Ht].
    apply in_or_app. right. apply in_flat_map. exists arg. split; assumption. }
  destruct (dt_name tx) as [name | ]; [ | discriminate].
  destruct (String.eqb name ""); [discriminate | ].
  apply functionPattern_sound in H. destruct H as (s & Hs & Ht).
  exists s. repeat split; assumption.
Qed.

(** X23. No miss in the places the filter reads: a transaction is
    classified as a meme coin transaction whenever a tracked address (up
    to letter case) is its target, a string argument or a string item of
    an array argument starting with 0x, or a string of 42 characters
    starting with 0x at any depth inside an object argument, whatever the
    function name is. *)
Theorem classification_finds_visible_addresses
    (addresses : list string) (tx : DecodedTx) (s : string) :
  tracked addresses s = true ->
  visibleIn tx s ->
  isMemeTokenTransaction addresses (Some tx) = true.
Proof.
  intros Ht Hvis. cbn [isMemeTokenTransaction].
  destruct Hvis as [[Hto Hne] | (args & Hargs & Hcase)].
  - rewrite Hto, isMemeAddress_tracked, Ht.
    apply String.eqb_neq in Hne. rewrite Hne. reflexivity.
  - destruct (match dt_to tx with
              | Some t => isMemeAddress addresses (JStr t)
              | None => false
              end); [reflexivity | ].
    rewrite Hargs.
    assert (Hfound : existsb (argumentMatches addresses) args = true).
    { apply existsb_exists.
      destruct Hcase as [[Hin Hpre] | [(items & Hin & Hitem & Hpre) | (props & Hin & Hs & Hshape)]].
      - exists (JStr s). split; [exact Hin | ].
        cbn [argumentMatches]. rewrite Hpre, isMemeAddress_tracked, Ht.
        apply prefix_0x_nonempty in Hpre. apply String.eqb_neq in Hpre. rewrite Hpre.
        reflexivity.
      - exists (JArr items). split; [exact Hin | ].
        cbn [argumentMatches]. apply existsb_exists. exists (JStr s).
        split; [exact Hitem | ].
        rewrite Hpre, isMemeAddress_tracked, Ht.
        apply prefix_0x_nonempty in Hpre. apply String.eqb_neq in Hpre. rewrite Hpre.
        reflexivity.
      - exists (JObj props). split; [exact Hin | ].
        cbn [argumentMatches]. apply existsb_exists. exists s. split.
        + apply extract_spec. split; assumption.
        + rewrite isMemeAddress_tracked, Ht.
          assert (Hne : s <> "").
          { apply prefix_0x_nonempty. unfold looksLikeAddress in Hshape.
            apply andb_prop in Hshape. apply Hshape. }
          apply String.eqb_neq in Hne. rewrite Hne. reflexivity. }
    rewrite Hfound. reflexivity.
Qed.

(** The classification grows with the set of tracked addresses. *)
Lemma classification_mono
    (addresses addresses' : list string) (decodedTx : option DecodedTx) :
  (forall s, tracked addresses s = true -> tracked addresses' s = true) ->
  isMemeTokenTransaction addresses decodedTx = true ->
  isMemeTokenTransaction addresses' decodedTx = true.
Proof.
  intros Hsub.
  assert (Hmeme : forall v, isMemeAddress addresses v = true ->
                            isMemeAddress addresses' v = true).
  { intros v Hv. apply isMemeAddress_inv in Hv. destruct Hv as (s & -> & Hne & Ht).
    rewrite isMemeAddress_tracked, (Hsub s Ht).
    apply String.eqb_neq in Hne. rewrite Hne. reflexivity. }
  assert (Harg : forall arg, argumentMatches addresses arg = true ->
                             argumentMatches addresses' arg = true).
  { intros [ | | b | s | items | props]; cbn [argumentMatches]; try discriminate.
    - destruct (String.prefix "0x" s); [apply Hmeme | discriminate].
    - apply existsb_mono. intros [ | | b | s | items' | props'] _; try discriminate.
      intros H. apply andb_prop in H. destruct H as [Hp Hm].
      rewrite Hp. cbn [andb]. apply Hmeme. exact Hm.
    - apply existsb_mono. intros addr _. apply Hmeme. }
  assert (Hnested : forall arg, nestedCallMatches addresses arg = true ->
                                nestedCallMatches addresses' arg = true).
  { intros arg. unfold nestedCallMatches. destruct (isObjectLike arg); [ | discriminate].
    intros H. apply orb_prop in H. apply orb_true_iff. destruct H as [H | H].
    - left. destruct (truthy (getProp "target" arg) || truthy (getProp "to" arg));
        [ | discriminate].
      destruct (if truthy (getProp "target" arg)
                then getProp "target" arg else getProp "to" arg); try discriminate.
      apply Hsub. exact H.
    - right. revert H. apply existsb_mono. intros addr _. apply Hsub. }
  assert (Hpattern : forall name args to,
             functionPattern addresses name args to = true ->
             functionPattern addresses' name args to = true).
  { intros name args to. unfold functionPattern.
    destruct (String.eqb (toLowerCase name) "transfer"
              || String.eqb (toLowerCase name) "transferfrom").
    { destruct to; [apply Hmeme | discriminate]. }
    destruct (String.eqb (toLowerCase name) "swapexacttokensfortokens"
              || String.eqb (toLowerCase name) "swaptokensforexacttokens"
              || String.eqb (toLowerCase name) "swapexactethfortokens"
              || String.eqb (toLowerCase name) "swaptokensforexacteth").
    { destruct args as [l | ]; [ | discriminate].
      destruct (nth_error l 2) as [[ | | b | s | path | props] | ]; try discriminate.
      apply existsb_mono. intros v _. apply Hmeme. }
    destruct (String.eqb (toLowerCase name) "multicall"
              || String.eqb (toLowerCase name) "batchswap"); [ | discriminate].
    destruct args as [l | ]; cbn [checkNestedCalls]; [ | discriminate].
    apply existsb_mono. intros arg _. apply Hnested. }
  destruct decodedTx as [tx | ]; cbn [isMemeTokenTransaction]; [ | discriminate].
  destruct (match dt_to tx with
            | Some t => isMemeAddress addresses (JStr t)
            | None => false
            end) eqn:Hto.
  { intros _. destruct (dt_to tx) as [t | ]; [ | discriminate].
    rewrite (Hmeme _ Hto). reflexivity. }
  destruct (match dt_to tx with
            | Some t => isMemeAddress addresses' (JStr t)
            | None => false
            end); [reflexivity | ].
  destruct (match dt_args tx with
            | Some l => existsb (argumentMatches addresses) l
            | None => false
            end) eqn:Hargs.
  { intros _. destruct (dt_args tx) as [l | ]; [ | discriminate].
    rewrite (existsb_mono _ _ _ (fun x _ => Harg x) Hargs). reflexivity. }
  destruct (match dt_args tx with
            | Some l => existsb (argumentMatches addresses') l
            | None => false
            end); [reflexivity | ].
  destruct (dt_name tx) as [name | ]; [ | discriminate].
  destruct (String.eqb name ""); [discriminate | ].
  apply Hpattern.
Qed.

Lemma tracked_app (l1 l2 : list string) (s : string) :
  tracked (l1 ++ l2) s = tracked l1 s || tracked l2 s.
Proof. unfold tracked. apply existsb_app. Qed.

Lemma tracked_filter (l : list string) (s a : string) :
  tracked (filter (fun addr => negb (String.eqb (toLowerCase addr) (toLowerCase s))) l) a
  = tracked l a && negb (String.eqb (toLowerCase a) (toLowerCase s)).
Proof.
  unfold tracked. induction l as [ | x l IH]; [reflexivity | ].
  cbn [filter existsb].
  destruct (String.eqb_spec (toLowerCase x) (toLowerCase s)) as [Exs | Exs]; cbn [negb].
  - rewrite IH, Exs, (String.eqb_sym (toLowerCase s) (toLowerCase a)).
    destruct (String.eqb (toLowerCase a) (toLowerCase s)); cbn [negb orb].
    + rewrite !andb_false_r. reflexivity.
    + rewrite !andb_true_r. reflexivity.
  - cbn [existsb]. rewrite IH.
    destruct (String.eqb_spec (toLowerCase x) (toLowerCase a)) as [Exa | Exa]; cbn [orb].
    + destruct (String.eqb_spec (toLowerCase a) (toLowerCase s)) as [Eas | Eas];
        [congruence | reflexivity].
    + reflexivity.
Qed.

Lemma add_result (addresses : list string) (v : JsValue) (addresses' : list string) :
  addMemeTokenAddress addresses v = inr addresses' ->
  exists s,
    v = JStr s /\ looksLikeAddress s = true
    /\ addresses' = if tracked addresses s then addresses else (addresses ++ [s])%list.
Proof.
  destruct v as [ | | b | s | items | props]; cbn [addMemeTokenAddress]; try discriminate.
  destruct (String.eqb s ""); [discriminate | ].
  destruct (String.prefix "0x" s) eqn:Hpre; cbn [negb orb]; [ | discriminate].
  destruct (Nat.eqb (String.length s) 42) eqn:Hlen; cbn [negb]; [ | discriminate].
  intros Hres. exists s. split; [reflexivity | ].
  split; [unfold looksLikeAddress; rewrite Hpre, Hlen; reflexivity | ].
  unfold tracked.
  destruct (existsb (fun addr => String.eqb (toLowerCase addr) (toLowerCase s)) addresses);
    cbn [negb] in Hres; congruence.
Qed.

Lemma add_accepts (addresses : list string) (s : string) :
  looksLikeAddress s = true ->
  addMemeTokenAddress addresses (JStr s)
  = inr (if tracked addresses s then addresses else (addresses ++ [s])%list).
Proof.
  intros Hshape. cbn [addMemeTokenAddress].
  assert (Hne : s <> "").
  { apply prefix_0x_nonempty. unfold looksLikeAddress in Hshape.
    apply andb_prop in Hshape. apply Hshape. }
  apply String.eqb_neq in Hne. rewrite Hne.
  unfold looksLikeAddress in Hshape. apply andb_prop in Hshape.
  destruct Hshape as [-> ->]. cbn [negb orb].
  unfold tracked.
  destruct (existsb (fun addr => String.eqb (toLowerCase addr) (toLowerCase s)) addresses);
    reflexivity.
Qed.

Lemma tracked_self (s : string) : tracked [s] s = true.
Proof. unfold tracked. cbn. rewrite String.eqb_refl. reflexivity. Qed.

(** X24. Changing the list moves the classification one way only: after
    [addMemeTokenAddress] every transaction that was classified as a meme
    coin transaction still is, and after [removeMemeTokenAddress] every
    transaction that is classified so was already before. *)
Theorem list_changes_are_monotone
    (addresses : list string) (address : JsValue) (decodedTx : option DecodedTx) :
  (forall addresses',
     addMemeTokenAddress addresses address = inr addresses' ->
     isMemeTokenTransaction addresses decodedTx = true ->
     isMemeTokenTransaction addresses' decodedTx = true)
  /\ (isMemeTokenTransaction (snd (removeMemeTokenAddress addresses address)) decodedTx = true ->
      isMemeTokenTransaction addresses decodedTx = true).
Proof.
  split.
  - intros addresses' Hadd. apply classification_mono.
    apply add_result in Hadd. destruct Hadd as (s & _ & _ & ->).
    intros a Ha. destruct (tracked addresses s); [exact Ha | ].
    rewrite tracked_app, Ha. reflexivity.
  - apply classification_mono.
    destruct address as [ | | b | s | items | props]; cbn [removeMemeTokenAddress snd]; auto.
    destruct (String.eqb s ""); cbn [snd]; auto.
    intros a. rewrite tracked_filter. intros H. apply andb_prop in H. apply H.
Qed.

(** X25. Adding makes an address effective at once: for every string of
    42 characters starting with 0x, [addMemeTokenAddress] succeeds, the
    address is tracked afterwards together with all addresses tracked
    before, and every transaction whose target equals it up to letter
    case is classified as a meme coin transaction. *)
Theorem added_address_is_classified
    (addresses : list string) (s : string) :
  looksLikeAddress s = true ->
  exists addresses',
    addMemeTokenAddress addresses (JStr s) = inr addresses'
    /\ tracked addresses' s = true
    /\ (forall a, tracked addresses a = true -> tracked addresses' a = true)
    /\ (forall tx t,
          dt_to tx = Some t -> t <> "" -> toLowerCase t = toLowerCase s ->
          isMemeTokenTransaction addresses' (Some tx) = true).
Proof.
  intros Hshape. eexists. split; [apply add_accepts; exact Hshape | ].
  assert (Htracked : tracked (if tracked addresses s then addresses
                              else (addresses ++ [s])%list) s = true).
  { destruct (tracked addresses s) eqn:Ht; [exact Ht | ].
    rewrite tracked_app, tracked_self. apply orb_true_r. }
  split; [exact Htracked | ]. split.
  - intros a Ha. destruct (tracked addresses s); [exact Ha | ].
    rewrite tracked_app, Ha. reflexivity.
  - intros tx t Hto Hne Hlow. cbn [isMemeTokenTransaction].
    rewrite Hto, isMemeAddress_tracked, (tracked_same_lowercase _ _ _ Hlow), Htracked.
    apply String.eqb_neq in Hne. rewrite Hne. reflexivity.
Qed.

Lemma NoDup_snoc {A} (l : list A) (x : A) :
  NoDup l -> ~ In x l -> NoDup (l ++ [x]).
Proof.
  induction l as [ | y l IH]; intros Hnodup Hnotin; cbn [app].
  - constructor; [intros [] | constructor].
  - inversion Hnodup as [ | y' l' Hy Hl]; subst.
    constructor.
    + intros Hin. apply in_app_or in Hin. destruct Hin as [Hin | [-> | []]].
      * contradiction.
      * apply Hnotin. left. reflexivity.
    + apply IH; [exact Hl | ]. intros Hin. apply Hnotin. right. exact Hin.
Qed.

(** X26. [addMemeTokenAddress] keeps the list free of duplicates up to
    letter case: if no two tracked addresses have the same lowercase form,
    the same holds after an addition, the list grows by at most one entry
    at its end, and adding an address that is already tracked (in any
    letter case) changes nothing. *)
Theorem addition_keeps_addresses_distinct
    (addresses addresses' : list string) (address : JsValue) :
  addMemeTokenAddress addresses address = inr addresses' ->
  (NoDup (map toLowerCase addresses) -> NoDup (map toLowerCase addresses'))
  /\ (addresses' = addresses \/ exists s, address = JStr s /\ addresses' = (addresses ++ [s])%list)
  /\ addMemeTokenAddress addresses' address = inr addresses'.
Proof.
  intros Hadd. destruct (add_result _ _ Hadd) as (s & -> & Hshape & Hres).
  assert (Htracked : tracked addresses' s = true).
  { rewrite Hres. destruct (tracked addresses s) eqn:Ht; [exact Ht | ].
    rewrite tracked_app, tracked_self. apply orb_true_r. }
  split; [ | split].
  - intros Hnodup. rewrite Hres. destruct (tracked addresses s) eqn:Ht; [exact Hnodup | ].
    rewrite map_app. cbn [map].
    apply NoDup_snoc; [exact Hnodup | ].
    intros Hin. apply in_map_iff in Hin.
    destruct Hin as (a & Hlow & Hin).
    assert (Hcontra : tracked addresses s = true).
    { unfold tracked. apply existsb_exists. exists a. split; [exact Hin | ].
      rewrite Hlow. apply String.eqb_refl. }
    congruence.
  - rewrite Hres. destruct (tracked addresses s); [left; reflexivity | ].
    right. exists s. split; reflexivity.
  - rewrite (add_accepts _ _ Hshape), Htracked. reflexivity.
Qed.

Lemma existsb_pointwise {A} (f g : A -> bool) (l : list A) :
  (forall x, f x = g x) -> existsb f l = existsb g l.
Proof.
  intros Hfg. induction l as [ | x l IH]; [reflexivity | ].
  cbn [existsb]. rewrite Hfg, IH. reflexivity.
Qed.

Lemma filter_idempotent {A} (f : A -> bool) (l : list A) :
  filter f (filter f l) = filter f l.
Proof.
  induction l as [ | x l IH]; [reflexivity | ].
  cbn [filter]. destruct (f x) eqn:Hx; cbn [filter]; [rewrite Hx, IH | ]; congruence.
Qed.

Lemma filter_length_lt {A} (f : A -> bool) (l : list A) :
  Nat.ltb (List.length (filter f l)) (List.length l) = existsb (fun x => negb (f x)) l.
Proof.
  induction l as [ | x l IH]; [reflexivity | ].
  cbn [filter existsb List.length].
  pose proof (filter_length_le f l) as Hle.
  destruct (f x); cbn [negb orb List.length].
  - rewrite <- IH. destruct (Nat.ltb_spec (List.length (filter f l)) (List.length l));
      destruct (Nat.ltb_spec (S (List.length (filter f l))) (S (List.length l)));
      try reflexivity; lia.
  - destruct (Nat.ltb_spec (List.length (filter f l)) (S (List.length l)));
      [reflexivity | lia].
Qed.

(** X27. [removeMemeTokenAddress] for a non-empty string returns whether
    the address was tracked (up to letter case); afterwards the address
    is not tracked, every address with a different lowercase form is
    tracked exactly as before, and removing it again returns false and
    changes nothing. *)
Theorem removal_untracks_the_address (addresses : list string) (s : string) :
  s <> "" ->
  let removed := removeMemeTokenAddress addresses (JStr s) in
  fst removed = tracked addresses s
  /\ tracked (snd removed) s = false
  /\ (forall a, toLowerCase a <> toLowerCase s ->
                tracked (snd removed) a = tracked addresses a)
  /\ removeMemeTokenAddress (snd removed) (JStr s) = (false, snd removed).
Proof.
  intros Hne. apply String.eqb_neq in Hne. cbv zeta.
  cbn [removeMemeTokenAddress]. rewrite Hne. cbn [fst snd].
  set (keep := fun addr => negb (String.eqb (toLowerCase addr) (toLowerCase s))).
  assert (Hgone : tracked (filter keep addresses) s = false).
  { subst keep. rewrite tracked_filter, String.eqb_refl. apply andb_false_r. }
  split; [ | split; [exact Hgone | split]].
  - rewrite filter_length_lt. unfold tracked. apply existsb_pointwise.
    intros a. subst keep. cbn. apply negb_involutive.
  - intros a Ha. subst keep. rewrite tracked_filter.
    apply String.eqb_neq in Ha. rewrite Ha. apply andb_true_r.
  - f_equal.
    + rewrite filter_length_lt.
      transitivity (tracked (filter keep addresses) s); [ | exact Hgone].
      unfold tracked. apply existsb_pointwise. intros a. subst keep. cbn.
      apply negb_involutive.
    + apply filter_idempotent.
Qed.

(** X28. Adding and removing undo each other: for an address of the right
    shape that is not tracked, [addMemeTokenAddress] appends it and
    [removeMemeTokenAddress] then returns true and gives back the list as
    it was, provided the list held no entry equal to it up to case. *)
Theorem add_then_remove_restores_the_list (addresses : list string) (s : string) :
  looksLikeAddress s = true ->
  tracked addresses s = false ->
  addMemeTokenAddress addresses (JStr s) = inr (addresses ++ [s])%list
  /\ removeMemeTokenAddress (addresses ++ [s])%list (JStr s) = (true, addresses).
Proof.
  intros Hshape Hfresh. split.
  - rewrite (add_accepts _ _ Hshape), Hfresh. reflexivity.
  - assert (Hne : s <> "").
    { apply prefix_0x_nonempty. unfold looksLikeAddress in Hshape.
      apply andb_prop in Hshape. apply Hshape. }
    apply String.eqb_neq in Hne. cbn [removeMemeTokenAddress]. rewrite Hne.
    assert (Hkeep : filter (fun addr => negb (String.eqb (toLowerCase addr) (toLowerCase s)))
                           (addresses ++ [s]) = addresses).
    { rewrite filter_app. cbn [filter]. rewrite String.eqb_refl. cbn [negb].
      rewrite app_nil_r. unfold tracked in Hfresh.
      induction addresses as [ | x l IH]; [reflexivity | ].
      cbn [existsb] in Hfresh. apply orb_false_elim in Hfresh. destruct Hfresh as [Hx Hl].
      cbn [filter]. rewrite Hx. cbn [negb]. f_equal. apply IH. exact Hl. }
    rewrite Hkeep. f_equal. rewrite length_app. cbn [List.length].
    apply Nat.ltb_lt. lia.
Qed.

End MemeCoinFilterProperties.

(* ------------------------------------------------------------------ *)
(** ** The filter on concrete transactions *)
(* ------------------------------------------------------------------ *)

Section MemeCoinFilterScenarios.

#[local] Existing Instance Mock.strings.

(** The initial list, a SHIB transfer and a router call naming SHIB are
    classified; a transfer of an untracked token is not. *)
Example initial_list_classification :
  isMemeTokenTransaction MEME_COIN_ADDRESSES (Some Mock.shibTransfer) = true
  /\ isMemeTokenTransaction MEME_COIN_ADDRESSES (Some Mock.routerCall) = true
  /\ isMemeTokenTransaction MEME_COIN_ADDRESSES (Some Mock.pepeTransfer) = false
  /\ isMemeTokenTransaction MEME_COIN_ADDRESSES None = false.
Proof. vm_compute. repeat split; reflexivity. Qed.

Lemma classification_is_sound_witness :
  isMemeTokenTransaction MEME_COIN_ADDRESSES (Some Mock.routerCall) = true
  /\ exists tx s,
       Some Mock.routerCall = Some tx
       /\ In s (stringsOfTransaction tx)
       /\ tracked MEME_COIN_ADDRESSES s = true.
Proof.
  assert (H : isMemeTokenTransaction MEME_COIN_ADDRESSES (Some Mock.routerCall) = true)
    by (vm_compute; reflexivity).
  split; [exact H | ].
  exact (@classification_is_sound Mock.strings MEME_COIN_ADDRESSES (Some Mock.routerCall) H).
Defined.

Lemma classification_finds_visible_addresses_witness :
  tracked MEME_COIN_ADDRESSES Mock.shibLowercase = true
  /\ visibleIn Mock.shibTransfer Mock.shibLowercase
  /\ isMemeTokenTransaction MEME_COIN_ADDRESSES (Some Mock.shibTransfer) = true.
Proof.
  assert (Ht : tracked MEME_COIN_ADDRESSES Mock.shibLowercase = true)
    by (vm_compute; reflexivity).
  assert (Hvis : visibleIn Mock.shibTransfer Mock.shibLowercase)
    by (left; split; [reflexivity | discriminate]).
  split; [exact Ht | ]. split; [exact Hvis | ].
  exact (@classification_finds_visible_addresses Mock.strings MEME_COIN_ADDRESSES
           Mock.shibTransfer Mock.shibLowercase Ht Hvis).
Defined.

Lemma list_changes_are_monotone_witness :
  addMemeTokenAddress MEME_COIN_ADDRESSES (JStr Mock.pepe)
  = inr (MEME_COIN_ADDRESSES ++ [Mock.pepe])%list
  /\ isMemeTokenTransaction MEME_COIN_ADDRESSES (Some Mock.shibTransfer) = true
  /\ isMemeTokenTransaction (MEME_COIN_ADDRESSES ++ [Mock.pepe])%list
       (Some Mock.shibTransfer) = true.
Proof.
  assert (Hadd : addMemeTokenAddress MEME_COIN_ADDRESSES (JStr Mock.pepe)
                 = inr (MEME_COIN_ADDRESSES ++ [Mock.pepe])%list)
    by (vm_compute; reflexivity).
  assert (Hbefore : isMemeTokenTransaction MEME_COIN_ADDRESSES (Some Mock.shibTransfer) = true)
    by (vm_compute; reflexivity).
  split; [exact Hadd | ]. split; [exact Hbefore | ].
  destruct (@list_changes_are_monotone Mock.strings MEME_COIN_ADDRESSES (JStr Mock.pepe)
              (Some Mock.shibTransfer)) as [H _].
  exact (H _ Hadd Hbefore).
Defined.

Lemma added_address_is_classified_witness :
  looksLikeAddress Mock.pepe = true
  /\ exists addresses',
       addMemeTokenAddress MEME_COIN_ADDRESSES (JStr Mock.pepe) = inr addresses'
       /\ isMemeTokenTransaction addresses' (Some Mock.pepeTransfer) = true.
Proof.
  assert (Hshape : looksLikeAddress Mock.pepe = true) by (vm_compute; reflexivity).
  split; [exact Hshape | ].
  destruct (@added_address_is_classified Mock.strings MEME_COIN_ADDRESSES Mock.pepe Hshape)
    as (addresses' & Hadd & _ & _ & Hclass).
  exists addresses'. split; [exact Hadd | ].
  apply (Hclass Mock.pepeTransfer Mock.pepe); [reflexivity | discriminate | reflexivity].
Defined.

Lemma addition_keeps_addresses_distinct_witness :
  NoDup (map toLowerCase MEME_COIN_ADDRESSES)
  /\ NoDup (map toLowerCase (MEME_COIN_ADDRESSES ++ [Mock.pepe])%list).
Proof.
  assert (Hnodup : NoDup (map toLowerCase MEME_COIN_ADDRESSES)).
  { replace (map toLowerCase MEME_COIN_ADDRESSES)
      with (nodup string_dec (map toLowerCase MEME_COIN_ADDRESSES))
      by (vm_compute; reflexivity).
    apply NoDup_nodup. }
  assert (Hadd : addMemeTokenAddress MEME_COIN_ADDRESSES (JStr Mock.pepe)
                 = inr (MEME_COIN_ADDRESSES ++ [Mock.pepe])%list)
    by (vm_compute; reflexivity).
  split; [exact Hnodup | ].
  destruct (@addition_keeps_addresses_distinct Mock.strings _ _ _ Hadd) as [H _].
  exact (H Hnodup).
Defined.

Lemma removal_untracks_the_address_witness :
  Mock.shibLowercase <> ""
  /\ fst (removeMemeTokenAddress MEME_COIN_ADDRESSES (JStr Mock.shibLowercase)) = true
  /\ tracked (snd (removeMemeTokenAddress MEME_COIN_ADDRESSES (JStr Mock.shibLowercase)))
             Mock.shibLowercase = false.
Proof.
  assert (Hne : Mock.shibLowercase <> "") by discriminate.
  split; [exact Hne | ].
  destruct (@removal_untracks_the_address Mock.strings MEME_COIN_ADDRESSES
              Mock.shibLowercase Hne) as (Hflag & Hgone & _).
  split; [ | exact Hgone].
  rewrite Hflag. vm_compute. reflexivity.
Defined.

Lemma add_then_remove_restores_the_list_witness :
  looksLikeAddress Mock.pepe = true
  /\ tracked MEME_COIN_ADDRESSES Mock.pepe = false
  /\ removeMemeTokenAddress (MEME_COIN_ADDRESSES ++ [Mock.pepe])%list (JStr Mock.pepe)
     = (true, MEME_COIN_ADDRESSES).
Proof.
  assert (Hshape : looksLikeAddress Mock.pepe = true) by (vm_compute; reflexivity).
  assert (Hfresh : tracked MEME_COIN_ADDRESSES Mock.pepe = false) by (vm_compute; reflexivity).
  split; [exact Hshape | ]. split; [exact Hfresh | ].
  destruct (@add_then_remove_restores_the_list Mock.strings MEME_COIN_ADDRESSES Mock.pepe
              Hshape Hfresh) as [_ H].
  exact H.
Defined.

End MemeCoinFilterScenarios.

(* ------------------------------------------------------------------ *)
(** ** Rounding to nearest *)
(* ------------------------------------------------------------------ *)

Section Rounding.

Import Binary64.

(** *** Division rounded to the nearest integer *)

Lemma rne_div_spec (n d : Z) :
  0 <= n -> 0 < d ->
  0 <= rne_div n d /\ - d <= 2 * (rne_div n d * d - n) <= d.
Proof.
  intros Hn Hd. unfold rne_div.
  pose proof (Z.div_mod n d ltac:(lia)) as Hdm.
  pose proof (Z.mod_pos_bound n d Hd) as Hr.
  pose proof (Z.div_pos n d Hn Hd) as Hq.
  destruct (Z.ltb_spec (2 * (n mod d)) d); [nia | ].
  destruct (Z.ltb_spec d (2 * (n mod d))); [nia | ].
  destruct (Z.even (n / d)); nia.
Qed.

Lemma rne_div_le (n d z : Z) :
  0 <= n -> 0 < d -> n <= z * d -> rne_div n d <= z.
Proof.
  intros Hn Hd Hz. unfold rne_div.
  pose proof (Z.div_mod n d ltac:(lia)) as Hdm.
  pose proof (Z.mod_pos_bound n d Hd) as Hr.
  destruct (Z.ltb_spec (2 * (n mod d)) d); [nia | ].
  destruct (Z.ltb_spec d (2 * (n mod d))); [nia | ].
  destruct (Z.even (n / d)); nia.
Qed.

Lemma scale_nonneg (n d : Z) : 0 <= scale n d.
Proof. unfold scale. lia. Qed.

Lemma scale_upper (n d : Z) :
  0 <= n -> 0 < d -> n < 2 ^ (53 + scale n d) * d.
Proof.
  intros Hn Hd.
  pose proof (Z.div_pos n d Hn Hd) as Hq.
  assert (Hlt : n / d < 2 ^ (53 + scale n d)).
  { destruct (Z.eq_dec (n / d) 0) as [E | E].
    - rewrite E. apply Z.pow_pos_nonneg; [lia | ]. pose proof (scale_nonneg n d). lia.
    - pose proof (Z.log2_spec (n / d) ltac:(lia)) as [_ Hup].
      eapply Z.lt_le_trans; [exact Hup | ].
      apply Z.pow_le_mono_r; [lia | ]. unfold scale. lia. }
  pose proof (Z.div_mod n d ltac:(lia)) as Hdm.
  pose proof (Z.mod_pos_bound n d Hd) as Hr.
  nia.
Qed.

Lemma scale_lower (n d : Z) :
  0 <= n -> 0 < d -> 0 < scale n d -> 2 ^ (52 + scale n d) * d <= n.
Proof.
  intros Hn Hd Hj.
  assert (Hj' : scale n d = Z.log2 (n / d) - 52) by (unfold scale in *; lia).
  assert (Hpos : 0 < n / d).
  { destruct (Z.eq_dec (n / d) 0) as [E | E].
    - rewrite E in Hj'. cbn in Hj'. lia.
    - pose proof (Z.div_pos n d Hn Hd). lia. }
  pose proof (Z.log2_spec (n / d) Hpos) as [Hlow _].
  replace (52 + scale n d) with (Z.log2 (n / d)) by lia.
  pose proof (Z.mul_div_le n d Hd). nia.
Qed.

Lemma round64_nonneg (n d : Z) : 0 <= n -> 0 < d -> 0 <= round64 n d.
Proof.
  intros Hn Hd. unfold round64.
  pose proof (scale_nonneg n d) as Hj.
  assert (Hp : 0 < 2 ^ scale n d) by (apply Z.pow_pos_nonneg; lia).
  destruct (@rne_div_spec n (d * 2 ^ scale n d) Hn ltac:(nia)) as [H _]. nia.
Qed.

Lemma round64_error (n d : Z) :
  0 <= n -> 0 < d ->
  - (n + 2 ^ 52 * d) <= 2 ^ 53 * (round64 n d * d - n) <= n + 2 ^ 52 * d.
Proof.
  intros Hn Hd. unfold round64.
  pose proof (scale_nonneg n d) as Hj.
  set (j := scale n d) in *.
  assert (Hp : 0 < 2 ^ j) by (apply Z.pow_pos_nonneg; lia).
  destruct (@rne_div_spec n (d * 2 ^ j) Hn ltac:(nia)) as [Hm Herr].
  set (m := rne_div n (d * 2 ^ j)) in *.
  replace (m * 2 ^ j * d - n) with (m * (d * 2 ^ j) - n) by ring.
  change (2 ^ 53) with (2 ^ 52 * 2).
  destruct (Z.eq_dec j 0) as [E | E].
  - rewrite E in *. change (2 ^ 0) with 1 in *. nia.
  - pose proof (@scale_lower n d Hn Hd ltac:(subst j; lia)) as Hlow. fold j in Hlow.
    rewrite Z.pow_add_r in Hlow by lia. nia.
Qed.

Lemma round64_le_representable (n d k : Z) :
  0 <= n -> 0 < d -> representable k -> n <= k * d -> round64 n d <= k.
Proof.
  intros Hn Hd [Hk Hdiv] Hle. unfold round64.
  pose proof (scale_nonneg n d) as Hj.
  assert (Hq : n / d <= k).
  { apply Z.div_le_upper_bound; [exact Hd | lia]. }
  assert (Hjk : scale n d <= scale k 1).
  { unfold scale. rewrite Z.div_1_r.
    pose proof (Z.log2_le_mono (n / d) k Hq). lia. }
  assert (Hdiv' : (2 ^ scale n d | k)).
  { eapply Z.divide_trans; [ | exact Hdiv].
    exists (2 ^ (scale k 1 - scale n d)).
    rewrite <- Z.pow_add_r by lia. f_equal. lia. }
  destruct Hdiv' as [c Hc].
  assert (Hp : 0 < 2 ^ scale n d) by (apply Z.pow_pos_nonneg; lia).
  assert (rne_div n (d * 2 ^ scale n d) <= c).
  { apply rne_div_le; [exact Hn | nia | ]. rewrite Hc in Hle. nia. }
  rewrite Hc. nia.
Qed.

Lemma round64_representable (n d : Z) :
  0 <= n -> 0 < d -> representable (round64 n d).
Proof.
  intros Hn Hd. split; [apply round64_nonneg; assumption | ].
  unfold round64.
  pose proof (scale_nonneg n d) as Hj.
  set (j := scale n d) in *.
  assert (Hp : 0 < 2 ^ j) by (apply Z.pow_pos_nonneg; lia).
  destruct (@rne_div_spec n (d * 2 ^ j) Hn ltac:(nia)) as [Hm _].
  assert (Hup : rne_div n (d * 2 ^ j) <= 2 ^ 53).
  { apply rne_div_le; [exact Hn | nia | ].
    pose proof (@scale_upper n d Hn Hd) as H. fold j in H.
    rewrite Z.pow_add_r in H by lia. nia. }
  set (m := rne_div n (d * 2 ^ j)) in *.
  destruct (Z.eq_dec m 0) as [E0 | E0].
  { rewrite E0. cbn. apply Z.divide_0_r. }
  destruct (Z.eq_dec m (2 ^ 53)) as [E | E].
  - rewrite E. rewrite <- Z.pow_add_r by lia.
    assert (Hs : scale (2 ^ (53 + j)) 1 = 1 + j).
    { unfold scale. rewrite Z.div_1_r, Z.log2_pow2 by lia. lia. }
    rewrite Hs. exists (2 ^ 52). rewrite <- Z.pow_add_r by lia. f_equal. lia.
  - assert (Hs : scale (m * 2 ^ j) 1 <= j).
    { unfold scale. rewrite Z.div_1_r.
      rewrite Z.log2_mul_pow2 by lia.
      assert (Z.log2 m <= 52).
      { assert (Hlt : m < 2 ^ 53) by lia.
        apply Z.log2_lt_pow2 in Hlt; lia. }
      lia. }
    pose proof (scale_nonneg (m * 2 ^ j) 1) as Hs0.
    exists (m * 2 ^ (j - scale (m * 2 ^ j) 1)).
    rewrite <- Z.mul_assoc, <- Z.pow_add_r by lia. do 2 f_equal. lia.
Qed.

Lemma one_pos : 0 < one.
Proof. reflexivity. Qed.

Lemma one_below_overflow : one < overflow.
Proof. reflexivity. Qed.

Lemma one_representable : representable one.
Proof.
  split; [vm_compute; discriminate | ].
  assert (E : scale one 1 = 1022) by (vm_compute; reflexivity).
  rewrite E. exists (2 ^ 52). vm_compute. reflexivity.
Qed.

Lemma of_Z_1 : of_Z 1 = Finite false one.
Proof. vm_compute. reflexivity. Qed.

Lemma of_Z_100 : of_Z 100 = Finite false (100 * one).
Proof. vm_compute. reflexivity. Qed.

Lemma digitsValue_nonneg (s : string) : forall acc, 0 <= acc -> 0 <= digitsValue s acc.
Proof.
  induction s as [ | c r IH]; intros acc Hacc; cbn [digitsValue]; [exact Hacc | ].
  apply IH. lia.
Qed.

Lemma literalPrefix_nonneg (s : string) (digits exponent : Z) :
  literalPrefix s = Some (LitDecimal digits exponent) -> 0 <= digits.
Proof.
  unfold literalPrefix.
  destruct (String.prefix "Infinity" s); [discriminate | ].
  destruct (digitsPrefix s) as [whole s1].
  destruct (match s1 with String "." r => digitsPrefix r | _ => (EmptyString, s1) end)
    as [fraction s2].
  destruct (whole ++ fraction)%string as [ | c ds] eqn:E; [discriminate | ].
  intros [= <- _]. apply digitsValue_nonneg. lia.
Qed.

Lemma rounded_finite (negative s : bool) (n d k : Z) :
  0 <= n -> 0 < d ->
  rounded negative n d = Finite s k ->
  s = negative /\ k = round64 n d /\ representable k /\ k < overflow.
Proof.
  intros Hn Hd. unfold rounded.
  destruct (Z.leb_spec overflow (round64 n d)); [discriminate | ].
  intros [= <- <-]. repeat split; try assumption.
  - apply round64_nonneg; assumption.
  - apply (@round64_representable n d Hn Hd).
Qed.

Lemma parseFloat_finite (text : string) (s : bool) (k : Z) :
  parseFloat text = Finite s k -> representable k /\ k < overflow.
Proof.
  unfold parseFloat.
  destruct (takeSign (trimStart text)) as [negative r].
  destruct (literalPrefix r) as [[ | digits exponent] | ] eqn:Hlit; try discriminate.
  apply literalPrefix_nonneg in Hlit.
  unfold ofDecimal.
  pose proof one_pos as Hone.
  destruct (Z.leb_spec 0 exponent) as [He | He]; intros Hr.
  - apply rounded_finite in Hr; [tauto | | lia].
    assert (0 < 10 ^ exponent) by (apply Z.pow_pos_nonneg; lia). nia.
  - apply rounded_finite in Hr; [tauto | nia | ].
    apply Z.pow_pos_nonneg; lia.
Qed.

Lemma rounded_below (negative : bool) (n d k : Z) :
  0 <= n -> 0 < d -> representable k -> k < overflow -> n <= k * d ->
  rounded negative n d = Finite negative (round64 n d)
  /\ 0 <= round64 n d <= k.
Proof.
  intros Hn Hd Hk Hov Hle.
  pose proof (@round64_le_representable n d k Hn Hd Hk Hle) as Hup.
  pose proof (@round64_nonneg n d Hn Hd) as Hlo.
  unfold rounded. destruct (Z.leb_spec overflow (round64 n d)); [lia | ].
  split; [reflexivity | lia].
Qed.


(** *** Errors as rational numbers *)

Local Open Scope Q_scope.

Lemma error_composition (X S T U R e h : Q) :
  0 <= X -> 0 <= S <= 1 -> 0 <= T <= 1 -> 0 <= U <= 1 ->
  0 <= e -> 0 <= h -> 2 * h <= e ->
  - (e * S + h) <= T - S <= e * S + h ->
  - (e * (1 - T) + h) <= U - (1 - T) <= e * (1 - T) + h ->
  - (e * (X * U) + h) <= R - X * U <= e * (X * U) + h ->
  - (4 * e * X + h) <= R - X * (1 - S) <= 4 * e * X + h.
Proof.
  intros HX HS HT HU He Hh Hhe Ht Hu Hr.
  assert (H1 : - (X * (e * S + h)) <= X * (T - S) <= X * (e * S + h)) by nra.
  assert (H2 : - (X * (e * (1 - T) + h)) <= X * (U - (1 - T)) <= X * (e * (1 - T) + h)) by nra.
  assert (H3 : 0 <= X * U <= X) by nra.
  assert (H4 : 0 <= e * (X * U) <= e * X) by nra.
  assert (H5 : 0 <= X * (e * S) <= e * X) by nra.
  assert (H6 : 0 <= X * (e * (1 - T)) <= e * X) by nra.
  assert (H7 : 0 <= X * h /\ 2 * (X * h) <= e * X) by nra.
  nra.
Qed.

Lemma round64_error_Q (n d : Z) :
  (0 <= n)%Z -> (0 < d)%Z ->
  let q := inject_Z n / inject_Z d in
  let k := inject_Z (round64 n d) in
  - (unitRoundoff * q + (1 # 2)) <= k - q <= unitRoundoff * q + (1 # 2).
Proof.
  intros Hn Hd q k.
  pose proof (@round64_error n d Hn Hd) as [Hlo Hhi].
  assert (HD : 0 < inject_Z d) by (change (inject_Z 0 < inject_Z d); rewrite <- Zlt_Qlt; exact Hd).
  assert (Hq : inject_Z n == q * inject_Z d) by (subst q; field; lra).
  unfold Z.sub in Hlo, Hhi.
  rewrite Zle_Qle in Hlo. rewrite Zle_Qle in Hhi.
  rewrite inject_Z_opp, inject_Z_plus, !inject_Z_mult, inject_Z_plus, inject_Z_mult,
    inject_Z_opp in Hlo.
  rewrite inject_Z_plus, !inject_Z_mult, inject_Z_plus, inject_Z_mult, inject_Z_opp in Hhi.
  fold k in Hlo, Hhi.
  rewrite Hq in Hlo, Hhi.
  set (D := inject_Z d) in *.
  assert (E53 : inject_Z (2 ^ 53) == 9007199254740992) by reflexivity.
  assert (E52 : inject_Z (2 ^ 52) == 4503599627370496) by reflexivity.
  rewrite E53, E52 in Hlo. rewrite E53, E52 in Hhi. clear E53 E52.
  clearbody k q D. clear Hq.
  assert (A : 9007199254740992 * (k - q) <= q + 4503599627370496).
  { apply (Qmult_le_r _ _ D HD). nra. }
  assert (B : - (q + 4503599627370496) <= 9007199254740992 * (k - q)).
  { apply (Qmult_le_r _ _ D HD). nra. }
  unfold unitRoundoff. change (1 # 2 ^ 53) with (1 # 9007199254740992). lra.
Qed.

Lemma one_pos_Q : 0 < inject_Z one.
Proof. change (inject_Z 0 < inject_Z one). rewrite <- Zlt_Qlt. exact one_pos. Qed.

Lemma halfQuantum_small : 0 <= halfQuantum /\ 2 * halfQuantum <= unitRoundoff.
Proof. split; vm_compute; discriminate. Qed.

(** An error bound in quanta, read in units. *)
Lemma error_in_units (k q : Q) :
  - (unitRoundoff * q + (1 # 2)) <= k - q <= unitRoundoff * q + (1 # 2) ->
  - (unitRoundoff * (q / inject_Z one) + halfQuantum)
  <= k / inject_Z one - q / inject_Z one
  <= unitRoundoff * (q / inject_Z one) + halfQuantum.
Proof.
  intros [Hlo Hhi].
  pose proof one_pos_Q as HO.
  set (O := inject_Z one) in *.
  unfold halfQuantum. fold O.
  assert (Ek : k / O - q / O == (k - q) / O) by (field; lra).
  assert (Eb : unitRoundoff * (q / O) + 1 / (2 * O) == (unitRoundoff * q + (1 # 2)) / O)
    by (field; lra).
  rewrite Ek, Eb. clearbody O.
  set (a := k - q) in *. set (b := unitRoundoff * q + (1 # 2)) in *. clearbody a b.
  assert (HO' : 0 < / O) by (apply Qinv_lt_0_compat; exact HO).
  unfold Qdiv. split.
  - assert (- (b * / O) == (- b) * / O) as -> by ring.
    apply Qmult_le_r; assumption.
  - apply Qmult_le_r; assumption.
Qed.

Local Close Scope Q_scope.

Lemma value_range (k bound : Z) :
  0 <= k <= bound -> (0 <= value k <= value bound)%Q.
Proof.
  intros [Hlo Hhi]. unfold value.
  pose proof one_pos_Q as HO.
  rewrite Zle_Qle in Hlo, Hhi. change (inject_Z 0) with 0%Q in Hlo.
  assert (HO' : (0 < / inject_Z one)%Q) by (apply Qinv_lt_0_compat; exact HO).
  unfold Qdiv. split.
  - apply Qmult_le_0_compat; [exact Hlo | apply Qlt_le_weak; exact HO'].
  - apply Qmult_le_r; assumption.
Qed.

Lemma value_one : (value one == 1)%Q.
Proof. unfold value. field. pose proof one_pos_Q. lra. Qed.

(** The product that [calculateSwapDetails] computes, for an amount
    that reads as a finite number [x >= 0] and a slippage in [0,100]. *)
Lemma product_bounds (amountIn : string) (x s : Z) :
  parseFloat amountIn = Finite false x ->
  0 <= s <= 100 * one ->
  exists r,
    mul (parseFloat amountIn) (sub (of_Z 1) (div (Finite false s) (of_Z 100)))
    = Finite false r
    /\ representable r
    /\ 0 <= r <= x
    /\ (- ((1 # 2 ^ 51) * value x + halfQuantum)
        <= value r - value x * (1 - value s / 100)
        <= (1 # 2 ^ 51) * value x + halfQuantum)%Q.
Proof.
  intros Hx Hs.
  destruct (@parseFloat_finite _ _ _ Hx) as [Hrep Hov].
  pose proof one_pos as Hone.
  pose proof one_below_overflow as Hone'.
  pose proof one_representable as Hone''.
  assert (Hx0 : 0 <= x) by apply Hrep.
  rewrite Hx, of_Z_1, of_Z_100.
  (* the quotient *)
  set (t := round64 (s * one) (100 * one)).
  destruct (@rounded_below false (s * one) (100 * one) one) as [Et Ht];
    [nia | lia | assumption | assumption | nia | ].
  fold t in Et, Ht.
  assert (Ediv : div (Finite false s) (Finite false (100 * one)) = Finite false t).
  { unfold div. destruct (Z.eqb_spec (100 * one) 0); [lia | ]. exact Et. }
  rewrite Ediv.
  (* the difference *)
  set (u := if one - t =? 0 then 0 else round64 (one - t) 1).
  assert (Esub : sub (Finite false one) (Finite false t) = Finite false u
                 /\ 0 <= u <= one).
  { unfold sub, opp, add. cbn [negb andb]. subst u.
    replace (one + - t) with (one - t) by ring.
    destruct (Z.eqb_spec (one - t) 0) as [E | E]; [split; [reflexivity | lia] | ].
    destruct (Z.ltb_spec (one - t) 0); [lia | ].
    rewrite Z.abs_eq by lia.
    destruct (@rounded_below false (one - t) 1 one) as [Eu Hu];
      [lia | lia | assumption | assumption | lia | ].
    split; [exact Eu | exact Hu]. }
  destruct Esub as [Esub Hu]. rewrite Esub.
  (* the product *)
  set (r := round64 (x * u) one).
  destruct (@rounded_below false (x * u) one x) as [Er Hr];
    [nia | lia | assumption | assumption | nia | ].
  fold r in Er, Hr.
  exists r. split; [exact Er | ].
  split; [apply (@round64_representable (x * u) one); [nia | lia] | ].
  split; [exact Hr | ].
  (* the error *)
  pose proof one_pos_Q as HO.
  destruct halfQuantum_small as [Hh0 Hh].
  assert (HS : (0 <= value s / 100 <= 1)%Q).
  { destruct (@value_range s (100 * one) Hs) as [A B].
    assert (E : (value (100 * one) == 100)%Q).
    { unfold value. rewrite inject_Z_mult. field. lra. }
    rewrite E in B.
    assert (Ehundredth : (value s / 100 == value s * (1 # 100))%Q) by field.
    rewrite Ehundredth. lra. }
  assert (HT : (0 <= value t <= 1)%Q).
  { destruct (@value_range t one Ht) as [A B]. rewrite value_one in B. lra. }
  assert (HU : (0 <= value u <= 1)%Q).
  { destruct (@value_range u one Hu) as [A B]. rewrite value_one in B. lra. }
  assert (HX : (0 <= value x)%Q).
  { destruct (@value_range x x ltac:(lia)) as [A _]. exact A. }
  assert (Herr_t : (- (unitRoundoff * (value s / 100) + halfQuantum)
                    <= value t - value s / 100
                    <= unitRoundoff * (value s / 100) + halfQuantum)%Q).
  { pose proof (@round64_error_Q (s * one) (100 * one) ltac:(nia) ltac:(lia)) as H.
    cbv zeta in H. fold t in H. apply error_in_units in H.
    assert (E : (inject_Z (s * one) / inject_Z (100 * one) / inject_Z one
                 == value s / 100)%Q).
    { unfold value. rewrite !inject_Z_mult. field. lra. }
    rewrite E in H. exact H. }
  assert (Herr_u : (- (unitRoundoff * (1 - value t) + halfQuantum)
                    <= value u - (1 - value t)
                    <= unitRoundoff * (1 - value t) + halfQuantum)%Q).
  { assert (Ev : (inject_Z (one - t) / inject_Z one == 1 - value t)%Q).
    { unfold value, Z.sub. rewrite inject_Z_plus, inject_Z_opp. field. lra. }
    subst u. destruct (Z.eqb_spec (one - t) 0) as [E | E].
    - assert (Et1 : (value t == 1)%Q).
      { replace t with one by lia. apply value_one. }
      assert (E0 : (value 0 == 0)%Q) by (unfold value; field; lra).
      rewrite E0, Et1. assert (0 <= unitRoundoff)%Q by (vm_compute; discriminate). lra.
    - pose proof (@round64_error_Q (one - t) 1 ltac:(lia) ltac:(lia)) as H.
      cbv zeta in H. apply error_in_units in H.
      assert (E1 : (inject_Z (one - t) / inject_Z 1 / inject_Z one == 1 - value t)%Q).
      { rewrite <- Ev. field. lra. }
      rewrite E1 in H. exact H. }
  assert (Herr_r : (- (unitRoundoff * (value x * value u) + halfQuantum)
                    <= value r - value x * value u
                    <= unitRoundoff * (value x * value u) + halfQuantum)%Q).
  { pose proof (@round64_error_Q (x * u) one ltac:(nia) ltac:(lia)) as H.
    cbv zeta in H. fold r in H. apply error_in_units in H.
    assert (E : (inject_Z (x * u) / inject_Z one / inject_Z one == value x * value u)%Q).
    { unfold value. rewrite inject_Z_mult. field. lra. }
    rewrite E in H. exact H. }
  assert (H0e : (0 <= unitRoundoff)%Q) by (vm_compute; discriminate).
  pose proof (@error_composition (value x) (value s / 100) (value t) (value u) (value r)
                unitRoundoff halfQuantum HX HS HT HU H0e Hh0 Hh Herr_t Herr_u Herr_r) as H.
  assert (E4 : (4 * unitRoundoff == 1 # 2 ^ 51)%Q) by reflexivity.
  rewrite E4 in H. exact H.
Qed.

End Rounding.

(* ------------------------------------------------------------------ *)
(** ** The slippage floor of the quote *)
(* ------------------------------------------------------------------ *)

Section SlippageFloor.

#[local] Existing Instance Binary64.numbers.

(** C7 (amended). For every amount that [parseFloat] reads as a finite
    number [x >= 0] and every slippage in [0,100], the quote keeps the
    amount as estimated output, and [minOutputAfterSlippage] is the
    decimal rendering of a double [r] that is the product
    [x * (1 - slippage / 100)] with each of its three operations rounded
    to nearest: [r] lies between 0 and [x], and it differs from the exact
    product by at most [2^-51 * x + 2^-1075], in either direction. *)
Theorem slippage_floor_is_rounded_to_nearest
    (tokenIn tokenOut amountIn : string) (x s : Z) :
  Binary64.parseFloat amountIn = Binary64.Finite false x ->
  0 <= s <= 100 * Binary64.one ->
  let details :=
    calculateSwapDetails tokenIn tokenOut amountIn (Binary64.Finite false s) in
  estimatedOutput details = amountIn
  /\ exists r,
       minOutputAfterSlippage details = Binary64.toString (Binary64.Finite false r)
       /\ Binary64.representable r
       /\ 0 <= r <= x
       /\ (- ((1 # 2 ^ 51) * Binary64.value x + Binary64.halfQuantum)
           <= Binary64.value r - Binary64.value x * (1 - Binary64.value s / 100)
           <= (1 # 2 ^ 51) * Binary64.value x + Binary64.halfQuantum)%Q.
Proof.
  intros Hx Hs details. split; [reflexivity | ].
  destruct (product_bounds amountIn Hx Hs) as (r & Hr & Hrep & Hrange & Herr).
  exists r. split; [ | split; [exact Hrep | split; [exact Hrange | exact Herr]]].
  subst details. unfold calculateSwapDetails. cbn [minOutputAfterSlippage].
  change (Binary64.toString
            (Binary64.mul (Binary64.parseFloat amountIn)
               (Binary64.sub (Binary64.of_Z 1)
                  (Binary64.div (Binary64.Finite false s) (Binary64.of_Z 100))))
          = Binary64.toString (Binary64.Finite false r)).
  rewrite Hr. reflexivity.
Qed.

(** C7, as stated, fails for an amount of 0.1 at a slippage of 10: the
    exact floor is 0.09, and the quote gives 0.09000000000000001. *)
Lemma slippage_floor_exceeds_exact_value :
  let details := calculateSwapDetails "ETH" TOKEN_ADDRESSES.SHIB "0.1" (num_of_Z 10) in
  estimatedOutput details = "0.1"
  /\ minOutputAfterSlippage details = "0.09000000000000001"
  /\ Binary64.exactDecimal "0.1" = Some (1 # 10)
  /\ Binary64.exactDecimal "0.09000000000000001"
     = Some (9000000000000001 # 100000000000000000)
  /\ ~ ((9000000000000001 # 100000000000000000) <= (1 # 10) * (1 - 10 / 100))%Q.
Proof.
  cbv zeta. split; [reflexivity | ].
  split; [vm_compute; reflexivity | ].
  split; [vm_compute; reflexivity | ].
  split; [vm_compute; reflexivity | ].
  vm_compute. intros H. apply H. reflexivity.
Qed.

Lemma slippage_floor_is_rounded_to_nearest_witness :
  Binary64.parseFloat "0.1" = Binary64.Finite false (7205759403792794 * 2 ^ 1018)
  /\ 0 <= 10 * Binary64.one <= 100 * Binary64.one
  /\ exists r,
       minOutputAfterSlippage
         (calculateSwapDetails "ETH" TOKEN_ADDRESSES.SHIB "0.1"
            (Binary64.Finite false (10 * Binary64.one)))
       = Binary64.toString (Binary64.Finite false r)
       /\ 0 <= r <= 7205759403792794 * 2 ^ 1018.
Proof.
  assert (Hx : Binary64.parseFloat "0.1"
               = Binary64.Finite false (7205759403792794 * 2 ^ 1018))
    by (vm_compute; reflexivity).
  assert (Hs : 0 <= 10 * Binary64.one <= 100 * Binary64.one)
    by (split; vm_compute; discriminate).
  split; [exact Hx | ]. split; [exact Hs | ].
  destruct (@slippage_floor_is_rounded_to_nearest
              "ETH" TOKEN_ADDRESSES.SHIB "0.1" _ _ Hx Hs)
    as (_ & r & Hr & _ & Hrange & _).
  exists r. split; [exact Hr | exact Hrange].
Defined.

(** The arithmetic agrees with the kernel's binary64 numbers on the
    operations of this input: 0.1 is [0x1.999999999999ap-4]. *)
Example product_agrees_with_primitive_floats :
  Prim2SF (0x1.999999999999ap-4)%float
  = Binary64.toSpecFloat (Binary64.parseFloat "0.1")
  /\ Prim2SF (10 / 100)%float
     = Binary64.toSpecFloat (Binary64.div (Binary64.of_Z 10) (Binary64.of_Z 100))
  /\ Prim2SF (1 - 10 / 100)%float
     = Binary64.toSpecFloat
         (Binary64.sub (Binary64.of_Z 1) (Binary64.div (Binary64.of_Z 10) (Binary64.of_Z 100)))
  /\ Prim2SF (0x1.999999999999ap-4 * (1 - 10 / 100))%float
     = Binary64.toSpecFloat
         (Binary64.mul (Binary64.parseFloat "0.1")
            (Binary64.sub (Binary64.of_Z 1)
               (Binary64.div (Binary64.of_Z 10) (Binary64.of_Z 100)))).
Proof. vm_compute. repeat split; reflexivity. Qed.

(** Renderings of some numbers: a sum that is not exact, a quotient, the
    first integer written with an exponent, and text with a prefix that
    is a number. *)
Example renderings :
  num_toString (num_add (parseFloat "0.1") (parseFloat "0.2")) = "0.30000000000000004"
  /\ num_toString (num_div (num_of_Z 1) (num_of_Z 3)) = "0.3333333333333333"
  /\ num_toString (parseFloat "1e21") = "1e+21"
  /\ num_toString (parseFloat "  -12.5e2px") = "-1250"
  /\ num_toString (num_floor (parseFloat "-0.5")) = "-1"
  /\ num_toString (parseInt "0x1F") = "31".
Proof. vm_compute. repeat split; reflexivity. Qed.

End SlippageFloor.
